(** * ShiftCommander v2: the shift/seat staffing model and its tools

    A shallow embedding of the scheduling tools of
    [Brian910cpr/shiftcommander_v2] (the scripts under [tools/schedule]) and
    the properties of their specification:

    - week generation: [ensure_dec2025_weeks_and_tow_v1.py], [create_week.py]
      and the week row of [import_history_month_2025_12_v3.py];
    - first-out rotation: [apply_tow] and [apply_week_first_out];
    - seat reconciliation: [dedupe_sc_seat_records_hard.py] and
      [prune_blank_defaults_when_history_exists_v3.py];
    - the fragility radar: [fragility_radar_v1.py] and [fragility_radar_v2.py].

    The SQLite database is modelled as a record of tables, a table as the list
    of its rows in rowid (insertion) order.  A column that can hold NULL is an
    [option]; Python's truthiness, [str.upper], [str.strip] and [in] on
    strings are written out on ASCII strings.  A [date] is its proleptic
    Gregorian ordinal ([date.toordinal()]), so [d + timedelta(days=k)] is
    [d + k]. *)

From Stdlib Require Import ZArith List String Ascii Bool Lia DecimalString.
From Stdlib Require Import Permutation Sorted.
Import ListNotations.

Local Open Scope Z_scope.
Local Open Scope string_scope.

(* ================================================================== *)
(** * Part I. Definitions *)
(* ================================================================== *)

(** ** Python and SQL values *)

Module Py.

(** [bool(x)] for a value that is [None] or a [str]. *)
Definition truthy (o : option string) : bool :=
  match o with
  | Some s => negb (s =? "")
  | None => false
  end.

(** [x or ""] for a value that is [None] or a [str]. *)
Definition or_empty (o : option string) : string :=
  match o with
  | Some s => s
  | None => ""
  end.

(** [a or b] where [b] is a [str]. *)
Definition or_else (a : option string) (b : string) : string :=
  if truthy a then or_empty a else b.

(** [a or b] where both may be [None]. *)
Definition or_opt (a b : option string) : option string :=
  if truthy a then a else b.

Definition upper_char (c : ascii) : ascii :=
  let n := nat_of_ascii c in
  if ((97 <=? n) && (n <=? 122))%nat then ascii_of_nat (n - 32) else c.

(** [s.upper()] on ASCII strings. *)
Fixpoint upper (s : string) : string :=
  match s with
  | EmptyString => EmptyString
  | String c t => String (upper_char c) (upper t)
  end.

(** The ASCII characters for which [str.isspace] holds. *)
Definition is_space (c : ascii) : bool :=
  let n := nat_of_ascii c in
  (((9 <=? n) && (n <=? 13)) || ((28 <=? n) && (n <=? 32)))%nat.

Fixpoint lstrip (s : string) : string :=
  match s with
  | EmptyString => EmptyString
  | String c t => if is_space c then lstrip t else s
  end.

Fixpoint rstrip (s : string) : string :=
  match s with
  | EmptyString => EmptyString
  | String c t =>
      match rstrip t with
      | EmptyString => if is_space c then EmptyString else String c EmptyString
      | t' => String c t'
      end
  end.

(** [s.strip()]. *)
Definition strip (s : string) : string := rstrip (lstrip s).

(** [sub in s]: [sub] occurs in [s] as a substring. *)
Fixpoint contains (sub s : string) : bool :=
  prefix sub s ||
  match s with
  | EmptyString => false
  | String _ t => contains sub t
  end.

(** [x in (a, b, ...)] for strings. *)
Definition in_tuple (x : string) (l : list string) : bool :=
  existsb (String.eqb x) l.

(** [str(n)] for an [int]. *)
Definition str_of_int (n : Z) : string := NilZero.string_of_int (Z.to_int n).

(** [range(n)]. *)
Definition range (n : nat) : list Z := map Z.of_nat (seq 0 n).

End Py.

Module Sql.

(** [col = ?] where the column and the bound parameter may be NULL: a
    comparison with NULL is never true. *)
Definition eq_null (a b : option string) : bool :=
  match a, b with
  | Some x, Some y => x =? y
  | _, _ => false
  end.

Definition like_char (p c : ascii) : bool :=
  (p =? "_")%char || (Py.upper_char p =? Py.upper_char c)%char.

Fixpoint like_prefix (pat s : string) : bool :=
  match pat, s with
  | EmptyString, _ => true
  | String p pat', String c s' => like_char p c && like_prefix pat' s'
  | String _ _, EmptyString => false
  end.

(** [s LIKE '%' || pat || '%'] for a pattern without [%]: SQLite's LIKE
    ignores ASCII case and [_] matches any one character. *)
Fixpoint like_contains (pat s : string) : bool :=
  like_prefix pat s ||
  match s with
  | EmptyString => false
  | String _ t => like_contains pat t
  end.

Fixpoint ltrim (s : string) : string :=
  match s with
  | String " " t => ltrim t
  | _ => s
  end.

Fixpoint rtrim (s : string) : string :=
  match s with
  | EmptyString => EmptyString
  | String c t =>
      match rtrim t with
      | EmptyString => if (c =? " ")%char then EmptyString else String c EmptyString
      | t' => String c t'
      end
  end.

(** [TRIM(s)]: removes spaces from both ends. *)
Definition trim (s : string) : string := rtrim (ltrim s).

(** The table after [if not SELECT ... WHERE key = ?: INSERT ...]:
    [same x r] says that the row [x] of the table answers the [SELECT] for
    the row [r] to insert. *)
Definition has_row {A : Type} (same : A -> A -> bool) (tbl : list A) (r : A) : bool :=
  existsb (fun x => same x r) tbl.

Definition insert_if_missing {A : Type} (same : A -> A -> bool)
    (tbl : list A) (r : A) : list A :=
  if has_row same tbl r then tbl else tbl ++ [r].

End Sql.

(** ** The calendar: [datetime.date], [datetime.datetime] and their formats *)

Module Cal.

Local Open Scope Z_scope.

(** A [date] is its ordinal; 0001-01-01 is day 1. *)
Definition date := Z.

Definition MINORDINAL : Z := 1.
Definition MAXORDINAL : Z := 3652059.

Record time := mk_time { hour : Z; minute : Z; second : Z }.

Record datetime := combine { dt_date : date; dt_time : time }.

Definition is_leap (y : Z) : bool :=
  (y mod 4 =? 0) && (negb (y mod 100 =? 0) || (y mod 400 =? 0)).

Definition days_in_month_tbl : list Z :=
  [31; 28; 31; 30; 31; 30; 31; 31; 30; 31; 30; 31].

Definition days_in_month (y m : Z) : Z :=
  if (m =? 2) && is_leap y then 29
  else nth (Z.to_nat (m - 1)) days_in_month_tbl 0.

Definition days_before_month_tbl : list Z :=
  [0; 31; 59; 90; 120; 151; 181; 212; 243; 273; 304; 334].

Definition days_before_month (y m : Z) : Z :=
  nth (Z.to_nat (m - 1)) days_before_month_tbl 0
  + (if (2 <? m) && is_leap y then 1 else 0).

Definition days_before_year (y : Z) : Z :=
  let y' := y - 1 in y' * 365 + y' / 4 - y' / 100 + y' / 400.

(** [date(y, m, d).toordinal()]. *)
Definition ymd2ord (y m d : Z) : date :=
  days_before_year y + days_before_month y m + d.

(** [date.fromordinal(n)] as (year, month, day). *)
Definition ord2ymd (n : date) : Z * Z * Z :=
  let n := n - 1 in
  let n400 := n / 146097 in
  let n := n mod 146097 in
  let n100 := n / 36524 in
  let n := n mod 36524 in
  let n4 := n / 1461 in
  let n := n mod 1461 in
  let n1 := n / 365 in
  let n := n mod 365 in
  let year := n400 * 400 + 1 + n100 * 100 + n4 * 4 + n1 in
  if (n1 =? 4) || (n100 =? 4) then (year - 1, 12, 31)
  else
    let leapyear := (n1 =? 3) && (negb (n4 =? 24) || (n100 =? 3)) in
    let month := Z.shiftr (n + 50) 5 in
    let preceding :=
      nth (Z.to_nat (month - 1)) days_before_month_tbl 0
      + (if (2 <? month) && leapyear then 1 else 0) in
    if n <? preceding then
      let month := month - 1 in
      let preceding :=
        preceding
        - (nth (Z.to_nat (month - 1)) days_in_month_tbl 0
           + (if (month =? 2) && leapyear then 1 else 0)) in
      (year, month, n - preceding + 1)
    else (year, month, n - preceding + 1).

(** [d.weekday()]: Monday is 0. *)
Definition weekday (d : date) : Z := (d + 6) mod 7.

Definition digit (n : Z) : ascii := ascii_of_nat (48 + Z.to_nat (n mod 10)).

(** ["%02d"] and ["%04d"]. *)
Definition pad2 (n : Z) : string :=
  String (digit (n / 10)) (String (digit n) EmptyString).

Definition pad4 (n : Z) : string :=
  String (digit (n / 1000)) (String (digit (n / 100)) (pad2 n)).

(** [d.isoformat()], which is also [d.strftime("%Y-%m-%d")]. *)
Definition isoformat (d : date) : string :=
  let '(y, m, dd) := ord2ymd d in
  pad4 y ++ "-" ++ pad2 m ++ "-" ++ pad2 dd.

(** [t.strftime("%H:%M:%S")]. *)
Definition hms (t : time) : string :=
  pad2 (hour t) ++ ":" ++ pad2 (minute t) ++ ":" ++ pad2 (second t).

(** [dt.strftime("%Y-%m-%d %H:%M:%S")]. *)
Definition strftime (dt : datetime) : string :=
  isoformat (dt_date dt) ++ " " ++ hms (dt_time dt).

Definition day_names : list string :=
  ["Mon"; "Tue"; "Wed"; "Thu"; "Fri"; "Sat"; "Sun"].

(** [d.strftime("%a %m/%d")] in the C locale. *)
Definition strftime_a_md (d : date) : string :=
  let '(_, m, dd) := ord2ymd d in
  nth (Z.to_nat (weekday d)) day_names "" ++ " " ++ pad2 m ++ "/" ++ pad2 dd.

(** [datetime.min.time()] and [time(0,0,0)]. *)
Definition midnight : time := mk_time 0 0 0.
Definition t0600 : time := mk_time 6 0 0.
Definition t1800 : time := mk_time 18 0 0.

(** Dates on which the week generators raise no [OverflowError]: the lock
    date, 29 days back at most, and the end of the last night shift, 7 days
    on, are dates. *)
Definition valid_start (d : date) : Prop :=
  MINORDINAL + 29 <= d /\ d + 7 <= MAXORDINAL.

End Cal.

(** ** The tables of the scheduling database *)

Module Schema.

(** [sc_weeks] (and [schedule_weeks] of [create_week.py]). *)
Record Week := mk_week {
  week_id : string;
  start_date : string;
  end_date : string;
  lock_dt : string;
  first_out_default_unit_id : string;
  status : string
}.

(** [sc_shifts]. *)
Record Shift := mk_shift {
  shift_id : string;
  s_week_id : string;
  shift_start : string;
  shift_end : string;
  label : string;
  day_index : Z;
  slot : string
}.

(** [sc_shift_config]. *)
Record ShiftConfig := mk_cfg {
  c_shift_id : string;
  first_out_override_unit_id : option string;
  staffed_unit_id : option string;
  is_salary_only : Z;
  active : Z
}.

(** [sc_seat_records].  [seat_record_id] is declared [TEXT PRIMARY KEY],
    which in SQLite admits NULL: [insert_seat] of
    [apply_tow_rotation_dec2025.py] inserts seat rows without an id, and
    [prune_blank_defaults_when_history_exists_v3.py] counts and deletes the
    rows whose [seat_record_id IS NULL]. *)
Record SeatRecord := mk_seat {
  seat_record_id : option string;
  r_shift_id : string;
  unit_id : string;
  seat_id : string;
  layer : string;
  assigned_entity_type : option string;
  assigned_person_id : option string;
  assigned_placeholder_id : option string;
  health_status : option string;
  note : option string
}.

Record DB := mk_db {
  sc_weeks : list Week;
  sc_shifts : list Shift;
  sc_shift_config : list ShiftConfig;
  sc_seat_records : list SeatRecord
}.

Definition empty_db : DB := mk_db [] [] [] [].

Definition with_weeks (conn : DB) (t : list Week) : DB :=
  mk_db t (sc_shifts conn) (sc_shift_config conn) (sc_seat_records conn).
Definition with_shifts (conn : DB) (t : list Shift) : DB :=
  mk_db (sc_weeks conn) t (sc_shift_config conn) (sc_seat_records conn).
Definition with_cfg (conn : DB) (t : list ShiftConfig) : DB :=
  mk_db (sc_weeks conn) (sc_shifts conn) t (sc_seat_records conn).
Definition with_seats (conn : DB) (t : list SeatRecord) : DB :=
  mk_db (sc_weeks conn) (sc_shifts conn) (sc_shift_config conn) t.

(** [UPDATE sc_weeks SET first_out_default_unit_id = ?] on one row. *)
Definition set_first_out (u : string) (w : Week) : Week :=
  mk_week (week_id w) (start_date w) (end_date w) (lock_dt w) u (status w).

(** [UPDATE sc_shift_config SET staffed_unit_id = ?] on one row. *)
Definition set_staffed (u : string) (c : ShiftConfig) : ShiftConfig :=
  mk_cfg (c_shift_id c) (first_out_override_unit_id c) (Some u)
         (is_salary_only c) (active c).

(** [SELECT shift_id FROM sc_shifts WHERE week_id = ?]. *)
Definition shift_ids_of_week (conn : DB) (wid : string) : list string :=
  map shift_id (filter (fun s => s_week_id s =? wid) (sc_shifts conn)).

(** The seat key [(shift_id, unit_id, seat_id, layer)]. *)
Definition key : Type := string * string * string * string.

Definition key_of (r : SeatRecord) : key :=
  (r_shift_id r, unit_id r, seat_id r, layer r).

Definition key_eqb (a b : key) : bool :=
  let '(a1, a2, a3, a4) := a in
  let '(b1, b2, b3, b4) := b in
  (a1 =? b1) && (a2 =? b2) && (a3 =? b3) && (a4 =? b4).

End Schema.

Import Schema.

(** ** [ensure_dec2025_weeks_and_tow_v1.py] *)

Module EnsureWeeks.

Definition UNITS : list string := ["AMB120"; "AMB121"; "AMB131"].
Definition SEATS : list string := ["ATTENDANT"; "DRIVER"].
Definition LAYERS : list (string * bool) := [("PRIMARY", true); ("SHADOW", false)].

Definition week_id_for (start : Cal.date) : string :=
  let end_ := start + 6 in
  "WEEK_" ++ Cal.isoformat start ++ "_to_" ++ Cal.isoformat end_.

Definition shift_id_for (wid : string) (day_index : Z) (slot : string) : string :=
  wid ++ "__D" ++ Py.str_of_int day_index ++ "__" ++ slot.

Definition gen_seat_record_id (shift_id unit_id seat_id layer : string) : string :=
  shift_id ++ "__" ++ layer ++ "__" ++ unit_id ++ "__" ++ seat_id.

(** [if not SELECT shift_id FROM sc_shifts WHERE shift_id = ?: INSERT]. *)
Definition ensure_shift (conn : DB) (s : Shift) : DB :=
  if existsb (fun x => shift_id x =? shift_id s) (sc_shifts conn)
  then conn
  else with_shifts conn (sc_shifts conn ++ [s]).

(** DAY 06-18: the row of the first [INSERT INTO sc_shifts]. *)
Definition day_shift (wid : string) (start : Cal.date) (di : Z) : Shift :=
  let d := start + di in
  let s1_start := Cal.combine d Cal.t0600 in
  let s1_end := Cal.combine d Cal.t1800 in
  let s1_id := shift_id_for wid di "DAY" in
  let label1 := Cal.strftime_a_md d ++ " DAY (06-18)" in
  mk_shift s1_id wid (Cal.strftime s1_start) (Cal.strftime s1_end) label1 di "DAY".

(** NIGHT 18-06: the row of the second. *)
Definition night_shift (wid : string) (start : Cal.date) (di : Z) : Shift :=
  let d := start + di in
  let s2_start := Cal.combine d Cal.t1800 in
  let s2_end := Cal.combine (d + 1) Cal.t0600 in
  let s2_id := shift_id_for wid di "NIGHT" in
  let label2 := Cal.strftime_a_md d ++ " NIGHT (18-06)" in
  mk_shift s2_id wid (Cal.strftime s2_start) (Cal.strftime s2_end) label2 di "NIGHT".

(** The body of [for di in range(7)]. *)
Definition ensure_day (wid : string) (start : Cal.date) (conn : DB) (di : Z) : DB :=
  let conn := ensure_shift conn (day_shift wid start di) in
  ensure_shift conn (night_shift wid start di).

(** The row of [INSERT INTO sc_seat_records]. *)
Definition new_seat (sid layer unit_id seat_id : string) : SeatRecord :=
  let srid := gen_seat_record_id sid unit_id seat_id layer in
  mk_seat (Some srid) sid unit_id seat_id layer
          (Some "NONE") None None (Some "UNFILLED") None.

(** The body of [for seat_id in SEATS]. *)
Definition ensure_seat (sid layer unit_id : string) (conn : DB) (seat_id : string) : DB :=
  let srid := gen_seat_record_id sid unit_id seat_id layer in
  if existsb (fun r => Sql.eq_null (seat_record_id r) (Some srid)) (sc_seat_records conn)
  then conn
  else with_seats conn (sc_seat_records conn ++ [new_seat sid layer unit_id seat_id]).

(** [staffed[0] if staffed and staffed[0] else first_out], where [staffed]
    is the first configuration row of the shift. *)
Definition staffed_of (cfgs : list ShiftConfig) (sid first_out : string) : string :=
  match find (fun c => c_shift_id c =? sid) cfgs with
  | Some c => Py.or_else (staffed_unit_id c) first_out
  | None => first_out
  end.

Definition staffed_unit_of (conn : DB) (sid first_out : string) : string :=
  staffed_of (sc_shift_config conn) sid first_out.

(** The row of [INSERT INTO sc_shift_config]. *)
Definition new_cfg (first_out sid : string) : ShiftConfig :=
  mk_cfg sid None (Some first_out) 0 1.

Definition ensure_cfg (first_out : string) (conn : DB) (sid : string) : DB :=
  if existsb (fun c => c_shift_id c =? sid) (sc_shift_config conn)
  then conn
  else with_cfg conn (sc_shift_config conn ++ [new_cfg first_out sid]).

Definition units_for_layer (units : list string) (staffed_unit : string)
    (is_primary : bool) : list string :=
  if is_primary then [staffed_unit]
  else filter (fun u => negb (u =? staffed_unit)) units.

(** The body of [for layer, is_primary in LAYERS]. *)
Definition ensure_layer (units : list string) (sid staffed_unit : string)
    (conn : DB) (l : string * bool) : DB :=
  let '(layer, is_primary) := l in
  fold_left
    (fun conn unit_id => fold_left (ensure_seat sid layer unit_id) SEATS conn)
    (units_for_layer units staffed_unit is_primary) conn.

(** The body of [for sid in shift_ids]. *)
Definition ensure_cfg_seats (units : list string) (first_out : string)
    (conn : DB) (sid : string) : DB :=
  let conn := ensure_cfg first_out conn sid in
  let staffed_unit := staffed_unit_of conn sid first_out in
  fold_left (ensure_layer units sid staffed_unit) LAYERS conn.

(** Lock = 4 weeks before Thursday at 00:00 (local). *)
Definition lock_dt_of (start : Cal.date) : Cal.datetime :=
  Cal.combine (start - 28) Cal.midnight.

(** The row of [INSERT INTO sc_weeks]. *)
Definition new_week (start : Cal.date) (first_out : string) : Week :=
  let end_ := start + 6 in
  let wid := week_id_for start in
  let lock_dt_str := Cal.strftime (lock_dt_of start) in
  mk_week wid (Cal.isoformat start) (Cal.isoformat end_) lock_dt_str first_out "DRAFT".

(** The rows the three loops would insert into an empty database: the
    fourteen shifts of the week, and for one shift its seat records. *)
Definition week_shifts (wid : string) (start : Cal.date) : list Shift :=
  flat_map (fun di => [day_shift wid start di; night_shift wid start di]) (Py.range 7).

Definition seat_rows (units : list string) (sid staffed_unit : string) : list SeatRecord :=
  flat_map
    (fun l : string * bool =>
       flat_map (fun unit_id => map (new_seat sid (fst l) unit_id) SEATS)
                (units_for_layer units staffed_unit (snd l)))
    LAYERS.

(** The keys the [SELECT]s before the [INSERT]s compare. *)
Definition same_week (x r : Week) : bool := week_id x =? week_id r.
Definition same_shift (x r : Shift) : bool := shift_id x =? shift_id r.
Definition same_cfg (x r : ShiftConfig) : bool := c_shift_id x =? c_shift_id r.
Definition same_seat (x r : SeatRecord) : bool :=
  Sql.eq_null (seat_record_id x) (seat_record_id r).

(** What the body of [for sid in shift_ids] does to the two tables it
    writes, [sc_shift_config] and [sc_seat_records]. *)
Definition cfg_seats_step (units : list string) (first_out : string)
    (t : list ShiftConfig * list SeatRecord) (sid : string)
    : list ShiftConfig * list SeatRecord :=
  let cfgs := Sql.insert_if_missing same_cfg (fst t) (new_cfg first_out sid) in
  (cfgs,
   fold_left (Sql.insert_if_missing same_seat)
             (seat_rows units sid (staffed_of cfgs sid first_out)) (snd t)).

(** The ids of the fourteen shifts. *)
Definition shift_ids_for (wid : string) : list string :=
  flat_map (fun di => [shift_id_for wid di "DAY"; shift_id_for wid di "NIGHT"])
           (Py.range 7).

(** What follows the week id in them. *)
Definition shift_suffixes : list string :=
  ["__D0__DAY"; "__D0__NIGHT"; "__D1__DAY"; "__D1__NIGHT"; "__D2__DAY"; "__D2__NIGHT";
   "__D3__DAY"; "__D3__NIGHT"; "__D4__DAY"; "__D4__NIGHT"; "__D5__DAY"; "__D5__NIGHT";
   "__D6__DAY"; "__D6__NIGHT"].

(** The database holds no row of the week that starts on [start]. *)
Definition fresh_week (conn : DB) (start : Cal.date) : Prop :=
  let wid := week_id_for start in
  (forall w, In w (sc_weeks conn) -> week_id w <> wid)
  /\ (forall s, In s (sc_shifts conn) ->
                s_week_id s <> wid /\ ~ In (shift_id s) (shift_ids_for wid))
  /\ (forall c, In c (sc_shift_config conn) -> ~ In (c_shift_id c) (shift_ids_for wid))
  /\ (forall r sid unit_id seat_id layer,
         In r (sc_seat_records conn) -> In sid (shift_ids_for wid) ->
         seat_record_id r <> Some (gen_seat_record_id sid unit_id seat_id layer)).


(** [ensure_week(conn, start, first_out)]; the module constant [UNITS] the
    seat loop reads is the parameter [units].  It is the function of the
    script on the starts of [Cal.valid_start]: on another date Python raises
    [OverflowError] at [start + timedelta(days=6)] or
    [start - timedelta(days=28)], before the first write. *)
Definition ensure_week (units : list string) (conn : DB) (start : Cal.date)
    (first_out : string) : DB :=
  let wid := week_id_for start in
  let conn :=
    if existsb (fun w => week_id w =? wid) (sc_weeks conn)
    then conn
    else with_weeks conn (sc_weeks conn ++ [new_week start first_out]) in
  let conn := fold_left (ensure_day wid start) (Py.range 7) conn in
  let shift_ids := shift_ids_of_week conn wid in
  fold_left (ensure_cfg_seats units first_out) shift_ids conn.

(** [apply_tow(conn, start, tow_unit)]. *)
Definition apply_tow (conn : DB) (start : Cal.date) (tow_unit : string) : DB :=
  let wid := week_id_for start in
  let conn :=
    with_weeks conn
      (map (fun w => if week_id w =? wid then set_first_out tow_unit w else w)
           (sc_weeks conn)) in
  let shift_ids := shift_ids_of_week conn wid in
  fold_left
    (fun conn sid =>
       with_cfg conn
         (map (fun c => if c_shift_id c =? sid then set_staffed tow_unit c else c)
              (sc_shift_config conn)))
    shift_ids conn.

(** The two loops of [main]: ensure the weeks, then apply the rotation;
    week [i] gets [rotation[i % len(rotation)]]. *)
Definition rotation_unit (rotation : list string) (i : Z) : string :=
  nth (Z.to_nat (i mod Z.of_nat (List.length rotation))) rotation "".

Definition main (units : list string) (conn : DB) (start1 : Cal.date)
    (weeks : nat) (rotation : list string) : DB :=
  let conn :=
    fold_left
      (fun conn i => ensure_week units conn (start1 + 7 * i) (rotation_unit rotation i))
      (Py.range weeks) conn in
  fold_left
    (fun conn i => apply_tow conn (start1 + 7 * i) (rotation_unit rotation i))
    (Py.range weeks) conn.

End EnsureWeeks.

(** ** [apply_tow_rotation_dec2025.py]: the rotation step *)

Module ApplyTowRotation.

Definition week_id_for (start : Cal.date) : string :=
  let end_ := start + 6 in
  "WEEK_" ++ Cal.isoformat start ++ "_to_" ++ Cal.isoformat end_.

(** [apply_week_first_out(conn, start, first_out)]. *)
Definition apply_week_first_out (conn : DB) (start : Cal.date)
    (first_out : string) : DB :=
  let wid := week_id_for start in
  let conn :=
    with_weeks conn
      (map (fun w => if week_id w =? wid then set_first_out first_out w else w)
           (sc_weeks conn)) in
  let shifts := shift_ids_of_week conn wid in
  fold_left
    (fun conn shift_id =>
       with_cfg conn
         (map (fun c => if c_shift_id c =? shift_id then set_staffed first_out c else c)
              (sc_shift_config conn)))
    shifts conn.

End ApplyTowRotation.

(** ** [create_week.py] *)

Module CreateWeek.

(** A row of the [units] table. *)
Record UnitRow := mk_unit { u_unit_id : string; u_active : Z }.

(** The connection: the tables [schedule_weeks], [shifts], [shift_config]
    and [seat_records], which have the columns of their [sc_] namesakes,
    the [units] table when it exists, and the number of ids [uuid.uuid4]
    has handed out. *)
Record Conn := mk_conn {
  tables : DB;
  units : option (list UnitRow);
  uuids_used : nat
}.

(** [ORDER BY unit_id]. *)
Fixpoint insert_sorted (u : string) (l : list string) : list string :=
  match l with
  | [] => [u]
  | x :: t => if String.leb u x then u :: l else x :: insert_sorted u t
  end.

Definition order_by (l : list string) : list string :=
  fold_right insert_sorted [] l.

(** [units_list(conn)]: the active units, or the fallback list when the
    table is missing or has no active unit. *)
Definition units_list (conn : Conn) : list string :=
  match units conn with
  | Some rows =>
      match order_by (map u_unit_id (filter (fun u => u_active u =? 1)%Z rows)) with
      | [] => ["AMB120"; "AMB121"; "AMB131"]
      | l => l
      end
  | None => ["AMB120"; "AMB121"; "AMB131"]
  end.

(** [ensure_week_not_exists]: [None] is the [SystemExit]. *)
Definition ensure_week_not_exists (conn : Conn) (start_date : string) : option unit :=
  if existsb (fun w => Schema.start_date w =? start_date) (sc_weeks (tables conn))
  then None
  else Some tt.

Section WithUuid.

(** [uuid4 n] is the value of the [n]-th call of [uuid.uuid4()]; the
    values are taken to be fresh, so that no [INSERT] of a generated key
    fails. *)
Variable uuid4 : nat -> string.

(** The schema defaults [create_week]'s [INSERT]s rely on. *)
Definition DEFAULT_assigned_entity_type : string := "UNASSIGNED".
Definition DEFAULT_health_status : string := "UNFILLED".
Definition DEFAULT_is_salary_only : Z := 0.

(** The body of [for seat_id in ("ATTENDANT","DRIVER")]. *)
Definition insert_seat (shift_id unit_id layer : string) (conn : Conn)
    (seat_id : string) : Conn :=
  let t := tables conn in
  mk_conn
    (with_seats t
       (sc_seat_records t ++
        [mk_seat (Some (uuid4 (uuids_used conn))) shift_id unit_id seat_id layer
                 (Some DEFAULT_assigned_entity_type) None None
                 (Some DEFAULT_health_status) None]))
    (units conn) (S (uuids_used conn)).

(** The body of [for unit_id in units]. *)
Definition insert_unit_seats (shift_id first_out_default : string) (conn : Conn)
    (unit_id : string) : Conn :=
  let layer := if unit_id =? first_out_default then "PRIMARY" else "SHADOW" in
  fold_left (insert_seat shift_id unit_id layer) ["ATTENDANT"; "DRIVER"] conn.

(** The body of [for slot, s_start, s_end, day_index in shifts]. *)
Definition insert_shift (week_id first_out_default : string) (conn : Conn)
    (sh : string * Cal.datetime * Cal.datetime * Z) : Conn :=
  let '(slot, s_start, s_end, day_index) := sh in
  let shift_id := uuid4 (uuids_used conn) in
  let label :=
    if slot =? "DAY"
    then Cal.strftime_a_md (Cal.dt_date s_start) ++ " " ++ slot ++ " (06-18)"
    else Cal.strftime_a_md (Cal.dt_date s_start) ++ " " ++ slot ++ " (18-06)" in
  let t := tables conn in
  let t :=
    with_shifts t
      (sc_shifts t ++
       [mk_shift shift_id week_id (Cal.strftime s_start) (Cal.strftime s_end)
                 label day_index slot]) in
  let t :=
    with_cfg t
      (sc_shift_config t ++
       [mk_cfg shift_id None (Some first_out_default) DEFAULT_is_salary_only 1]) in
  let conn := mk_conn t (units conn) (S (uuids_used conn)) in
  let units := units_list conn in
  fold_left (insert_unit_seats shift_id first_out_default) units conn.

(** The list [shifts] built by [for day_index in range(7)]. *)
Definition week_shifts (start_date : Cal.date)
    : list (string * Cal.datetime * Cal.datetime * Z) :=
  flat_map
    (fun day_index =>
       let d := start_date + day_index in
       let day_start := Cal.combine d Cal.t0600 in
       let day_end := Cal.combine d Cal.t1800 in
       let night_start := Cal.combine d Cal.t1800 in
       let night_end := Cal.combine (d + 1) Cal.t0600 in
       [("DAY", day_start, day_end, day_index);
        ("NIGHT", night_start, night_end, day_index)])
    (Py.range 7).

(** [create_week(conn, start_date, first_out_default, lock_rule_days)];
    [None] is the [IntegrityError] of inserting a week id that exists. *)
Definition create_week (conn : Conn) (start_date : Cal.date)
    (first_out_default : string) (lock_rule_days : Z) : option (Conn * string) :=
  let end_date := start_date + 6 in
  let lock_dt := Cal.combine (start_date - lock_rule_days) Cal.midnight in
  let week_id :=
    "WEEK_" ++ Cal.isoformat start_date ++ "_to_" ++ Cal.isoformat end_date in
  let t := tables conn in
  if existsb (fun w => Schema.week_id w =? week_id) (sc_weeks t) then None
  else
    let t :=
      with_weeks t
        (sc_weeks t ++
         [mk_week week_id (Cal.isoformat start_date) (Cal.isoformat end_date)
                  (Cal.strftime lock_dt) first_out_default "DRAFT"]) in
    let conn := mk_conn t (units conn) (uuids_used conn) in
    Some (fold_left (insert_shift week_id first_out_default)
                    (week_shifts start_date) conn,
          week_id).

(** The default of the parameter [lock_rule_days]. *)
Definition lock_rule_days_default : Z := 29.

(** [main]: the guard, then [create_week(conn, start_date, args.first_out)]. *)
Definition main (conn : Conn) (start_date : Cal.date) (first_out : string)
    : option Conn :=
  match ensure_week_not_exists conn (Cal.isoformat start_date) with
  | None => None
  | Some _ =>
      match create_week conn start_date first_out lock_rule_days_default with
      | Some (conn', _) => Some conn'
      | None => None
      end
  end.

End WithUuid.

End CreateWeek.

(** ** [import_history_month_2025_12_v3.py]: the week row *)

Module ImportHistory.

Definition DEFAULT_UNIT : string := "AMB120".

(** Thursday is weekday 3. *)
Definition week_start_thu (d : Cal.date) : Cal.date :=
  let delta := (Cal.weekday d - 3) mod 7 in
  d - delta.

Definition week_id_for (d : Cal.date) : string :=
  let start := week_start_thu d in
  let end_ := start + 6 in
  "WEEK_" ++ Cal.isoformat start ++ "_to_" ++ Cal.isoformat end_.

(** [ensure_week(conn, d)] on the full [sc_weeks] schema:
    [INSERT OR IGNORE] skips a week id that exists.  It is the function of
    the script on the dates whose Thursday, lock date and Wednesday are
    dates ([Importer.valid_date] below is enough): on another date Python
    raises [OverflowError] before the write. *)
Definition ensure_week (conn : DB) (d : Cal.date) : DB :=
  let wid := week_id_for d in
  let start := week_start_thu d in
  let end_ := start + 6 in
  let lock_dt := Cal.strftime (Cal.combine (start - 28) Cal.midnight) in
  if existsb (fun w => week_id w =? wid) (sc_weeks conn) then conn
  else
    with_weeks conn
      (sc_weeks conn ++
       [mk_week wid (Cal.isoformat start) (Cal.isoformat end_) lock_dt
                DEFAULT_UNIT "DRAFT"]).

End ImportHistory.

(** ** [dedupe_sc_seat_records_hard.py] *)

Module DedupeHard.

Definition TAG : string := "HISTORY_DEC2025".

(** [TAG in (r["note"] or "")]. *)
Definition tagged (r : SeatRecord) : bool :=
  Py.contains TAG (Py.or_empty (note r)).

(** [score(r)]: higher is better. *)
Definition score (r : SeatRecord) : Z :=
  let note := Py.or_empty (note r) in
  let hs := Py.or_empty (health_status r) in
  let aet := Py.or_empty (assigned_entity_type r) in
  let s := 0 in
  let s := if Py.contains TAG note then s + 1000 else s in
  let s := if Py.upper hs =? "FILLED" then s + 100 else s in
  let s := if Py.in_tuple (Py.upper aet) ["PERSON"; "PLACEHOLDER"] then s + 10 else s in
  let s := if Py.truthy (assigned_person_id r) then s + 3 else s in
  let s := if Py.truthy (assigned_placeholder_id r) then s + 2 else s in
  s.

(** The distinct seat keys of a table, in order of first occurrence. *)
Fixpoint group_keys (tbl : list SeatRecord) : list key :=
  match tbl with
  | [] => []
  | r :: t => key_of r :: filter (fun k => negb (key_eqb k (key_of r))) (group_keys t)
  end.

(** [SELECT * FROM sc_seat_records WHERE shift_id = ? AND unit_id = ? AND
    seat_id = ? AND layer = ?]. *)
Definition rows_of (g : key) (tbl : list SeatRecord) : list SeatRecord :=
  filter (fun r => key_eqb (key_of r) g) tbl.

(** [GROUP BY shift_id, unit_id, seat_id, layer HAVING COUNT( * ) > 1].
    SQLite returns the groups in key order; the groups are handled one by
    one and have no row in common. *)
Definition dups (tbl : list SeatRecord) : list key :=
  filter (fun g => (1 <? List.length (rows_of g tbl))%nat) (group_keys tbl).

(** [sorted(rows, key=score, reverse=True)]: Python's sort is stable, also
    with [reverse=True], so rows of equal score keep their order. *)
Fixpoint insert_desc (r : SeatRecord) (l : list SeatRecord) : list SeatRecord :=
  match l with
  | [] => [r]
  | x :: t => if (score x <=? score r)%Z then r :: l else x :: insert_desc r t
  end.

Definition sorted_desc (rows : list SeatRecord) : list SeatRecord :=
  fold_right insert_desc [] rows.

(** [UPDATE sc_seat_records SET note = ? WHERE seat_record_id = ?]. *)
Definition update_note (n : string) (id : option string) (tbl : list SeatRecord)
    : list SeatRecord :=
  map (fun r =>
         if Sql.eq_null (seat_record_id r) id
         then mk_seat (seat_record_id r) (r_shift_id r) (unit_id r) (seat_id r)
                      (layer r) (assigned_entity_type r) (assigned_person_id r)
                      (assigned_placeholder_id r) (health_status r) (Some n)
         else r)
      tbl.

(** [DELETE FROM sc_seat_records WHERE seat_record_id = ?]. *)
Definition delete_id (tbl : list SeatRecord) (id : option string) : list SeatRecord :=
  filter (fun r => negb (Sql.eq_null (seat_record_id r) id)) tbl.

(** The body of [for g in dups]; [None] is the [IndexError] of
    [rows_sorted[0]] on an empty group. *)
Definition fix_group (tbl : list SeatRecord) (g : key) : option (list SeatRecord) :=
  let rows := rows_of g tbl in
  let rows_sorted := sorted_desc rows in
  match rows_sorted with
  | [] => None
  | winner :: losers =>
      let tbl :=
        if negb (tagged winner) && existsb tagged losers
        then update_note TAG (seat_record_id winner) tbl
        else tbl in
      Some (fold_left (fun tbl r => delete_id tbl (seat_record_id r)) losers tbl)
  end.

Fixpoint fix_groups (tbl : list SeatRecord) (gs : list key) : option (list SeatRecord) :=
  match gs with
  | [] => Some tbl
  | g :: gs' =>
      match fix_group tbl g with
      | Some tbl' => fix_groups tbl' gs'
      | None => None
      end
  end.

(** [main] on the seat table: nothing to do without duplicates, else one
    winner per duplicate group. *)
Definition main (tbl : list SeatRecord) : option (list SeatRecord) :=
  match dups tbl with
  | [] => Some tbl
  | gs => fix_groups tbl gs
  end.

(** The number of duplicate groups [main] counts after its commit. *)
Definition remaining (tbl : list SeatRecord) : nat := List.length (dups tbl).

(** The rows no [DELETE] of a loser's id removes. *)
Definition survives (losers : list SeatRecord) (x : SeatRecord) : bool :=
  forallb (fun l => negb (Sql.eq_null (seat_record_id x) (seat_record_id l))) losers.

(** The table keeps its primary key: every [seat_record_id] is there and
    no two rows share one. *)
Definition pk_ok (tbl : list SeatRecord) : Prop :=
  NoDup (map seat_record_id tbl) /\ forall r, In r tbl -> seat_record_id r <> None.

End DedupeHard.

(** ** [prune_blank_defaults_when_history_exists_v3.py] *)

Module PruneV3.

Definition TAG : string := "HISTORY_DEC2025".

(** The conditions on [b] of the sub-select. *)
Definition blank_default (b : SeatRecord) : bool :=
  match seat_record_id b with None => true | Some _ => false end
  && match assigned_entity_type b with Some t => t =? "NONE" | None => false end
  && match assigned_person_id b with None => true | Some _ => false end
  && match assigned_placeholder_id b with None => true | Some _ => false end
  && match note b with None => true | Some n => Sql.trim n =? "" end
  && match health_status b with
     | None => true
     | Some h => (Sql.trim h =? "") || (h =? "UNFILLED")
     end.

(** There is a row [h] of the same seat key with [h.note LIKE '%TAG%']. *)
Definition history_exists (tbl : list SeatRecord) (b : SeatRecord) : bool :=
  existsb
    (fun h =>
       key_eqb (key_of h) (key_of b)
       && match note h with Some n => Sql.like_contains TAG n | None => false end)
    tbl.

(** [DELETE FROM sc_seat_records WHERE rowid IN (...)]. *)
Definition main (tbl : list SeatRecord) : list SeatRecord :=
  filter (fun b => negb (blank_default b && history_exists tbl b)) tbl.

End PruneV3.

(** ** [fragility_radar_v2.py] *)

Inductive Status := GREEN | YELLOW | RED.

Module RadarV2.

(** A row of [people]. *)
Record Person := mk_person {
  person_id : string;
  display_name : string;
  active : Z;
  medical_cert : option string;
  willing_attend : Z
}.

(** A row of [person_ops]. *)
Record PersonOps := mk_ops {
  ops_person_id : string;
  ops_unit_id : string;
  can_operate : Z
}.

(** A shift of the week joined with its configuration
    ([LEFT JOIN sc_shift_config]): without a configuration row both unit
    columns are NULL. *)
Record ShiftRow := mk_shift_row {
  sr_shift_id : string;
  sr_shift_start : string;
  sr_shift_end : string;
  sr_label : string;
  sr_staffed_unit_id : option string;
  sr_first_out_override_unit_id : option string
}.

Definition join_cfg (conn : DB) (s : Shift) : ShiftRow :=
  match find (fun c => c_shift_id c =? shift_id s) (sc_shift_config conn) with
  | Some c =>
      mk_shift_row (shift_id s) (shift_start s) (shift_end s) (label s)
                   (staffed_unit_id c) (first_out_override_unit_id c)
  | None =>
      mk_shift_row (shift_id s) (shift_start s) (shift_end s) (label s) None None
  end.

Definition norm_cert (s : option string) : string :=
  Py.upper (Py.strip (Py.or_empty s)).

(** Treat ALS + PARAMEDIC as ALS-capable. *)
Definition is_als (cert : option string) : bool :=
  let c := norm_cert cert in
  Py.in_tuple c ["ALS"; "PARAMEDIC"; "MEDIC"].

Definition is_emt_or_higher (cert : option string) : bool :=
  let c := norm_cert cert in
  Py.in_tuple c ["EMT"; "AEMT"; "ALS"; "PARAMEDIC"; "MEDIC"].

(** [ops_by_unit.get(unit_id, set())], from the rows with [can_operate = 1]. *)
Definition ops_by_unit (ops_rows : list PersonOps) (unit_id : string) : list string :=
  map ops_person_id
      (filter (fun r => (can_operate r =? 1)%Z && (ops_unit_id r =? unit_id)) ops_rows).

Section Roster.

Variable people : list Person.
Variable ops_rows : list PersonOps.
Variable allow_nonmedical_driver : bool.

(** Attendant = active + willing_attend + EMT+. *)
Definition eligible_attendant_pool : list Person :=
  filter
    (fun p =>
       (active p =? 1)%Z && (willing_attend p =? 1)%Z
       && is_emt_or_higher (medical_cert p))
    people.

(** Driver = active + unit ops; optionally require EMT+. *)
Definition eligible_driver_pool (unit_id : string) : list Person :=
  let unit_ops := ops_by_unit ops_rows unit_id in
  filter
    (fun p =>
       (active p =? 1)%Z
       && Py.in_tuple (person_id p) unit_ops
       && (allow_nonmedical_driver || is_emt_or_higher (medical_cert p)))
    people.

Record Verdict := mk_verdict {
  v_unit : string;
  v_att_pool : list Person;
  v_att_als_pool : list Person;
  v_drv_pool : list Person;
  v_status : Status;
  v_reasons : list string
}.

Definition status_eqb (a b : Status) : bool :=
  match a, b with
  | GREEN, GREEN | YELLOW, YELLOW | RED, RED => true
  | _, _ => false
  end.

Definition R_NO_ATTENDANT : string := "No attendant candidates".
Definition R_NO_DRIVER (unit : string) : string :=
  "No driver candidates with " ++ unit ++ "_ops".
Definition R_NO_ALS : string := "No ALS available for attendant".
Definition R_FRAGILE : string := "Fragile: only 1 candidate in a pool".

(** [s["first_out_override_unit_id"] or s["staffed_unit_id"] or
    wk["first_out_default_unit_id"]]. *)
Definition effective_unit (wk_default : string) (s : ShiftRow) : string :=
  Py.or_else (Py.or_opt (sr_first_out_override_unit_id s) (sr_staffed_unit_id s))
             wk_default.

(** The body of [for s in shifts]; [wk_default] is the week's
    [first_out_default_unit_id]. *)
Definition evaluate (wk_default : string) (s : ShiftRow) : Verdict :=
  let unit := effective_unit wk_default s in
  let att_pool := eligible_attendant_pool in
  let att_als_pool := filter (fun p => is_als (medical_cert p)) att_pool in
  let drv_pool := eligible_driver_pool unit in
  let has_att := (0 <? List.length att_pool)%nat in
  let has_drv := (0 <? List.length drv_pool)%nat in
  let has_als := (0 <? List.length att_als_pool)%nat in
  let status := GREEN in
  let reasons := @nil string in
  let '(status, reasons) :=
    if negb has_att then (RED, (reasons ++ [R_NO_ATTENDANT])%list) else (status, reasons) in
  let '(status, reasons) :=
    if negb has_drv then (RED, (reasons ++ [R_NO_DRIVER unit])%list) else (status, reasons) in
  let '(status, reasons) :=
    if has_att && negb has_als && negb (status_eqb status RED)
    then (YELLOW, (reasons ++ [R_NO_ALS])%list) else (status, reasons) in
  let '(status, reasons) :=
    if status_eqb status GREEN
       && ((List.length att_pool <=? 1)%nat || (List.length drv_pool <=? 1)%nat)
    then (YELLOW, (reasons ++ [R_FRAGILE])%list) else (status, reasons) in
  mk_verdict unit att_pool att_als_pool drv_pool status reasons.

(** [main]: one verdict per shift of the week, when the week exists; the
    report lists them [ORDER BY s.shift_start], here they are in the order of
    the table. *)
Definition main (conn : DB) (week : string) : option (list Verdict) :=
  match find (fun w => week_id w =? week) (sc_weeks conn) with
  | None => None
  | Some wk =>
      Some (map (fun s => evaluate (first_out_default_unit_id wk) (join_cfg conn s))
                (filter (fun s => s_week_id s =? week) (sc_shifts conn)))
  end.

End Roster.

End RadarV2.

(** ** [fragility_radar_v1.py] *)

Module RadarV1.

(** Which of the optional columns the roster table has. *)
Record Cols := mk_cols {
  active_col : bool;
  cert_col : bool;
  wta_col : bool
}.

(** A row of the people table, read through the columns found; an integer
    column may hold NULL. *)
Record Person := mk_person {
  pid : string;
  active : option Z;
  cert_level : option string;
  willing_to_attend : option Z
}.

(** A row of the ops table: its presence is the capability. *)
Record Ops := mk_ops { ops_pid : string; ops_unit : string }.

Section Roster.

Variable cols : Cols.
Variable people : list Person.
Variable ops_rows : list Ops.
Variable allow_nonmedical_driver : bool.

(** [int(p[active_col]) == 1], and [True] without the column or when the
    conversion raises. *)
Definition is_active (p : Person) : bool :=
  if active_col cols
  then match active p with Some n => (n =? 1)%Z | None => true end
  else true.

Definition cert (p : Person) : string :=
  if cert_col cols then Py.upper (Py.strip (Py.or_empty (cert_level p))) else "".

Definition willing (p : Person) : bool :=
  if wta_col cols
  then match willing_to_attend p with Some n => (n =? 1)%Z | None => true end
  else true.

Definition is_medical (p : Person) : bool :=
  Py.in_tuple (cert p) ["EMT"; "AEMT"; "ALS"; "PARAMEDIC"].

Definition is_als (p : Person) : bool :=
  Py.in_tuple (cert p) ["ALS"; "PARAMEDIC"].

Definition is_emt_or_higher (p : Person) : bool :=
  Py.in_tuple (cert p) ["EMT"; "AEMT"; "ALS"; "PARAMEDIC"].

(** [ops_by_unit.get(unit, set())]; no ops row has a NULL unit. *)
Definition ops_by_unit (unit : option string) : list string :=
  match unit with
  | Some u => map ops_pid (filter (fun r => ops_unit r =? u) ops_rows)
  | None => []
  end.

Definition attendant_pool : list Person :=
  filter (fun p => is_active p && willing p && is_emt_or_higher p) people.

Definition driver_pool (unit : option string) : list Person :=
  let unit_ops := ops_by_unit unit in
  if allow_nonmedical_driver
  then filter (fun p => is_active p && Py.in_tuple (pid p) unit_ops) people
  else filter (fun p => is_active p && Py.in_tuple (pid p) unit_ops
                        && is_emt_or_higher p) people.

Definition R_NO_ATTENDANT : string := "No attendant candidates".
Definition R_NO_DRIVER : string := "No driver candidates for unit ops".
Definition R_NO_ALS : string := "No ALS available for attendant".
Definition R_FRAGILE : string := "Fragile: only 1 candidate in a seat pool".

(** The health scoring of the loop body, for the unit
    [override or staffed] of the shift. *)
Definition evaluate (override staffed : option string) : Status * list string :=
  let unit := Py.or_opt override staffed in
  let attendant_pool := attendant_pool in
  let attendant_als_pool := filter is_als attendant_pool in
  let driver_pool := driver_pool unit in
  let has_attendant := (0 <? List.length attendant_pool)%nat in
  let has_driver := (0 <? List.length driver_pool)%nat in
  let has_als_attendant := (0 <? List.length attendant_als_pool)%nat in
  let status := GREEN in
  let reasons := @nil string in
  let '(status, reasons) :=
    if negb has_attendant then (RED, (reasons ++ [R_NO_ATTENDANT])%list)
    else (status, reasons) in
  let '(status, reasons) :=
    if negb has_driver then (RED, (reasons ++ [R_NO_DRIVER])%list)
    else (status, reasons) in
  let '(status, reasons) :=
    if has_attendant && negb has_als_attendant
    then ((if negb (RadarV2.status_eqb status RED) then YELLOW else status),
          (reasons ++ [R_NO_ALS])%list)
    else (status, reasons) in
  let '(status, reasons) :=
    if RadarV2.status_eqb status GREEN
    then
      if (List.length attendant_pool <=? 1)%nat || (List.length driver_pool <=? 1)%nat
      then (YELLOW, (reasons ++ [R_FRAGILE])%list)
      else (status, reasons)
    else (status, reasons) in
  (status, reasons).

End Roster.

End RadarV1.


(** ** The specification's words *)

Module Spec.

(** Section 4.4, status derivation: ordered rules, RED dominates. *)
Definition status_of {A : Type} (als_capable : A -> bool) (att drv : list A) : Status :=
  match att, drv with
  | [], _ | _, [] => RED
  | _, _ =>
      if negb (existsb als_capable att) then YELLOW
      else if (List.length att =? 1)%nat || (List.length drv =? 1)%nat then YELLOW
      else GREEN
  end.

(** The certifications of section 4.4, on the normalised text. *)
Definition EMT_OR_HIGHER : list string := ["EMT"; "AEMT"; "ALS"; "PARAMEDIC"; "MEDIC"].
Definition ALS_CAPABLE : list string := ["ALS"; "PARAMEDIC"; "MEDIC"].

(** The same without MEDIC, as [fragility_radar_v1.py] has them. *)
Definition EMT_OR_HIGHER_V1 : list string := ["EMT"; "AEMT"; "ALS"; "PARAMEDIC"].
Definition ALS_CAPABLE_V1 : list string := ["ALS"; "PARAMEDIC"].

(** Section 4.1: the seats of a shift.  All start UNFILLED and unassigned;
    [aet] is how the generator writes the unassigned entity type. *)
Definition ROLES : list string := ["ATTENDANT"; "DRIVER"].

Definition blank_seat (aet sid unit_id layer role : string) : SeatRecord :=
  mk_seat None sid unit_id role layer (Some aet) None None (Some "UNFILLED") None.

(** A seat record without its id. *)
Definition strip_id (r : SeatRecord) : SeatRecord :=
  mk_seat None (r_shift_id r) (unit_id r) (seat_id r) (layer r)
          (assigned_entity_type r) (assigned_person_id r)
          (assigned_placeholder_id r) (health_status r) (note r).

(** PRIMARY seats for the first-out unit, then SHADOW seats for every other
    rotation unit. *)
Definition seats_primary_first (aet first_out : string) (units : list string)
    (sid : string) : list SeatRecord :=
  map (blank_seat aet sid first_out "PRIMARY") ROLES
  ++ flat_map (fun u => map (blank_seat aet sid u "SHADOW") ROLES)
              (filter (fun u => negb (u =? first_out)) units).

(** The same seats unit by unit. *)
Definition layer_of (first_out u : string) : string :=
  if u =? first_out then "PRIMARY" else "SHADOW".

Definition seats_by_unit (aet first_out : string) (units : list string)
    (sid : string) : list SeatRecord :=
  flat_map (fun u => map (blank_seat aet sid u (layer_of first_out u)) ROLES) units.

(** Day index, slot, start and end of a shift, and what they are for the
    fourteen shifts of a week: DAY 06:00-18:00, NIGHT 18:00 to 06:00 of the
    next day. *)
Definition shift_time (s : Shift) : Z * string * string * string :=
  (day_index s, slot s, shift_start s, shift_end s).

Definition shift_times (start : Cal.date) : list (Z * string * string * string) :=
  flat_map
    (fun di =>
       [(di, "DAY", Cal.strftime (Cal.combine (start + di) (Cal.mk_time 6 0 0)),
         Cal.strftime (Cal.combine (start + di) (Cal.mk_time 18 0 0)));
        (di, "NIGHT", Cal.strftime (Cal.combine (start + di) (Cal.mk_time 18 0 0)),
         Cal.strftime (Cal.combine (start + di + 1) (Cal.mk_time 6 0 0)))])
    (Py.range 7).

(** Section 4.1: what a week generation adds to a database.  [seats_of sid]
    are the seats of the shift [sid], [n_units] the number of rotation
    units. *)
Definition week_generated (start : Cal.date) (first_out : string)
    (seats_of : string -> list SeatRecord) (n_units : nat)
    (before after : DB) : Prop :=
  exists (wk : Week) (S : list Shift) (R : list SeatRecord),
    (sc_weeks after = sc_weeks before ++ [wk])%list
    /\ start_date wk = Cal.isoformat start
    /\ end_date wk = Cal.isoformat (start + 6)
    /\ first_out_default_unit_id wk = first_out
    /\ (sc_shifts after = sc_shifts before ++ S)%list
    /\ List.length S = 14%nat
    /\ map shift_time S = shift_times start
    /\ (forall s, In s S -> s_week_id s = week_id wk)
    /\ (sc_shift_config after
        = sc_shift_config before
          ++ map (fun s => mk_cfg (shift_id s) None (Some first_out) 0 1) S)%list
    /\ (sc_seat_records after = sc_seat_records before ++ R)%list
    /\ map strip_id R = flat_map (fun s => seats_of (shift_id s)) S
    /\ (forall sid, List.length (seats_of sid) = (2 * n_units)%nat).

(** Section 4.3: the score of a candidate row. *)
Definition b2z (b : bool) : Z := if b then 1 else 0.

Definition score (r : SeatRecord) : Z :=
  1000 * b2z (Py.contains "HISTORY_DEC2025" (Py.or_empty (note r)))
  + 100 * b2z (Py.upper (Py.or_empty (health_status r)) =? "FILLED")
  + 10 * b2z (Py.in_tuple (Py.upper (Py.or_empty (assigned_entity_type r)))
                          ["PERSON"; "PLACEHOLDER"])
  + 3 * b2z (Py.truthy (assigned_person_id r))
  + 2 * b2z (Py.truthy (assigned_placeholder_id r)).

(** The part of the score that does not come from the two ids. *)
Definition base_score (r : SeatRecord) : Z :=
  1000 * b2z (Py.contains "HISTORY_DEC2025" (Py.or_empty (note r)))
  + 100 * b2z (Py.upper (Py.or_empty (health_status r)) =? "FILLED")
  + 10 * b2z (Py.in_tuple (Py.upper (Py.or_empty (assigned_entity_type r)))
                          ["PERSON"; "PLACEHOLDER"]).

(** Real assignment data: a person id or a placeholder id is set. *)
Definition real_data (r : SeatRecord) : bool :=
  Py.truthy (assigned_person_id r) || Py.truthy (assigned_placeholder_id r).

(** Highest score wins, ties broken by the earliest row. *)
Fixpoint first_best (rows : list SeatRecord) : option SeatRecord :=
  match rows with
  | [] => None
  | r :: t =>
      match first_best t with
      | Some b => if (score r <? score b)%Z then Some b else Some r
      | None => Some r
      end
  end.

Definition is_nil {A : Type} (l : list A) : bool :=
  match l with [] => true | _ => false end.

(** The reasons whose triggering condition holds, in order. *)
Definition reasons_when (conds : list (bool * string)) : list string :=
  flat_map (fun c : bool * string => if fst c then [snd c] else []) conds.

(** A pool with exactly one candidate. *)
Definition single {A : Type} (att drv : list A) : bool :=
  (List.length att =? 1)%nat || (List.length drv =? 1)%nat.

End Spec.

(** ** Sample data *)

Module Examples.

(** Thursday 2025-12-04. *)
Definition thu_2025_12_04 : Cal.date := Cal.ymd2ord 2025 12 4.

(** A supply of ids standing for [uuid.uuid4()]. *)
Definition uuid (n : nat) : string := "uuid-" ++ NilZero.string_of_uint (Nat.to_uint n).

Definition fresh_conn : CreateWeek.Conn := CreateWeek.mk_conn empty_db None 0.

Definition thursday_day : RadarV2.ShiftRow :=
  RadarV2.mk_shift_row "WEEK_2025-12-04_to_2025-12-10__D0__DAY"
    "2025-12-04 06:00:00" "2025-12-04 18:00:00" "Thu 12/04 DAY (06-18)"
    (Some "AMB120") None.

Definition medic : RadarV2.Person := RadarV2.mk_person "p1" "Avery" 1 (Some "Paramedic") 1.
Definition emt : RadarV2.Person := RadarV2.mk_person "p2" "Blake" 1 (Some "EMT") 1.

Definition ops_120 : list RadarV2.PersonOps :=
  [RadarV2.mk_ops "p1" "AMB120" 1; RadarV2.mk_ops "p2" "AMB120" 1].

(** Version 1 rosters: every optional column is there. *)
Definition all_cols : RadarV1.Cols := RadarV1.mk_cols true true true.
Definition medic_v1 : RadarV1.Person := RadarV1.mk_person "p3" (Some 1) (Some "MEDIC") (Some 1).
Definition emt_v1 : RadarV1.Person := RadarV1.mk_person "p2" (Some 1) (Some "EMT") (Some 1).


(** The Thursday day shift of the week of 2025-12-04, alone in its week,
    staffed by AMB121 with an override to AMB120. *)
Definition one_shift : Shift :=
  mk_shift "WEEK_2025-12-04_to_2025-12-10__D0__DAY" "WEEK_2025-12-04_to_2025-12-10"
           "2025-12-04 06:00:00" "2025-12-04 18:00:00" "Thu 12/04 DAY (06-18)" 0 "DAY".

Definition one_shift_db : DB :=
  mk_db
    [mk_week "WEEK_2025-12-04_to_2025-12-10" "2025-12-04" "2025-12-10"
             "2025-11-06 00:00:00" "AMB121" "DRAFT"]
    [one_shift]
    [mk_cfg "WEEK_2025-12-04_to_2025-12-10__D0__DAY" (Some "AMB120") (Some "AMB121") 0 1]
    [].

End Examples.



(** ** Edits of the assignment fields, and when a shift needs no insert *)

Module Edits.

(** The assignment fields of a seat record. *)
Record Assignment := mk_assignment {
  a_entity_type : option string;
  a_person_id : option string;
  a_placeholder_id : option string;
  a_health_status : option string;
  a_note : option string
}.

(** [UPDATE sc_seat_records SET assigned_entity_type = ?, assigned_person_id
    = ?, assigned_placeholder_id = ?, health_status = ?, note = ?] on one
    row. *)
Definition set_assignment (a : Assignment) (r : SeatRecord) : SeatRecord :=
  mk_seat (seat_record_id r) (r_shift_id r) (unit_id r) (seat_id r) (layer r)
          (a_entity_type a) (a_person_id a) (a_placeholder_id a)
          (a_health_status a) (a_note a).

(** Any edit of the assignment fields of any seat records: [g r] is what
    row [r] holds afterwards. *)
Definition edit_assignments (g : SeatRecord -> Assignment) (conn : DB) : DB :=
  with_seats conn (map (fun r => set_assignment (g r) r) (sc_seat_records conn)).

(** The configuration row and the seat records of shift [sid] are there:
    the loop body has nothing to insert. *)
Definition shift_done (units : list string) (first_out : string)
    (t : list ShiftConfig * list SeatRecord) (sid : string) : Prop :=
  Sql.has_row EnsureWeeks.same_cfg (fst t) (EnsureWeeks.new_cfg first_out sid) = true
  /\ forall r,
       In r (EnsureWeeks.seat_rows units sid
               (EnsureWeeks.staffed_of (fst t) sid first_out)) ->
       Sql.has_row EnsureWeeks.same_seat (snd t) r = true.

End Edits.


Module Seats.

(** Two records for the Thursday day shift's PRIMARY attendant seat of
    AMB120: a real assignment without the history tag, and a blank record
    that carries the tag. *)
Definition seat (id : option string) (aet pid ph hs nt : option string) : SeatRecord :=
  mk_seat id "WEEK_2025-12-04_to_2025-12-10__D0__DAY" "AMB120" "ATTENDANT" "PRIMARY"
          aet pid ph hs nt.

Definition real_untagged : SeatRecord :=
  seat (Some "r1") (Some "PERSON") (Some "P-0042") None (Some "FILLED") None.

Definition blank_tagged : SeatRecord :=
  seat (Some "r2") (Some "NONE") None None (Some "UNFILLED") (Some "HISTORY_DEC2025").

(** A blank default as [insert_seat] of [apply_tow_rotation_dec2025.py]
    leaves it in a table whose key is [TEXT PRIMARY KEY]: without an id. *)
Definition blank_null_id : SeatRecord :=
  seat None (Some "NONE") None None (Some "UNFILLED") None.

(** The history row of the same seat, as the importer writes it. *)
Definition history : SeatRecord :=
  seat (Some "WEEK_2025-12-04_to_2025-12-10__D0__DAY__PRIMARY__AMB120__ATTENDANT")
       (Some "PLACEHOLDER") None (Some "PH_Fire_Division") (Some "FILLED")
       (Some "HISTORY_DEC2025").

(** A blank default with an id. *)
Definition blank_default : SeatRecord :=
  seat (Some "r3") (Some "NONE") None None (Some "UNFILLED") None.



End Seats.


(** ** [import_history_month_2025_12_v3.py]: shifts, seats and the import loop *)

Module Importer.

Import ImportHistory.

Definition TAG_NOTE : string := "HISTORY_DEC2025".

(** [shift_id_for(d, slot)]: the id and the day index, 0..6 for Thu..Wed. *)
Definition shift_id_for (d : Cal.date) (slot : string) : string * Z :=
  let start := week_start_thu d in
  let day_index := d - start in
  (week_id_for d ++ "__D" ++ Py.str_of_int day_index ++ "__" ++ slot, day_index).

(** [dt_str(d, t)]. *)
Definition dt_str (d : Cal.date) (t : Cal.time) : string :=
  Cal.strftime (Cal.combine d t).

(** The values [ensure_shift] binds: the row for date [d] and [slot], whose
    label is [d.strftime("%a")], [d.strftime("%m/%d")] and the slot. *)
Definition shift_row (d : Cal.date) (slot : string) : Shift :=
  let '(sid, day_index) := shift_id_for d slot in
  let wid := week_id_for d in
  let '(start_dt, end_dt) :=
    if slot =? "DAY" then (dt_str d Cal.t0600, dt_str d Cal.t1800)
    else (dt_str d Cal.t1800, dt_str (d + 1) Cal.t0600) in
  let label := Cal.strftime_a_md d ++ " " ++ slot in
  mk_shift sid wid start_dt end_dt label day_index slot.

(** [ensure_shift(conn, d, slot)] on the full [sc_shifts] schema:
    [INSERT OR IGNORE] skips a shift id that exists, the [UPDATE] then
    rewrites every column of the rows with that id. *)
Definition ensure_shift (conn : DB) (d : Cal.date) (slot : string) : DB :=
  let row := shift_row d slot in
  let sid := shift_id row in
  let shifts :=
    if existsb (fun s => shift_id s =? sid) (sc_shifts conn) then sc_shifts conn
    else (sc_shifts conn ++ [row])%list in
  with_shifts conn
    (map (fun s =>
            if shift_id s =? sid
            then mk_shift (shift_id s) (s_week_id row) (shift_start row) (shift_end row)
                          (label row) (day_index row) (slot)
            else s)
         shifts).

(** [s.replace(' ', '_')]. *)
Fixpoint replace_spaces (s : string) : string :=
  match s with
  | EmptyString => EmptyString
  | String c t => String (if (c =? " ")%char then "_"%char else c) (replace_spaces t)
  end.

(** The placeholder id of [upsert_seat]:
    [ph if ph.startswith("PH_") else f"PH_{ph.replace(' ', '_')}"] on the
    stripped name. *)
Definition placeholder_id (placeholder_name : string) : string :=
  let ph := Py.strip placeholder_name in
  if String.prefix "PH_" ph then ph else "PH_" ++ replace_spaces ph.

(** The note of [upsert_seat]: the tag, followed by the stripped CSV note
    when there is one. *)
Definition seat_note (note : option string) : string :=
  if Py.truthy note && negb (Py.strip (Py.or_empty note) =? "")
  then TAG_NOTE ++ " | " ++ Py.strip (Py.or_empty note)
  else TAG_NOTE.

(** The row [upsert_seat] writes. *)
Definition seat_row (shift_id unit_id seat_id placeholder_name : string)
    (note : option string) : SeatRecord :=
  let seat_record_id := shift_id ++ "__PRIMARY__" ++ unit_id ++ "__" ++ seat_id in
  mk_seat (Some seat_record_id) shift_id unit_id seat_id "PRIMARY"
          (Some "PLACEHOLDER") None (Some (placeholder_id placeholder_name))
          (Some "FILLED") (Some (seat_note note)).

(** [INSERT OR REPLACE INTO sc_seat_records]: the row that holds the same
    primary key is deleted and the new row inserted, with a new rowid. *)
Definition insert_or_replace (tbl : list SeatRecord) (r : SeatRecord) : list SeatRecord :=
  (filter (fun x => negb (Sql.eq_null (seat_record_id x) (seat_record_id r))) tbl
   ++ [r])%list.

(** [upsert_seat(conn, shift_id, unit_id, seat_id, placeholder_name, note)]
    on the full [sc_seat_records] schema; [None] is the [SystemExit] when the
    shift is not in [sc_shifts]. *)
Definition upsert_seat (conn : DB) (shift_id unit_id seat_id placeholder_name : string)
    (note : option string) : option DB :=
  if existsb (fun s => Schema.shift_id s =? shift_id) (sc_shifts conn)
  then Some (with_seats conn
               (insert_or_replace (sc_seat_records conn)
                  (seat_row shift_id unit_id seat_id placeholder_name note)))
  else None.

(** A row of the CSV file as [csv.DictReader] yields it, with its date
    parsed: a field the line does not have is [None]. *)
Record CsvRow := mk_row {
  c_date : Cal.date;
  c_slot : option string;
  c_attendant : option string;
  c_driver : option string;
  c_notes : option string
}.

(** The dates on which no date the importer computes (the Thursday up to
    six days back, the lock date 28 days before it, the Wednesday after it,
    the next day) leaves [date.min .. date.max], where Python raises
    [OverflowError]. *)
Definition valid_date (d : Cal.date) : Prop :=
  Cal.MINORDINAL + 34 <= d /\ d + 6 <= Cal.MAXORDINAL.

(** [slot = (r["slot"] or "").strip().upper()]. *)
Definition slot_of (r : CsvRow) : string := Py.upper (Py.strip (Py.or_empty (c_slot r))).

(** The body of [for r in reader]; [None] is a [SystemExit], which leaves
    the database without a commit. *)
Definition import_row (conn : DB) (r : CsvRow) : option DB :=
  let d := c_date r in
  let slot := slot_of r in
  if negb (Py.in_tuple slot ["DAY"; "NIGHT"]) then None
  else
    let conn := ensure_week conn d in
    let conn := ensure_shift conn d slot in
    let sid := fst (shift_id_for d slot) in
    let att := Py.strip (Py.or_empty (c_attendant r)) in
    let drv := Py.strip (Py.or_empty (c_driver r)) in
    let note := c_notes r in
    let conn :=
      if negb (att =? "")
      then upsert_seat conn sid DEFAULT_UNIT "ATTENDANT" att note
      else Some conn in
    match conn with
    | None => None
    | Some conn =>
        if negb (drv =? "")
        then upsert_seat conn sid DEFAULT_UNIT "DRIVER" drv note
        else Some conn
    end.

(** The loop of [main] over the rows of the file. *)
Fixpoint import_rows (conn : DB) (rows : list CsvRow) : option DB :=
  match rows with
  | [] => Some conn
  | r :: rows' =>
      match import_row conn r with
      | Some conn' => import_rows conn' rows'
      | None => None
      end
  end.

End Importer.


(** ** [apply_tow_rotation_dec2025.py]: the week and the loop of [main] *)

Module TowRotation.

(** The row [insert_seat] writes on the schema of
    [ensure_dec2025_weeks_and_tow_v1.py], where all the columns exist and
    [seat_record_id] is a [TEXT PRIMARY KEY]: the [INSERT] names no
    [seat_record_id], which is left NULL. *)
Definition insert_seat (shift_id : string) (conn : DB) (unit_id seat_id layer : string)
    : DB :=
  with_seats conn
    (sc_seat_records conn ++
     [mk_seat None shift_id unit_id seat_id layer
              (Some "NONE") None None (Some "UNFILLED") None])%list.

(** A plain [INSERT INTO sc_shifts]; [None] is the [IntegrityError] on a
    shift id that exists. *)
Definition insert_shift (conn : option DB) (s : Shift) : option DB :=
  match conn with
  | None => None
  | Some conn =>
      if existsb (fun x => shift_id x =? shift_id s) (sc_shifts conn) then None
      else Some (with_shifts conn (sc_shifts conn ++ [s])%list)
  end.

(** The body of [for (shift_id,) in shifts]: the configuration row, the two
    PRIMARY seats of the first-out unit, the SHADOW seats of the others. *)
Definition insert_cfg_seats (units : list string) (first_out : string)
    (conn : option DB) (shift_id : string) : option DB :=
  match conn with
  | None => None
  | Some conn =>
      if existsb (fun c => c_shift_id c =? shift_id) (sc_shift_config conn) then None
      else
        let conn :=
          with_cfg conn
            (sc_shift_config conn ++ [mk_cfg shift_id None (Some first_out) 0 1])%list in
        let conn :=
          fold_left (fun conn seat => insert_seat shift_id conn first_out seat "PRIMARY")
                    ["ATTENDANT"; "DRIVER"] conn in
        Some
          (fold_left
             (fun conn u =>
                if u =? first_out then conn
                else
                  fold_left (fun conn seat => insert_seat shift_id conn u seat "SHADOW")
                            ["ATTENDANT"; "DRIVER"] conn)
             units conn)
  end.

(** [ensure_week(conn, start, first_out)]: nothing when the week id is
    there; else the week, its fourteen shifts, and a configuration and the
    seats for every shift of the week.  [units] is the constant [UNITS]. *)
Definition ensure_week (units : list string) (conn : DB) (start : Cal.date)
    (first_out : string) : option DB :=
  let wid := ApplyTowRotation.week_id_for start in
  if existsb (fun w => week_id w =? wid) (sc_weeks conn) then Some conn
  else
    let conn :=
      with_weeks conn
        (sc_weeks conn ++
         [mk_week wid (Cal.isoformat start) (Cal.isoformat (start + 6))
                  (Cal.strftime (Cal.combine (start - 28) Cal.midnight))
                  first_out "DRAFT"])%list in
    let conn :=
      fold_left insert_shift (EnsureWeeks.week_shifts wid start) (Some conn) in
    match conn with
    | None => None
    | Some conn =>
        fold_left (insert_cfg_seats units first_out)
                  (shift_ids_of_week conn wid) (Some conn)
    end.

(** The loop of [main]: week [i] is ensured and then rotated to
    [rotation[i % len(rotation)]]; [None] is the [SystemExit] on an empty
    rotation or an [IntegrityError]. *)
Definition main (units : list string) (conn : DB) (start1 : Cal.date)
    (weeks : nat) (rotation : list string) : option DB :=
  match rotation with
  | [] => None
  | _ =>
      fold_left
        (fun conn i =>
           match conn with
           | None => None
           | Some conn =>
               let start := start1 + 7 * i in
               let first_out := EnsureWeeks.rotation_unit rotation i in
               match ensure_week units conn start first_out with
               | None => None
               | Some conn =>
                   Some (ApplyTowRotation.apply_week_first_out conn start first_out)
               end
           end)
        (Py.range weeks) (Some conn)
  end.

End TowRotation.


(** ** Tables of seat records and their primary key *)

Module SeatTable.

(** The ids the rows of a table hold; a row whose [seat_record_id] is NULL
    has none. *)
Definition ids (tbl : list SeatRecord) : list string :=
  flat_map (fun r => match seat_record_id r with Some i => [i] | None => [] end) tbl.

(** What SQLite enforces for [seat_record_id TEXT PRIMARY KEY]: no two rows
    hold the same id; any number of rows may hold NULL. *)
Definition unique_ids (tbl : list SeatRecord) : Prop := NoDup (ids tbl).

(** The deterministic id of a row's seat key. *)
Definition generated_id (r : SeatRecord) : option string :=
  Some (EnsureWeeks.gen_seat_record_id (r_shift_id r) (unit_id r) (seat_id r) (layer r)).

(** Every row is stored under the deterministic id of its seat key. *)
Definition id_keyed (tbl : list SeatRecord) : Prop :=
  forall r, In r tbl -> seat_record_id r = generated_id r.

(** What the pass of [dedupe_sc_seat_records_hard.py] leaves of a table: the
    rows without an id and, of the rows with one, the winner of each key. *)
Definition kept (tbl : list SeatRecord) (r : SeatRecord) : Prop :=
  seat_record_id r = None
  \/ hd_error (DedupeHard.sorted_desc (DedupeHard.rows_of (key_of r) tbl)) = Some r.

End SeatTable.

(** ** Upserts: [INSERT OR IGNORE] followed by an [UPDATE] of every column *)

Module Upsert.

Section Keyed.

Context {A : Type}.
Variable key : A -> string.

(** [INSERT OR IGNORE]: the row is added unless its key is there. *)
Definition insert_or_ignore (t : list A) (r : A) : list A :=
  if existsb (fun x => key x =? key r) t then t else (t ++ [r])%list.

(** [UPDATE ... SET every column WHERE key = ?] on one row. *)
Definition overwrite (r s : A) : A := if key s =? key r then r else s.

Definition upsert (t : list A) (r : A) : list A :=
  map (overwrite r) (insert_or_ignore t r).

(** What a row holds after the writes [rs], in their order. *)
Definition last_writer (rs : list A) (s : A) : A :=
  fold_left (fun s r => overwrite r s) rs s.

End Keyed.

End Upsert.

(** ** The import, table by table *)

Module ImportTables.

Import Importer.

(** The week row [ImportHistory.ensure_week] inserts for a date. *)
Definition week_row (d : Cal.date) : Week :=
  let start := ImportHistory.week_start_thu d in
  mk_week (ImportHistory.week_id_for d) (Cal.isoformat start) (Cal.isoformat (start + 6))
          (Cal.strftime (Cal.combine (start - 28) Cal.midnight))
          ImportHistory.DEFAULT_UNIT "DRAFT".

(** The seat rows a CSV row writes: the attendant, then the driver, each
    when the stripped name is not empty. *)
Definition row_seats (r : CsvRow) : list SeatRecord :=
  let sid := fst (shift_id_for (c_date r) (slot_of r)) in
  let att := Py.strip (Py.or_empty (c_attendant r)) in
  let drv := Py.strip (Py.or_empty (c_driver r)) in
  ((if negb (att =? "")
    then [seat_row sid ImportHistory.DEFAULT_UNIT "ATTENDANT" att (c_notes r)] else [])
   ++ (if negb (drv =? "")
       then [seat_row sid ImportHistory.DEFAULT_UNIT "DRIVER" drv (c_notes r)] else []))%list.

(** The slot of the row is one [main] accepts. *)
Definition slot_ok (r : CsvRow) : bool := Py.in_tuple (slot_of r) ["DAY"; "NIGHT"].

(** The row [x] holds the primary key of none of the rows [rs]: no
    [INSERT OR REPLACE] of them deletes it. *)
Definition untouched (rs : list SeatRecord) (x : SeatRecord) : bool :=
  negb (existsb (fun r => Sql.eq_null (seat_record_id x) (seat_record_id r)) rs).

(** The three tables after the import of [rows]. *)
Definition weeks_after (rows : list CsvRow) (t : list Week) : list Week :=
  fold_left (Sql.insert_if_missing EnsureWeeks.same_week)
            (map (fun r => week_row (c_date r)) rows) t.

Definition shifts_after (rows : list CsvRow) (t : list Shift) : list Shift :=
  fold_left (Upsert.upsert shift_id)
            (map (fun r => shift_row (c_date r) (slot_of r)) rows) t.

Definition seats_after (rows : list CsvRow) (t : list SeatRecord) : list SeatRecord :=
  fold_left insert_or_replace (flat_map row_seats rows) t.

End ImportTables.

(** ** The order of the radar's statuses *)

Definition severity (s : Status) : nat :=
  match s with GREEN => 0 | YELLOW => 1 | RED => 2 end.


(** ** Rows of a history file *)

Module CsvExamples.

(** Thursday 2025-12-04, day shift, attendant "Fire Division", no driver. *)
Definition fire_day : Importer.CsvRow :=
  Importer.mk_row (Cal.ymd2ord 2025 12 4) (Some "DAY") (Some "Fire Division")
                  (Some "") (Some "").

(** Saturday 2025-12-06, night shift, both seats, with a note. *)
Definition sat_night : Importer.CsvRow :=
  Importer.mk_row (Cal.ymd2ord 2025 12 6) (Some " night ") (Some "PH_Medic One")
                  (Some "Smith") (Some "swap").

(** Friday 2025-12-05, a line without a slot. *)
Definition no_slot : Importer.CsvRow :=
  Importer.mk_row (Cal.ymd2ord 2025 12 5) None (Some "Jones") None None.

End CsvExamples.


(* ================================================================== *)
(** * Part II. Properties *)
(* ================================================================== *)

Local Open Scope list_scope.

(** Dates are formatted, and the rows of a week listed, only on request. *)
Arguments Cal.isoformat : simpl never.
Arguments Cal.strftime : simpl never.
Arguments Cal.strftime_a_md : simpl never.
Arguments EnsureWeeks.week_id_for : simpl never.
Arguments EnsureWeeks.seat_rows : simpl never.
Arguments EnsureWeeks.week_shifts : simpl never.
Arguments EnsureWeeks.shift_ids_for : simpl never.

(** ** Lists and strings *)

Lemma in_tuple_In (x : string) (l : list string) :
  Py.in_tuple x l = true <-> In x l.
Proof.
  unfold Py.in_tuple. rewrite existsb_exists. split.
  - intros (y & Hy & E). apply String.eqb_eq in E. now subst.
  - intros H. exists x. split; [assumption | apply String.eqb_refl].
Qed.

Lemma existsb_filter_nil {A : Type} (f : A -> bool) (l : list A) :
  existsb f l = false <-> filter f l = [].
Proof.
  induction l as [|a l IH]; simpl.
  - tauto.
  - destruct (f a); simpl.
    + split; discriminate.
    + exact IH.
Qed.

Lemma length_zero_ltb {A : Type} (l : list A) :
  (0 <? List.length l)%nat = match l with [] => false | _ => true end.
Proof. now destruct l. Qed.

(** ** The fragility radar, version 2 *)

Section RadarV2Facts.

Import RadarV2.

Variable people : list Person.
Variable ops_rows : list PersonOps.
Variable allow_nonmedical_driver : bool.

Let att := eligible_attendant_pool people.
Let drv := eligible_driver_pool people ops_rows allow_nonmedical_driver.
Let als (p : Person) := is_als (medical_cert p).

Lemma evaluate_pools wk s :
  let v := evaluate people ops_rows allow_nonmedical_driver wk s in
  v_unit v = effective_unit wk s
  /\ v_att_pool v = att
  /\ v_att_als_pool v = filter als att
  /\ v_drv_pool v = drv (effective_unit wk s).
Proof.
  unfold evaluate. cbv zeta.
  repeat match goal with |- context [let '(_, _) := ?c in _] => destruct c end.
  repeat split.
Qed.

(** What [evaluate] answers, by the sizes of the three pools. *)
Lemma evaluate_cases wk s :
  let v := evaluate people ops_rows allow_nonmedical_driver wk s in
  let u := effective_unit wk s in
  match att, drv u, filter als att with
  | [], [], _ => v_status v = RED /\ v_reasons v = [R_NO_ATTENDANT; R_NO_DRIVER u]
  | [], _ :: _, _ => v_status v = RED /\ v_reasons v = [R_NO_ATTENDANT]
  | _ :: _, [], _ => v_status v = RED /\ v_reasons v = [R_NO_DRIVER u]
  | _ :: _, _ :: _, [] => v_status v = YELLOW /\ v_reasons v = [R_NO_ALS]
  | [_], _ :: _, _ :: _ | _ :: _, [_], _ :: _ =>
      v_status v = YELLOW /\ v_reasons v = [R_FRAGILE]
  | _ :: _ :: _, _ :: _ :: _, _ :: _ => v_status v = GREEN /\ v_reasons v = []
  end.
Proof.
  unfold evaluate. cbv zeta.
  fold att. fold (drv (effective_unit wk s)). fold als.
  destruct att as [|a [|a' l]]; destruct (drv _) as [|d [|d' l']];
    destruct (filter als _) as [|x lx]; simpl; split; reflexivity.
Qed.

Lemma no_ops_no_driver unit :
  ops_by_unit ops_rows unit = [] -> drv unit = [].
Proof.
  intros H. unfold drv, eligible_driver_pool. rewrite H.
  induction people as [|p l IH]; simpl; [reflexivity|].
  rewrite andb_false_r. simpl. exact IH.
Qed.

(** The reasons version 2 reports are, in order, the
    empty-attendant-pool reason, the empty-driver-pool reason, the no-ALS
    reason when both pools are non-empty, and the single-candidate reason when
    nothing else was reported. *)
Lemma radar_v2_reasons wk s :
  let v := evaluate people ops_rows allow_nonmedical_driver wk s in
  let a := v_att_pool v in
  let d := v_drv_pool v in
  let no_als := negb (existsb als a) in
  v_reasons v =
  Spec.reasons_when
    [ (Spec.is_nil a, R_NO_ATTENDANT);
      (Spec.is_nil d, R_NO_DRIVER (v_unit v));
      (negb (Spec.is_nil a) && negb (Spec.is_nil d) && no_als, R_NO_ALS);
      (negb (Spec.is_nil a) && negb (Spec.is_nil d) && negb no_als && Spec.single a d,
       R_FRAGILE) ].
Proof.
  intros v.
  destruct (evaluate_pools wk s) as (Eu & Ea & _ & Ed). fold v in Eu, Ea, Ed.
  pose proof (evaluate_cases wk s) as C. cbv zeta in C. fold v in C.
  cbv zeta. rewrite Eu, Ea, Ed.
  assert (Hals : existsb als att = negb (Spec.is_nil (filter als att))).
  { destruct (existsb als att) eqn:E.
    - destruct (filter als att) eqn:F; [|reflexivity].
      apply existsb_filter_nil in F. congruence.
    - apply existsb_filter_nil in E. now rewrite E. }
  rewrite Hals. unfold Spec.reasons_when, Spec.single.
  destruct att as [|a [|a' l]]; destruct (drv _) as [|d [|d' l']];
    destruct (filter als _) as [|x lx]; simpl in *; tauto.
Qed.

(** Who is in the pools of version 2.  A person is an attendant candidate
    exactly when active, willing to attend and certified EMT, AEMT, ALS,
    PARAMEDIC or MEDIC; ALS-capable exactly when certified ALS, PARAMEDIC or
    MEDIC; a driver candidate for a unit exactly when active, holding a
    [can_operate = 1] ops row for the unit and, unless non-medical drivers
    are allowed, certified EMT or higher.  The pools keep the roster's
    order. *)
Lemma radar_v2_pools (unit : string) (p : Person) :
  (In p att <->
   In p people /\ active p = 1 /\ willing_attend p = 1
   /\ In (norm_cert (medical_cert p)) Spec.EMT_OR_HIGHER)
  /\ (is_als (medical_cert p) = true <->
      In (norm_cert (medical_cert p)) Spec.ALS_CAPABLE)
  /\ (In p (drv unit) <->
      In p people /\ active p = 1
      /\ (exists o, In o ops_rows /\ can_operate o = 1
                    /\ ops_unit_id o = unit /\ ops_person_id o = person_id p)
      /\ (allow_nonmedical_driver = true
          \/ In (norm_cert (medical_cert p)) Spec.EMT_OR_HIGHER)).
Proof.
  split; [|split].
  - unfold att, eligible_attendant_pool. rewrite filter_In.
    rewrite !andb_true_iff, !Z.eqb_eq. unfold is_emt_or_higher.
    rewrite in_tuple_In. tauto.
  - unfold is_als. apply in_tuple_In.
  - unfold drv, eligible_driver_pool. rewrite filter_In.
    rewrite !andb_true_iff, orb_true_iff, Z.eqb_eq. unfold is_emt_or_higher.
    rewrite !in_tuple_In. unfold ops_by_unit. rewrite in_map_iff.
    split.
    + intros (Hp & (Ha & (o & Eo & Ho)) & Hc). apply filter_In in Ho.
      destruct Ho as (Ho & Hb). apply andb_true_iff in Hb. destruct Hb as (Hb1 & Hb2).
      apply Z.eqb_eq in Hb1. apply String.eqb_eq in Hb2.
      repeat split; try assumption. exists o. auto.
    + intros (Hp & Ha & (o & Ho & Hc & Hu & Hid) & Hm).
      repeat split; try assumption. exists o. split; [assumption|].
      apply filter_In. split; [assumption|].
      apply andb_true_iff. split; [now apply Z.eqb_eq | now apply String.eqb_eq].
Qed.

End RadarV2Facts.

(** ** The fragility radar, version 1 *)

Section RadarV1Facts.

Import RadarV1.

Variable cols : Cols.
Variable people : list Person.
Variable ops_rows : list Ops.
Variable allow_nonmedical_driver : bool.

Let att := attendant_pool cols people.
Let drv := driver_pool cols people ops_rows allow_nonmedical_driver.

(** What version 1 answers, by the sizes of the three pools: the no-ALS
    reason is also reported when the status is already RED for lack of
    drivers. *)
Lemma evaluate_v1_cases override staffed :
  let r := evaluate cols people ops_rows allow_nonmedical_driver override staffed in
  let u := Py.or_opt override staffed in
  match att, drv u, filter (is_als cols) att with
  | [], [], _ => r = (RED, [R_NO_ATTENDANT; R_NO_DRIVER])
  | [], _ :: _, _ => r = (RED, [R_NO_ATTENDANT])
  | _ :: _, [], [] => r = (RED, [R_NO_DRIVER; R_NO_ALS])
  | _ :: _, [], _ :: _ => r = (RED, [R_NO_DRIVER])
  | _ :: _, _ :: _, [] => r = (YELLOW, [R_NO_ALS])
  | [_], _ :: _, _ :: _ | _ :: _, [_], _ :: _ => r = (YELLOW, [R_FRAGILE])
  | _ :: _ :: _, _ :: _ :: _, _ :: _ => r = (GREEN, [])
  end.
Proof.
  unfold evaluate. cbv zeta.
  fold att. fold (drv (Py.or_opt override staffed)).
  destruct att as [|a [|a' l]]; destruct (drv _) as [|d [|d' l']];
    destruct (filter (is_als cols) _) as [|x lx]; simpl; reflexivity.
Qed.

(** The status of version 1 follows the same ordered rules. *)
Lemma radar_v1_status override staffed :
  fst (evaluate cols people ops_rows allow_nonmedical_driver override staffed)
  = Spec.status_of (is_als cols) att (drv (Py.or_opt override staffed)).
Proof.
  pose proof (evaluate_v1_cases override staffed) as C. cbv zeta in C.
  assert (Hals : existsb (is_als cols) att
                 = negb (Spec.is_nil (filter (is_als cols) att))).
  { destruct (existsb (is_als cols) att) eqn:E.
    - destruct (filter (is_als cols) att) eqn:F; [|reflexivity].
      apply existsb_filter_nil in F. congruence.
    - apply existsb_filter_nil in E. now rewrite E. }
  unfold Spec.status_of. rewrite Hals.
  destruct att as [|a [|a' l]]; destruct (drv _) as [|d [|d' l']];
    destruct (filter (is_als cols) _) as [|x lx]; simpl in *; rewrite C; reflexivity.
Qed.

(** The reasons version 1 reports: as in version 2, except that the no-ALS
    reason only asks for a non-empty attendant pool. *)
Lemma radar_v1_reasons override staffed :
  let a := att in
  let d := drv (Py.or_opt override staffed) in
  let no_als := negb (existsb (is_als cols) a) in
  snd (evaluate cols people ops_rows allow_nonmedical_driver override staffed) =
  Spec.reasons_when
    [ (Spec.is_nil a, R_NO_ATTENDANT);
      (Spec.is_nil d, R_NO_DRIVER);
      (negb (Spec.is_nil a) && no_als, R_NO_ALS);
      (negb (Spec.is_nil a) && negb (Spec.is_nil d) && negb no_als && Spec.single a d,
       R_FRAGILE) ].
Proof.
  pose proof (evaluate_v1_cases override staffed) as C. cbv zeta in C |- *.
  assert (Hals : existsb (is_als cols) att
                 = negb (Spec.is_nil (filter (is_als cols) att))).
  { destruct (existsb (is_als cols) att) eqn:E.
    - destruct (filter (is_als cols) att) eqn:F; [|reflexivity].
      apply existsb_filter_nil in F. congruence.
    - apply existsb_filter_nil in E. now rewrite E. }
  rewrite Hals. unfold Spec.reasons_when, Spec.single.
  destruct att as [|a [|a' l]]; destruct (drv _) as [|d [|d' l']];
    destruct (filter (is_als cols) _) as [|x lx]; simpl in *; rewrite C; reflexivity.
Qed.

(** Who is in the pools of version 1: MEDIC is no certification it knows. *)
Lemma radar_v1_pools (unit : option string) (p : Person) :
  (In p att <->
   In p people /\ is_active cols p = true /\ willing cols p = true
   /\ In (cert cols p) Spec.EMT_OR_HIGHER_V1)
  /\ (is_als cols p = true <-> In (cert cols p) Spec.ALS_CAPABLE_V1)
  /\ (In p (drv unit) <->
      In p people /\ is_active cols p = true
      /\ (exists o, In o ops_rows /\ unit = Some (ops_unit o) /\ ops_pid o = pid p)
      /\ (allow_nonmedical_driver = true \/ In (cert cols p) Spec.EMT_OR_HIGHER_V1)).
Proof.
  split; [|split].
  - unfold att, attendant_pool. rewrite filter_In.
    rewrite !andb_true_iff. unfold is_emt_or_higher.
    rewrite in_tuple_In. tauto.
  - unfold is_als. apply in_tuple_In.
  - assert (Hops : Py.in_tuple (pid p) (ops_by_unit ops_rows unit) = true <->
                   exists o, In o ops_rows /\ unit = Some (ops_unit o)
                             /\ ops_pid o = pid p).
    { rewrite in_tuple_In. unfold ops_by_unit. destruct unit as [u|].
      - rewrite in_map_iff. split.
        + intros (o & Eo & Ho). apply filter_In in Ho. destruct Ho as (Ho & Hb).
          apply String.eqb_eq in Hb. exists o. subst. auto.
        + intros (o & Ho & Hu & Hid). exists o. split; [assumption|].
          apply filter_In. split; [assumption|]. injection Hu as ->.
          apply String.eqb_refl.
      - simpl. split; [tauto|]. intros (o & _ & Hu & _). discriminate. }
    unfold drv, driver_pool. destruct allow_nonmedical_driver.
    + rewrite filter_In, andb_true_iff, Hops. tauto.
    + rewrite filter_In, !andb_true_iff, Hops. unfold is_emt_or_higher.
      rewrite in_tuple_In. intuition discriminate.
Qed.

End RadarV1Facts.

(** The persons with an ops row for a unit, row by row. *)
Lemma in_ops_by_unit (ops_rows : list RadarV2.PersonOps) (unit pid : string) :
  Py.in_tuple pid (RadarV2.ops_by_unit ops_rows unit)
  = existsb (fun o => (RadarV2.can_operate o =? 1)%Z
                      && (RadarV2.ops_unit_id o =? unit)%string
                      && (RadarV2.ops_person_id o =? pid)%string) ops_rows.
Proof.
  unfold Py.in_tuple, RadarV2.ops_by_unit.
  induction ops_rows as [|o l IH]; [reflexivity|].
  cbn [filter existsb].
  destruct ((RadarV2.can_operate o =? 1)%Z && (RadarV2.ops_unit_id o =? unit)%string).
  - cbn [map existsb andb]. rewrite IH, (String.eqb_sym pid). reflexivity.
  - cbn [andb orb]. exact IH.
Qed.

(** C7. For every shift and roster the status of [evaluate] follows the
    ordered rules of the specification, on the pools of the roster.  The
    effective unit is the override, else the staffed unit, else the week's
    default; the attendant pool holds the active, willing persons certified
    EMT or higher, the driver pool the active persons with a
    [can_operate = 1] ops row for the effective unit, certified EMT or higher
    unless non-medical drivers are allowed.  The status is RED when the
    attendant pool or the driver pool is empty, else YELLOW when no attendant
    is ALS-capable, else YELLOW when a pool has exactly one candidate, else
    GREEN.  When no person of the roster has ops-capability for the effective
    unit the status is RED and the no-driver reason is reported; with an
    ALS-capable attendant and two or more candidates in both pools the status
    is GREEN. *)
Theorem radar_status_rules (people : list RadarV2.Person)
    (ops_rows : list RadarV2.PersonOps) (allow : bool) (wk : string)
    (s : RadarV2.ShiftRow) :
  let v := RadarV2.evaluate people ops_rows allow wk s in
  let unit :=
    match RadarV2.sr_first_out_override_unit_id s, RadarV2.sr_staffed_unit_id s with
    | Some (String c o), _ => String c o
    | _, Some (String c u) => String c u
    | _, _ => wk
    end in
  let cert p := Py.upper (Py.strip (Py.or_empty (RadarV2.medical_cert p))) in
  let emt p :=
    existsb (String.eqb (cert p)) ["EMT"; "AEMT"; "ALS"; "PARAMEDIC"; "MEDIC"]%string in
  let als p := existsb (String.eqb (cert p)) ["ALS"; "PARAMEDIC"; "MEDIC"]%string in
  let ops p :=
    existsb (fun o => (RadarV2.can_operate o =? 1)%Z
                      && (RadarV2.ops_unit_id o =? unit)%string
                      && (RadarV2.ops_person_id o =? RadarV2.person_id p)%string)
            ops_rows in
  let att :=
    filter (fun p => (RadarV2.active p =? 1)%Z && (RadarV2.willing_attend p =? 1)%Z
                     && emt p) people in
  let drv :=
    filter (fun p => (RadarV2.active p =? 1)%Z && ops p && (allow || emt p)) people in
  RadarV2.v_unit v = unit
  /\ RadarV2.v_att_pool v = att
  /\ RadarV2.v_drv_pool v = drv
  /\ (att = [] \/ drv = [] -> RadarV2.v_status v = RED)
  /\ (att <> [] -> drv <> [] -> existsb als att = false -> RadarV2.v_status v = YELLOW)
  /\ (att <> [] -> drv <> [] -> existsb als att = true ->
      List.length att = 1%nat \/ List.length drv = 1%nat ->
      RadarV2.v_status v = YELLOW)
  /\ (existsb als att = true ->
      (2 <= List.length att)%nat -> (2 <= List.length drv)%nat ->
      RadarV2.v_status v = GREEN)
  /\ RadarV2.v_status v = Spec.status_of als att drv
  /\ ((forall p o, In p people -> In o ops_rows -> RadarV2.can_operate o = 1 ->
                   RadarV2.ops_unit_id o = unit ->
                   RadarV2.ops_person_id o <> RadarV2.person_id p) ->
      RadarV2.v_status v = RED
      /\ In ("No driver candidates with " ++ unit ++ "_ops")%string
            (RadarV2.v_reasons v)).
Proof.
  intros v unit cert emt als ops att drv.
  assert (Eu : RadarV2.effective_unit wk s = unit).
  { unfold RadarV2.effective_unit, unit.
    destruct (RadarV2.sr_first_out_override_unit_id s) as [[|c o]|];
      destruct (RadarV2.sr_staffed_unit_id s) as [[|c' u]|]; reflexivity. }
  assert (Ed : RadarV2.eligible_driver_pool people ops_rows allow unit = drv).
  { unfold RadarV2.eligible_driver_pool, drv. cbv zeta. apply filter_ext. intros p.
    rewrite in_ops_by_unit. reflexivity. }
  assert (Hno : (forall p o, In p people -> In o ops_rows -> RadarV2.can_operate o = 1 ->
                             RadarV2.ops_unit_id o = unit ->
                             RadarV2.ops_person_id o <> RadarV2.person_id p) ->
                drv = []).
  { intros H. apply existsb_filter_nil.
    destruct (existsb _ people) eqn:E; [|reflexivity].
    apply existsb_exists in E. destruct E as (p & Hp & Hb).
    apply andb_true_iff in Hb. destruct Hb as (Hb & _).
    apply andb_true_iff in Hb. destruct Hb as (_ & Hb).
    apply existsb_exists in Hb. destruct Hb as (o & Ho & Hb).
    apply andb_true_iff in Hb. destruct Hb as (Hb & Hid).
    apply andb_true_iff in Hb. destruct Hb as (Hc & Hu).
    apply Z.eqb_eq in Hc. apply String.eqb_eq in Hu, Hid.
    exfalso. exact (H p o Hp Ho Hc Hu Hid). }
  destruct (evaluate_pools people ops_rows allow wk s) as (Hu & Ha & _ & Hd).
  pose proof (evaluate_cases people ops_rows allow wk s) as C.
  cbv zeta in Hu, Ha, Hd, C.
  change (RadarV2.evaluate people ops_rows allow wk s) with v in Hu, Ha, Hd, C.
  rewrite Eu in Hu, Hd, C. rewrite Ed in Hd, C.
  change (RadarV2.eligible_attendant_pool people) with att in Ha, C.
  change (filter (fun p => RadarV2.is_als (RadarV2.medical_cert p)) att)
    with (filter als att) in C.
  change (RadarV2.R_NO_DRIVER unit)
    with ("No driver candidates with " ++ unit ++ "_ops")%string in C.
  clearbody v att drv als unit. clear Eu Ed.
  split; [exact Hu|]. split; [exact Ha|]. split; [exact Hd|].
  assert (Hs : RadarV2.v_status v = Spec.status_of als att drv
               /\ (drv = [] ->
                   In ("No driver candidates with " ++ unit ++ "_ops")%string
                      (RadarV2.v_reasons v))).
  { unfold Spec.status_of.
    destruct (existsb als att) eqn:Eals;
      destruct (filter als att) as [|x lx] eqn:F;
      try (apply existsb_filter_nil in F; congruence);
      try (apply existsb_filter_nil in Eals; congruence);
      destruct att as [|a [|a' l]]; destruct drv as [|d [|d' l']];
      cbn [negb List.length Nat.eqb orb] in *; destruct C as [C1 C2];
      rewrite C1, C2; split; try reflexivity; intros; try discriminate;
      cbn [In]; auto. }
  destruct Hs as (Hs & Hr). rewrite Hs.
  split; [|split; [|split; [|split; [|split]]]].
  - unfold Spec.status_of. intros [->| ->]; [reflexivity | now destruct att].
  - unfold Spec.status_of. intros Hn1 Hn2 E. rewrite E.
    destruct att; [contradiction|]. destruct drv; [contradiction|]. reflexivity.
  - unfold Spec.status_of. intros Hn1 Hn2 E [L|L]; rewrite E, L;
      (destruct att; [contradiction|]); (destruct drv; [contradiction|]);
      cbn [negb Nat.eqb orb]; [reflexivity | now rewrite orb_true_r].
  - unfold Spec.status_of. intros E La Ld. rewrite E.
    destruct att as [|a [|a' l]]; destruct drv as [|d [|d' l']];
      cbn [List.length] in La, Ld; try lia; reflexivity.
  - reflexivity.
  - intros H. pose proof (Hno H) as E0. split; [|now apply Hr].
    rewrite E0. unfold Spec.status_of. now destruct att.
Qed.

(** C7, at a roster of a paramedic and an EMT who both operate AMB120: the
    Thursday day shift is GREEN; without any ops row it is RED for AMB120. *)
Lemma radar_status_rules_witness :
  RadarV2.v_status
    (RadarV2.evaluate [Examples.medic; Examples.emt] Examples.ops_120 false
                      "AMB121" Examples.thursday_day) = GREEN
  /\ RadarV2.v_status
       (RadarV2.evaluate [Examples.medic; Examples.emt] [] false
                         "AMB121" Examples.thursday_day) = RED
  /\ In "No driver candidates with AMB120_ops"%string
        (RadarV2.v_reasons
           (RadarV2.evaluate [Examples.medic; Examples.emt] [] false
                             "AMB121" Examples.thursday_day)).
Proof.
  destruct (radar_status_rules [Examples.medic; Examples.emt] Examples.ops_120 false
                               "AMB121" Examples.thursday_day)
    as (_ & _ & _ & _ & _ & _ & Hgreen & _).
  destruct (radar_status_rules [Examples.medic; Examples.emt] [] false
                               "AMB121" Examples.thursday_day)
    as (_ & _ & _ & _ & _ & _ & _ & _ & Hred).
  split.
  - apply Hgreen.
    + vm_compute. reflexivity.
    + vm_compute. lia.
    + vm_compute. lia.
  - apply Hred. intros p o _ [].
Defined.

(** C8 (as amended). Version 2 of the radar builds the pools the claim
    describes: attendants are the active, willing persons certified EMT,
    AEMT, ALS, PARAMEDIC or MEDIC, of which ALS, PARAMEDIC and MEDIC are
    ALS-capable; drivers are the active persons with an ops row
    ([can_operate = 1]) for the unit, certified EMT or higher unless
    non-medical drivers are allowed.  Version 1 builds the same pools without
    the MEDIC certification (and reads a flag that is missing or NULL as set,
    and any ops row as the capability). *)
Theorem radar_pools :
  (forall people ops_rows allow unit p,
      (In p (RadarV2.eligible_attendant_pool people) <->
       In p people /\ RadarV2.active p = 1 /\ RadarV2.willing_attend p = 1
       /\ In (RadarV2.norm_cert (RadarV2.medical_cert p)) Spec.EMT_OR_HIGHER)
      /\ (RadarV2.is_als (RadarV2.medical_cert p) = true <->
          In (RadarV2.norm_cert (RadarV2.medical_cert p)) Spec.ALS_CAPABLE)
      /\ (In p (RadarV2.eligible_driver_pool people ops_rows allow unit) <->
          In p people /\ RadarV2.active p = 1
          /\ (exists o, In o ops_rows /\ RadarV2.can_operate o = 1
                        /\ RadarV2.ops_unit_id o = unit
                        /\ RadarV2.ops_person_id o = RadarV2.person_id p)
          /\ (allow = true
              \/ In (RadarV2.norm_cert (RadarV2.medical_cert p)) Spec.EMT_OR_HIGHER)))
  /\ (forall cols people ops_rows allow unit p,
      (In p (RadarV1.attendant_pool cols people) <->
       In p people /\ RadarV1.is_active cols p = true /\ RadarV1.willing cols p = true
       /\ In (RadarV1.cert cols p) Spec.EMT_OR_HIGHER_V1)
      /\ (RadarV1.is_als cols p = true <-> In (RadarV1.cert cols p) Spec.ALS_CAPABLE_V1)
      /\ (In p (RadarV1.driver_pool cols people ops_rows allow unit) <->
          In p people /\ RadarV1.is_active cols p = true
          /\ (exists o, In o ops_rows /\ unit = Some (RadarV1.ops_unit o)
                        /\ RadarV1.ops_pid o = RadarV1.pid p)
          /\ (allow = true \/ In (RadarV1.cert cols p) Spec.EMT_OR_HIGHER_V1))).
Proof.
  split.
  - intros. apply radar_v2_pools.
  - intros. apply radar_v1_pools.
Qed.

(** C8 as stated fails in version 1: an active, willing person certified
    MEDIC is no attendant candidate there and is not ALS-capable; version 2
    takes the same person. *)
Lemma radar_pools_counterexample :
  RadarV1.attendant_pool Examples.all_cols [Examples.medic_v1] = []
  /\ RadarV1.is_als Examples.all_cols Examples.medic_v1 = false
  /\ RadarV1.is_active Examples.all_cols Examples.medic_v1 = true
  /\ RadarV1.willing Examples.all_cols Examples.medic_v1 = true
  /\ RadarV1.cert Examples.all_cols Examples.medic_v1 = "MEDIC"
  /\ RadarV2.eligible_attendant_pool
       [RadarV2.mk_person "p3" "Casey" 1 (Some "MEDIC") 1]
     = [RadarV2.mk_person "p3" "Casey" 1 (Some "MEDIC") 1].
Proof. repeat split. Qed.

(** C9 (as amended). The reasons are, in order: the empty-attendant-pool
    reason and the empty-driver-pool reason whenever they hold; the no-ALS
    reason when the attendant pool is non-empty and has no ALS-capable member
    (in version 2 only if the driver pool is non-empty too, so that the
    status is not RED); the single-candidate reason only when none of the
    others was reported. *)
Theorem radar_reasons :
  (forall people ops_rows allow wk s,
      let v := RadarV2.evaluate people ops_rows allow wk s in
      let a := RadarV2.v_att_pool v in
      let d := RadarV2.v_drv_pool v in
      let no_als := negb (existsb (fun p => RadarV2.is_als (RadarV2.medical_cert p)) a) in
      RadarV2.v_reasons v =
      Spec.reasons_when
        [ (Spec.is_nil a, RadarV2.R_NO_ATTENDANT);
          (Spec.is_nil d, RadarV2.R_NO_DRIVER (RadarV2.v_unit v));
          (negb (Spec.is_nil a) && negb (Spec.is_nil d) && no_als, RadarV2.R_NO_ALS);
          (negb (Spec.is_nil a) && negb (Spec.is_nil d) && negb no_als
           && Spec.single a d, RadarV2.R_FRAGILE) ])
  /\ (forall cols people ops_rows allow override staffed,
      let a := RadarV1.attendant_pool cols people in
      let d := RadarV1.driver_pool cols people ops_rows allow
                 (Py.or_opt override staffed) in
      let no_als := negb (existsb (RadarV1.is_als cols) a) in
      snd (RadarV1.evaluate cols people ops_rows allow override staffed) =
      Spec.reasons_when
        [ (Spec.is_nil a, RadarV1.R_NO_ATTENDANT);
          (Spec.is_nil d, RadarV1.R_NO_DRIVER);
          (negb (Spec.is_nil a) && no_als, RadarV1.R_NO_ALS);
          (negb (Spec.is_nil a) && negb (Spec.is_nil d) && negb no_als
           && Spec.single a d, RadarV1.R_FRAGILE) ]).
Proof.
  split.
  - intros. apply radar_v2_reasons.
  - intros. apply radar_v1_reasons.
Qed.

(** C9 as stated fails.  In version 2 a shift without driver candidates
    whose only attendant is an EMT is RED and reports the no-driver reason
    alone; in both versions a shift whose single attendant is an EMT, with
    two drivers, reports the no-ALS reason and not the single-candidate
    one. *)
Lemma radar_reasons_counterexample :
  let v := RadarV2.evaluate [Examples.emt] [] false "AMB121" Examples.thursday_day in
  let w := RadarV2.evaluate [Examples.emt; RadarV2.mk_person "p4" "Drew" 1 None 0]
             [RadarV2.mk_ops "p2" "AMB120" 1; RadarV2.mk_ops "p4" "AMB120" 1]
             true "AMB121" Examples.thursday_day in
  (RadarV2.v_att_pool v = [Examples.emt]
   /\ RadarV2.v_att_als_pool v = []
   /\ RadarV2.v_drv_pool v = []
   /\ RadarV2.v_status v = RED
   /\ RadarV2.v_reasons v = ["No driver candidates with AMB120_ops"])
  /\ (List.length (RadarV2.v_att_pool w) = 1%nat
      /\ List.length (RadarV2.v_drv_pool w) = 2%nat
      /\ RadarV2.v_att_als_pool w = []
      /\ RadarV2.v_status w = YELLOW
      /\ RadarV2.v_reasons w = ["No ALS available for attendant"]).
Proof. repeat split. Qed.

(** ** The rotation step *)

Section Rotation.

Variable tow : string.

Lemma set_staffed_twice (c : ShiftConfig) :
  set_staffed tow (set_staffed tow c) = set_staffed tow c.
Proof. reflexivity. Qed.

(** The loop over the shifts of the week is one pass over the
    configuration table. *)
Lemma update_cfg_loop (ids : list string) (conn : DB) :
  fold_left
    (fun conn sid =>
       with_cfg conn
         (map (fun c => if c_shift_id c =? sid then set_staffed tow c else c)
              (sc_shift_config conn)))
    ids conn
  = with_cfg conn
      (map (fun c => if Py.in_tuple (c_shift_id c) ids then set_staffed tow c else c)
           (sc_shift_config conn)).
Proof.
  revert conn. induction ids as [|sid ids IH]; intros conn; simpl.
  - destruct conn as [w s c r]. unfold with_cfg. simpl. f_equal.
    symmetry. apply map_id.
  - rewrite IH. unfold with_cfg. simpl. f_equal.
    rewrite map_map. apply map_ext. intros c.
    destruct (String.eqb_spec (c_shift_id c) sid) as [E|N]; simpl.
    + destruct (Py.in_tuple (c_shift_id c) ids); reflexivity.
    + reflexivity.
Qed.

End Rotation.

(** C3. [apply_tow] rewrites the default unit of the week's row and the
    staffed unit of the configuration rows of the week's shifts, and nothing
    else: every override keeps its value, the seat records and the shifts
    are the same tables as before.  [apply_week_first_out] of
    [apply_tow_rotation_dec2025.py] is the same function. *)
Theorem apply_tow_frame (conn : DB) (start : Cal.date) (tow : string) :
  let conn' := EnsureWeeks.apply_tow conn start tow in
  let wid := EnsureWeeks.week_id_for start in
  let ids := shift_ids_of_week conn wid in
  sc_weeks conn'
  = map (fun w => if week_id w =? wid then set_first_out tow w else w) (sc_weeks conn)
  /\ sc_shift_config conn'
     = map (fun c => if Py.in_tuple (c_shift_id c) ids then set_staffed tow c else c)
           (sc_shift_config conn)
  /\ (forall w, In w (sc_weeks conn') -> week_id w = wid ->
                first_out_default_unit_id w = tow)
  /\ (forall s c, In s (sc_shifts conn) -> s_week_id s = wid ->
                  In c (sc_shift_config conn') -> c_shift_id c = shift_id s ->
                  staffed_unit_id c = Some tow)
  /\ map first_out_override_unit_id (sc_shift_config conn')
     = map first_out_override_unit_id (sc_shift_config conn)
  /\ sc_seat_records conn' = sc_seat_records conn
  /\ sc_shifts conn' = sc_shifts conn
  /\ ApplyTowRotation.apply_week_first_out conn start tow = conn'.
Proof.
  intros conn' wid ids.
  assert (E : conn' =
              with_cfg
                (with_weeks conn
                   (map (fun w => if week_id w =? wid then set_first_out tow w else w)
                        (sc_weeks conn)))
                (map (fun c => if Py.in_tuple (c_shift_id c) ids
                               then set_staffed tow c else c)
                     (sc_shift_config conn))).
  { unfold conn', EnsureWeeks.apply_tow. cbv zeta. rewrite update_cfg_loop. reflexivity. }
  assert (Ew : sc_weeks conn' =
               map (fun w => if week_id w =? wid then set_first_out tow w else w)
                   (sc_weeks conn)) by (rewrite E; reflexivity).
  assert (Ec : sc_shift_config conn' =
               map (fun c => if Py.in_tuple (c_shift_id c) ids
                             then set_staffed tow c else c)
                   (sc_shift_config conn)) by (rewrite E; reflexivity).
  repeat split.
  - exact Ew.
  - exact Ec.
  - intros w Hw Hid. rewrite Ew in Hw. apply in_map_iff in Hw.
    destruct Hw as (w0 & <- & _).
    destruct (String.eqb_spec (week_id w0) wid) as [_|N]; [reflexivity|].
    now destruct (String.eqb_spec (week_id w0) wid).
  - intros s c Hs Hwk Hc Hid. rewrite Ec in Hc. apply in_map_iff in Hc.
    destruct Hc as (c0 & <- & _).
    assert (Hin : Py.in_tuple (c_shift_id c0) ids = true).
    { apply in_tuple_In. unfold ids, shift_ids_of_week. apply in_map_iff.
      exists s. split.
      - destruct (Py.in_tuple (c_shift_id c0) ids); simpl in Hid; congruence.
      - apply filter_In. split; [assumption | now apply String.eqb_eq]. }
    rewrite Hin. reflexivity.
  - rewrite Ec, map_map. apply map_ext. intros c.
    destruct (Py.in_tuple (c_shift_id c) ids); reflexivity.
  - rewrite E. reflexivity.
  - rewrite E. reflexivity.
Qed.

(** C3, on a database of one week with one shift: the rotation to AMB131
    reaches the week and the shift's configuration. *)
Lemma apply_tow_frame_witness :
  let conn' :=
    EnsureWeeks.apply_tow Examples.one_shift_db Examples.thu_2025_12_04 "AMB131" in
  (forall w, In w (sc_weeks conn') -> first_out_default_unit_id w = "AMB131")
  /\ (forall c, In c (sc_shift_config conn') -> staffed_unit_id c = Some "AMB131").
Proof.
  cbv zeta.
  destruct (apply_tow_frame Examples.one_shift_db Examples.thu_2025_12_04 "AMB131")
    as (_ & _ & Hw & Hc & _).
  split.
  - intros w Hin. apply (Hw w Hin).
    vm_compute in Hin. destruct Hin as [<-|[]]. reflexivity.
  - intros c Hin.
    apply (Hc Examples.one_shift c); [left; reflexivity | reflexivity | exact Hin |].
    vm_compute in Hin. destruct Hin as [<-|[]]. reflexivity.
Defined.

(** ** Inserting the rows that are missing *)

Section InsertIfMissing.

Context {A : Type}.
Variable same : A -> A -> bool.

Lemma has_row_app (t l : list A) (r : A) :
  Sql.has_row same (t ++ l) r = Sql.has_row same t r || Sql.has_row same l r.
Proof. unfold Sql.has_row. apply existsb_app. Qed.

Lemma has_row_In (t : list A) (r : A) :
  Sql.has_row same t r = true <-> exists x, In x t /\ same x r = true.
Proof. unfold Sql.has_row. apply existsb_exists. Qed.

Lemma has_row_false (t : list A) (r : A) :
  Sql.has_row same t r = false <-> forall x, In x t -> same x r = false.
Proof.
  unfold Sql.has_row. split.
  - intros H x Hx. destruct (same x r) eqn:E; [|reflexivity].
    assert (existsb (fun x => same x r) t = true)
      by (apply existsb_exists; eauto).
    congruence.
  - intros H. destruct (existsb (fun x => same x r) t) eqn:E; [|reflexivity].
    apply existsb_exists in E. destruct E as (x & Hx & Hs).
    rewrite (H x Hx) in Hs. discriminate.
Qed.

(** The loop only appends. *)
Lemma insert_missing_extends (rows t : list A) :
  exists l, fold_left (Sql.insert_if_missing same) rows t = t ++ l.
Proof.
  revert t. induction rows as [|r rows IH]; intros t; simpl.
  - exists []. now rewrite app_nil_r.
  - unfold Sql.insert_if_missing at 2. destruct (Sql.has_row same t r).
    + apply IH.
    + destruct (IH (t ++ [r])) as (l & E). exists (r :: l).
      rewrite E, <- app_assoc. reflexivity.
Qed.

(** Rows that are all there: nothing is inserted. *)
Lemma insert_missing_present (rows t : list A) :
  (forall r, In r rows -> Sql.has_row same t r = true) ->
  fold_left (Sql.insert_if_missing same) rows t = t.
Proof.
  induction rows as [|r rows IH]; intros H; simpl; [reflexivity|].
  unfold Sql.insert_if_missing at 2. rewrite (H r (or_introl eq_refl)).
  apply IH. intros r' Hr'. apply H. now right.
Qed.

(** After the loop every row is there. *)
Lemma insert_missing_has (rows t : list A) (r : A) :
  (forall r, In r rows -> same r r = true) ->
  In r rows ->
  Sql.has_row same (fold_left (Sql.insert_if_missing same) rows t) r = true.
Proof.
  intros Hrefl. revert t. induction rows as [|r0 rows IH]; intros t Hin; [destruct Hin|].
  simpl. destruct Hin as [->|Hin].
  - destruct (insert_missing_extends rows (Sql.insert_if_missing same t r)) as (l & ->).
    rewrite has_row_app. apply orb_true_iff. left.
    unfold Sql.insert_if_missing. destruct (Sql.has_row same t r) eqn:E; [assumption|].
    rewrite has_row_app. apply orb_true_iff. right.
    unfold Sql.has_row. simpl. rewrite Hrefl; [reflexivity | now left].
  - apply IH; [|assumption]. intros r' Hr'. apply Hrefl. now right.
Qed.

(** Rows with fresh and pairwise different keys are all inserted, in order. *)
Lemma insert_missing_fresh (rows t : list A) :
  (forall r, In r rows -> Sql.has_row same t r = false) ->
  ForallOrdPairs (fun a b => same a b = false) rows ->
  fold_left (Sql.insert_if_missing same) rows t = t ++ rows.
Proof.
  revert t. induction rows as [|r rows IH]; intros t Hf Hp; simpl.
  - now rewrite app_nil_r.
  - unfold Sql.insert_if_missing at 2. rewrite (Hf r (or_introl eq_refl)).
    inversion Hp as [|? ? Hr Hrest]; subst.
    rewrite IH.
    + rewrite <- app_assoc. reflexivity.
    + intros r' Hr'. rewrite has_row_app. apply orb_false_iff. split.
      * apply Hf. now right.
      * unfold Sql.has_row. simpl. rewrite orb_false_r.
        rewrite Forall_forall in Hr. now apply Hr.
    + assumption.
Qed.

End InsertIfMissing.

Lemma fold_left_flat_map {A B C : Type} (f : A -> C -> A) (g : B -> list C)
    (l : list B) (a : A) :
  fold_left (fun a x => fold_left f (g x) a) l a = fold_left f (flat_map g l) a.
Proof.
  revert a. induction l as [|x l IH]; intros a; simpl; [reflexivity|].
  rewrite fold_left_app. apply IH.
Qed.

Lemma fold_left_ext {A B : Type} (f g : A -> B -> A) (l : list B) (a : A) :
  (forall a x, f a x = g a x) -> fold_left f l a = fold_left g l a.
Proof.
  intros H. revert a. induction l as [|x l IH]; intros a; simpl; [reflexivity|].
  rewrite H. apply IH.
Qed.

(** ** Week generation: the loops as table operations *)

Section EnsureWeekTables.

Import EnsureWeeks.

Lemma with_shifts_same (conn : DB) : with_shifts conn (sc_shifts conn) = conn.
Proof. now destruct conn. Qed.

Lemma with_cfg_same (conn : DB) : with_cfg conn (sc_shift_config conn) = conn.
Proof. now destruct conn. Qed.

Lemma with_seats_same (conn : DB) : with_seats conn (sc_seat_records conn) = conn.
Proof. now destruct conn. Qed.

Lemma with_weeks_same (conn : DB) : with_weeks conn (sc_weeks conn) = conn.
Proof. now destruct conn. Qed.

Lemma ensure_shift_table (conn : DB) (s : Shift) :
  ensure_shift conn s
  = with_shifts conn (Sql.insert_if_missing same_shift (sc_shifts conn) s).
Proof.
  unfold ensure_shift, Sql.insert_if_missing, Sql.has_row, same_shift.
  destruct (existsb _ _); [now rewrite with_shifts_same | reflexivity].
Qed.

Lemma ensure_shifts_table (rows : list Shift) (conn : DB) :
  fold_left ensure_shift rows conn
  = with_shifts conn (fold_left (Sql.insert_if_missing same_shift) rows (sc_shifts conn)).
Proof.
  revert conn. induction rows as [|s rows IH]; intros conn; simpl.
  - now rewrite with_shifts_same.
  - rewrite IH, ensure_shift_table. reflexivity.
Qed.

Lemma ensure_days_table (wid : string) (start : Cal.date) (conn : DB) :
  fold_left (ensure_day wid start) (Py.range 7) conn
  = with_shifts conn
      (fold_left (Sql.insert_if_missing same_shift) (week_shifts wid start)
                 (sc_shifts conn)).
Proof.
  rewrite <- ensure_shifts_table. unfold week_shifts.
  rewrite <- fold_left_flat_map. reflexivity.
Qed.

Lemma ensure_seat_table (sid layer unit_id : string) (conn : DB) (seat_id : string) :
  ensure_seat sid layer unit_id conn seat_id
  = with_seats conn
      (Sql.insert_if_missing same_seat (sc_seat_records conn)
                             (new_seat sid layer unit_id seat_id)).
Proof.
  unfold ensure_seat, Sql.insert_if_missing, Sql.has_row, same_seat. simpl.
  destruct (existsb _ _); [now rewrite with_seats_same | reflexivity].
Qed.

Lemma ensure_seats_table (rows : list SeatRecord) (conn : DB) :
  fold_left (fun conn r => with_seats conn
                             (Sql.insert_if_missing same_seat (sc_seat_records conn) r))
            rows conn
  = with_seats conn
      (fold_left (Sql.insert_if_missing same_seat) rows (sc_seat_records conn)).
Proof.
  revert conn. induction rows as [|s rows IH]; intros conn; simpl.
  - now rewrite with_seats_same.
  - rewrite IH. reflexivity.
Qed.

Lemma ensure_layers_table (units : list string) (sid staffed_unit : string) (conn : DB) :
  fold_left (ensure_layer units sid staffed_unit) LAYERS conn
  = with_seats conn
      (fold_left (Sql.insert_if_missing same_seat) (seat_rows units sid staffed_unit)
                 (sc_seat_records conn)).
Proof.
  rewrite <- ensure_seats_table. unfold seat_rows.
  rewrite <- fold_left_flat_map.
  apply fold_left_ext. intros a [layer is_primary]. unfold ensure_layer. simpl fst. simpl snd.
  rewrite <- fold_left_flat_map.
  apply fold_left_ext. intros b unit_id. simpl.
  rewrite !ensure_seat_table. reflexivity.
Qed.

End EnsureWeekTables.

Section EnsureWeekLoops.

Import EnsureWeeks.

Variable units : list string.
Variable first_out : string.

Lemma ensure_cfg_table (conn : DB) (sid : string) :
  ensure_cfg first_out conn sid
  = with_cfg conn
      (Sql.insert_if_missing same_cfg (sc_shift_config conn) (new_cfg first_out sid)).
Proof.
  unfold ensure_cfg, Sql.insert_if_missing, Sql.has_row, same_cfg. simpl.
  destruct (existsb _ _); [now rewrite with_cfg_same | reflexivity].
Qed.

Lemma ensure_cfg_seats_table (conn : DB) (sid : string) :
  ensure_cfg_seats units first_out conn sid
  = let t := cfg_seats_step units first_out
               (sc_shift_config conn, sc_seat_records conn) sid in
    mk_db (sc_weeks conn) (sc_shifts conn) (fst t) (snd t).
Proof.
  unfold ensure_cfg_seats. cbv zeta.
  rewrite ensure_layers_table, ensure_cfg_table.
  destruct conn as [w s c r]. reflexivity.
Qed.

Lemma ensure_cfg_seats_loop (ids : list string) (conn : DB) :
  fold_left (ensure_cfg_seats units first_out) ids conn
  = let t := fold_left (cfg_seats_step units first_out) ids
               (sc_shift_config conn, sc_seat_records conn) in
    mk_db (sc_weeks conn) (sc_shifts conn) (fst t) (snd t).
Proof.
  revert conn. induction ids as [|sid ids IH]; intros conn; simpl.
  - now destruct conn.
  - rewrite IH, ensure_cfg_seats_table. cbv zeta.
    cbn [sc_weeks sc_shifts sc_shift_config sc_seat_records].
    rewrite <- surjective_pairing. reflexivity.
Qed.

(** [ensure_week], table by table. *)
Lemma ensure_week_tables (conn : DB) (start : Cal.date) :
  let wid := week_id_for start in
  let weeks := Sql.insert_if_missing same_week (sc_weeks conn) (new_week start first_out) in
  let shifts :=
    fold_left (Sql.insert_if_missing same_shift) (week_shifts wid start) (sc_shifts conn) in
  let ids := map shift_id (filter (fun s => s_week_id s =? wid) shifts) in
  let t := fold_left (cfg_seats_step units first_out) ids
             (sc_shift_config conn, sc_seat_records conn) in
  ensure_week units conn start first_out = mk_db weeks shifts (fst t) (snd t).
Proof.
  cbv zeta. unfold ensure_week. cbv zeta.
  assert (E : (if existsb (fun w => week_id w =? week_id_for start) (sc_weeks conn)
               then conn
               else with_weeks conn (sc_weeks conn ++ [new_week start first_out]))
              = with_weeks conn
                  (Sql.insert_if_missing same_week (sc_weeks conn)
                                         (new_week start first_out))).
  { unfold Sql.insert_if_missing, Sql.has_row, same_week.
    change (week_id (new_week start first_out)) with (week_id_for start).
    destruct (existsb _ _); [now rewrite with_weeks_same | reflexivity]. }
  rewrite E, ensure_cfg_seats_loop, ensure_days_table. cbv zeta.
  unfold shift_ids_of_week. destruct conn as [w s c r]. reflexivity.
Qed.

End EnsureWeekLoops.

(** ** Week generation is idempotent *)

Lemma find_app_found {A : Type} (p : A -> bool) (l l' : list A) :
  existsb p l = true -> find p (l ++ l') = find p l.
Proof.
  induction l as [|a l IH]; simpl; [discriminate|].
  destruct (p a); [reflexivity | exact IH].
Qed.

Section Idempotence.

Import EnsureWeeks Edits.

Variable units : list string.
Variable first_out : string.

Local Abbreviation step := (cfg_seats_step units first_out).
Local Abbreviation done := (shift_done units first_out).

Lemma seat_rows_same (sid su : string) (r : SeatRecord) :
  In r (seat_rows units sid su) -> same_seat r r = true.
Proof.
  unfold seat_rows. rewrite in_flat_map. intros (l & _ & H).
  rewrite in_flat_map in H. destruct H as (u & _ & H).
  apply in_map_iff in H. destruct H as (seat & <- & _).
  unfold same_seat. simpl. apply String.eqb_refl.
Qed.

Lemma step_extends t sid :
  exists lc ls, step t sid = (fst t ++ lc, snd t ++ ls).
Proof.
  unfold cfg_seats_step.
  destruct (insert_missing_extends same_seat
              (seat_rows units sid
                 (staffed_of (Sql.insert_if_missing same_cfg (fst t)
                                (new_cfg first_out sid)) sid first_out))
              (snd t)) as (ls & ->).
  unfold Sql.insert_if_missing. destruct (Sql.has_row same_cfg (fst t) _).
  - exists [], ls. now rewrite app_nil_r.
  - exists [new_cfg first_out sid], ls. reflexivity.
Qed.

Lemma steps_extend ids t :
  exists lc ls, fold_left step ids t = (fst t ++ lc, snd t ++ ls).
Proof.
  revert t. induction ids as [|sid ids IH]; intros t; simpl.
  - exists [], []. rewrite !app_nil_r. now destruct t.
  - destruct (step_extends t sid) as (lc & ls & E).
    destruct (IH (step t sid)) as (lc' & ls' & E').
    rewrite E' , E. simpl. exists (lc ++ lc'), (ls ++ ls').
    now rewrite !app_assoc.
Qed.

Lemma step_done t sid : done (step t sid) sid.
Proof.
  unfold shift_done, cfg_seats_step. cbn [fst snd].
  assert (Hc : Sql.has_row same_cfg
                 (Sql.insert_if_missing same_cfg (fst t) (new_cfg first_out sid))
                 (new_cfg first_out sid) = true).
  { unfold Sql.insert_if_missing.
    destruct (Sql.has_row same_cfg (fst t) (new_cfg first_out sid)) eqn:E; [exact E|].
    rewrite has_row_app. apply orb_true_iff. right.
    unfold Sql.has_row, same_cfg. simpl. now rewrite String.eqb_refl. }
  split; [exact Hc|].
  intros r Hr. apply insert_missing_has; [|exact Hr].
  intros r' Hr'. eapply seat_rows_same. exact Hr'.
Qed.

Lemma done_extends t sid lc ls :
  done t sid -> done (fst t ++ lc, snd t ++ ls) sid.
Proof.
  unfold shift_done. cbn [fst snd]. intros (Hc & Hs).
  assert (E : staffed_of (fst t ++ lc) sid first_out = staffed_of (fst t) sid first_out).
  { unfold staffed_of. rewrite find_app_found; [reflexivity | exact Hc]. }
  split.
  - rewrite has_row_app, Hc. reflexivity.
  - intros r Hr. rewrite E in Hr. rewrite has_row_app, (Hs r Hr). reflexivity.
Qed.

Lemma done_fixed t sid : done t sid -> step t sid = t.
Proof.
  unfold shift_done, cfg_seats_step. intros (Hc & Hs). cbv zeta.
  assert (E : Sql.insert_if_missing same_cfg (fst t) (new_cfg first_out sid) = fst t)
    by (unfold Sql.insert_if_missing; now rewrite Hc).
  rewrite E, insert_missing_present by exact Hs. now destruct t.
Qed.

Lemma steps_done ids t sid :
  In sid ids \/ done t sid -> done (fold_left step ids t) sid.
Proof.
  revert t. induction ids as [|s ids IH]; intros t H; simpl.
  - destruct H as [[]|H]. exact H.
  - apply IH. destruct H as [[->|H]|H].
    + right. apply step_done.
    + now left.
    + right. destruct (step_extends t s) as (lc & ls & ->).
      now apply done_extends.
Qed.

Lemma steps_fixed ids t :
  (forall sid, In sid ids -> done t sid) -> fold_left step ids t = t.
Proof.
  induction ids as [|s ids IH]; intros H; simpl; [reflexivity|].
  rewrite done_fixed by (apply H; now left).
  apply IH. intros sid Hs. apply H. now right.
Qed.

Lemma has_seat_edit (g : SeatRecord -> Assignment) (seats : list SeatRecord) r :
  Sql.has_row same_seat (map (fun r => set_assignment (g r) r) seats) r
  = Sql.has_row same_seat seats r.
Proof.
  unfold Sql.has_row. induction seats as [|x l IH]; simpl; [reflexivity|].
  now rewrite IH.
Qed.

Lemma done_edit (g : SeatRecord -> Assignment) t sid :
  done t sid -> done (fst t, map (fun r => set_assignment (g r) r) (snd t)) sid.
Proof.
  unfold shift_done. cbn [fst snd]. intros (Hc & Hs). split; [exact Hc|].
  intros r Hr. rewrite has_seat_edit. now apply Hs.
Qed.

(** C2. The ensure-variant generator is idempotent.  Run on its own result,
    [ensure_week] with the same inputs returns that database unchanged: no
    row is created in any of the four tables, so no id is duplicated and no
    field of any row is altered.  The same holds after any edit of the
    assignment fields (entity type, person id, placeholder id, health status,
    note) of any seat records between the two runs: the edited database is
    returned as it is. *)
Theorem ensure_week_idempotent (conn : DB) (start : Cal.date)
    (g : SeatRecord -> Assignment) :
  let once := ensure_week units conn start first_out in
  let edited := edit_assignments g once in
  ensure_week units once start first_out = once
  /\ ensure_week units edited start first_out = edited.
Proof.
  assert (Key : forall g : SeatRecord -> Assignment,
             let edited := edit_assignments g (ensure_week units conn start first_out) in
             ensure_week units edited start first_out = edited).
  { clear g. intros g. cbv zeta.
    pose proof (ensure_week_tables units first_out conn start) as E1. cbv zeta in E1.
    set (wid := week_id_for start) in *.
    set (weeks := Sql.insert_if_missing same_week (sc_weeks conn)
                    (new_week start first_out)) in *.
    set (shifts := fold_left (Sql.insert_if_missing same_shift)
                     (week_shifts wid start) (sc_shifts conn)) in *.
    set (ids := map shift_id (filter (fun s => s_week_id s =? wid) shifts)) in *.
    set (t := fold_left step ids (sc_shift_config conn, sc_seat_records conn)) in *.
    rewrite E1. unfold edit_assignments, with_seats.
    cbn [sc_weeks sc_shifts sc_shift_config sc_seat_records].
    rewrite ensure_week_tables. cbv zeta.
    cbn [sc_weeks sc_shifts sc_shift_config sc_seat_records].
    fold wid.
    assert (Hw : Sql.insert_if_missing same_week weeks (new_week start first_out) = weeks).
    { unfold Sql.insert_if_missing at 1.
      assert (H : Sql.has_row same_week weeks (new_week start first_out) = true).
      { unfold weeks, Sql.insert_if_missing.
        destruct (Sql.has_row same_week (sc_weeks conn) _) eqn:E; [exact E|].
        rewrite has_row_app. apply orb_true_iff. right.
        unfold Sql.has_row, same_week. simpl. now rewrite String.eqb_refl. }
      now rewrite H. }
    assert (Hs : fold_left (Sql.insert_if_missing same_shift) (week_shifts wid start) shifts
                 = shifts).
    { apply insert_missing_present. intros r Hr. unfold shifts.
      apply insert_missing_has; [|exact Hr].
      intros r' _. unfold same_shift. apply String.eqb_refl. }
    rewrite Hw, Hs. fold ids.
    rewrite steps_fixed; [reflexivity|].
    intros sid Hsid.
    apply (done_edit g t sid). unfold t. apply steps_done. left. exact Hsid. }
  cbv zeta. split; [|apply Key].
  pose proof (Key (fun r => mk_assignment (assigned_entity_type r) (assigned_person_id r)
                              (assigned_placeholder_id r) (health_status r) (note r)))
    as K. cbv zeta in K.
  assert (Eid : forall db,
             edit_assignments
               (fun r => mk_assignment (assigned_entity_type r) (assigned_person_id r)
                           (assigned_placeholder_id r) (health_status r) (note r)) db = db).
  { intros [w s c r]. unfold edit_assignments, with_seats. simpl. f_equal.
    rewrite <- (map_id r) at 2. apply map_ext. now intros []. }
  now rewrite Eid in K.
Qed.

End Idempotence.

(** ** The generated ids are pairwise different *)

Section StringFacts.

Local Open Scope string_scope.

Lemma append_assoc (a b c : string) : (a ++ b) ++ c = a ++ (b ++ c).
Proof. induction a as [|x a IH]; simpl; [reflexivity | now rewrite IH]. Qed.

Lemma append_inj_l (s a b : string) : s ++ a = s ++ b -> a = b.
Proof.
  induction s as [|x s IH]; simpl; intros H; [exact H|].
  injection H as H. now apply IH.
Qed.

Lemma length_append (a b : string) :
  String.length (a ++ b) = (String.length a + String.length b)%nat.
Proof. induction a as [|x a IH]; simpl; [reflexivity | now rewrite IH]. Qed.

(** Two texts with the same ending have the same beginning. *)
Lemma append_inj_r (s a b : string) : a ++ s = b ++ s -> a = b.
Proof.
  revert b. induction a as [|x a IH]; intros [|y b] H; simpl in H.
  - reflexivity.
  - apply (f_equal String.length) in H. simpl in H. rewrite length_append in H. lia.
  - apply (f_equal String.length) in H. simpl in H. rewrite length_append in H. lia.
  - injection H as -> H. f_equal. now apply IH.
Qed.

(** The last character of a text. *)
Fixpoint last_char (s : string) : option ascii :=
  match s with
  | EmptyString => None
  | String c EmptyString => Some c
  | String _ t => last_char t
  end.

Lemma last_char_append (a : string) (c : ascii) (t : string) :
  last_char (a ++ String c t) = last_char (String c t).
Proof.
  induction a as [|x a IH]; [reflexivity|].
  change (String x a ++ String c t) with (String x (a ++ String c t)).
  cbn [last_char]. rewrite IH.
  destruct (a ++ String c t) eqn:E; [|reflexivity].
  destruct a; discriminate.
Qed.

End StringFacts.

Section GeneratedIds.

Import EnsureWeeks.

Local Open Scope string_scope.

(** The seat role is read off the end of a seat record id, the unit off
    what is before it. *)
Lemma unit_seat_inj (u u' seat seat' : string) :
  In seat SEATS -> In seat' SEATS ->
  u ++ "__" ++ seat = u' ++ "__" ++ seat' -> u = u' /\ seat = seat'.
Proof.
  intros H H' E.
  assert (Hs : seat = seat').
  { apply (f_equal last_char) in E.
    simpl in H, H'.
    destruct H as [<-|[<-|[]]]; destruct H' as [<-|[<-|[]]];
      try reflexivity; exfalso;
      change ("__" ++ "ATTENDANT") with (String "_" "_ATTENDANT") in E;
      change ("__" ++ "DRIVER") with (String "_" "_DRIVER") in E;
      rewrite !last_char_append in E; discriminate. }
  subst seat'. split; [|reflexivity].
  now apply append_inj_r in E.
Qed.

(** Within a shift, the id tells layer, unit and role. *)
Lemma gen_seat_record_id_inj (sid u u' seat seat' layer layer' : string) :
  In layer (map fst LAYERS) -> In layer' (map fst LAYERS) ->
  In seat SEATS -> In seat' SEATS ->
  gen_seat_record_id sid u seat layer = gen_seat_record_id sid u' seat' layer' ->
  layer = layer' /\ u = u' /\ seat = seat'.
Proof.
  intros Hl Hl' Hs Hs' E. unfold gen_seat_record_id in E.
  apply append_inj_l in E.
  simpl in Hl, Hl'.
  destruct Hl as [<-|[<-|[]]]; destruct Hl' as [<-|[<-|[]]]; simpl in E;
    try discriminate; split; try reflexivity.
  - apply (unit_seat_inj u u' seat seat' Hs Hs').
    now apply (append_inj_l "__PRIMARY__").
  - apply (unit_seat_inj u u' seat seat' Hs Hs').
    now apply (append_inj_l "__SHADOW__").
Qed.

Lemma shift_ids_suffixes (wid : string) :
  shift_ids_for wid = map (fun sfx => wid ++ sfx) shift_suffixes.
Proof. reflexivity. Qed.

(** Across the shifts of a week, the id tells the shift. *)
Lemma gen_seat_record_id_shift (wid sid sid' : string) (rest rest' : string) :
  In sid (shift_ids_for wid) -> In sid' (shift_ids_for wid) ->
  sid ++ "__" ++ rest = sid' ++ "__" ++ rest' -> sid = sid'.
Proof.
  rewrite shift_ids_suffixes, !in_map_iff.
  intros (sfx & <- & H) (sfx' & <- & H') E.
  rewrite !append_assoc in E. apply append_inj_l in E.
  f_equal. unfold shift_suffixes in H, H'. simpl in H, H'.
  repeat match goal with
         | H : _ \/ _ |- _ => destruct H as [H|H]
         | H : False |- _ => destruct H
         end; subst sfx sfx'; try reflexivity; exfalso;
    vm_compute in E; discriminate.
Qed.

Lemma shift_ids_NoDup (wid : string) : NoDup (shift_ids_for wid).
Proof.
  rewrite shift_ids_suffixes.
  apply Finite.Injective_map_NoDup.
  - intros a b. apply append_inj_l.
  - unfold shift_suffixes.
    repeat (constructor; [simpl; intuition discriminate|]). constructor.
Qed.

End GeneratedIds.

(** ** Week generation on a database that has no row of the week *)

Lemma NoDup_keys_distinct {A : Type} (key : A -> string) (rows : list A) :
  NoDup (map key rows) ->
  ForallOrdPairs (fun a b => (key a =? key b)%string = false) rows.
Proof.
  induction rows as [|r rows IH]; simpl; intros H; [constructor|].
  inversion H as [|? ? Hn Hd]; subst. constructor; [|now apply IH].
  apply Forall_forall. intros x Hx. apply String.eqb_neq. intros E.
  apply Hn. rewrite E. now apply in_map.
Qed.

Lemma filter_none {A : Type} (p : A -> bool) (l : list A) :
  (forall x, In x l -> p x = false) -> filter p l = [].
Proof.
  induction l as [|a l IH]; simpl; intros H; [reflexivity|].
  rewrite (H a (or_introl eq_refl)). apply IH. intros x Hx. apply H. now right.
Qed.

Lemma filter_all {A : Type} (p : A -> bool) (l : list A) :
  (forall x, In x l -> p x = true) -> filter p l = l.
Proof.
  induction l as [|a l IH]; simpl; intros H; [reflexivity|].
  rewrite (H a (or_introl eq_refl)). f_equal. apply IH. intros x Hx. apply H. now right.
Qed.

Lemma find_app_none {A : Type} (p : A -> bool) (l l' : list A) :
  (forall x, In x l -> p x = false) -> find p (l ++ l') = find p l'.
Proof.
  induction l as [|a l IH]; simpl; intros H; [reflexivity|].
  rewrite (H a (or_introl eq_refl)). apply IH. intros x Hx. apply H. now right.
Qed.

Lemma or_else_same (x : string) : Py.or_else (Some x) x = x.
Proof. unfold Py.or_else, Py.truthy. now destruct (x =? "")%string. Qed.

Section FreshWeek.

Import EnsureWeeks.

Variable units : list string.
Variable first_out : string.
Hypothesis units_NoDup : NoDup units.

Lemma week_shift_ids (wid : string) (start : Cal.date) :
  map shift_id (week_shifts wid start) = shift_ids_for wid.
Proof. reflexivity. Qed.

Lemma week_shifts_week (wid : string) (start : Cal.date) (s : Shift) :
  In s (week_shifts wid start) -> s_week_id s = wid.
Proof.
  unfold week_shifts. rewrite in_flat_map. intros (di & _ & [<-|[<-|[]]]); reflexivity.
Qed.

(** A seat row of a shift: its layer, unit and role. *)
Lemma in_seat_rows (sid su : string) (r : SeatRecord) :
  In r (seat_rows units sid su) ->
  exists layer u seat,
    r = new_seat sid layer u seat /\ In layer (map fst LAYERS) /\ In seat SEATS.
Proof.
  unfold seat_rows. rewrite in_flat_map. intros (l & Hl & H).
  rewrite in_flat_map in H. destruct H as (u & _ & H).
  apply in_map_iff in H. destruct H as (seat & <- & Hs).
  exists (fst l), u, seat. repeat split; [now apply in_map | exact Hs].
Qed.

Lemma shadow_ids_NoDup (sid : string) (us : list string) :
  NoDup us ->
  NoDup (map seat_record_id
             (flat_map (fun u => map (new_seat sid "SHADOW" u) SEATS) us)).
Proof.
  induction us as [|u us IH]; intros H; simpl; [constructor|].
  inversion H as [|? ? Hn Hd]; subst.
  assert (Hfresh : forall seat, In seat SEATS ->
            ~ In (seat_record_id (new_seat sid "SHADOW" u seat))
                 (map seat_record_id
                      (flat_map (fun u => map (new_seat sid "SHADOW" u) SEATS) us))).
  { intros seat Hseat Hin. apply in_map_iff in Hin. destruct Hin as (r & E & Hr).
    apply in_flat_map in Hr. destruct Hr as (u' & Hu' & Hr).
    apply in_map_iff in Hr. destruct Hr as (seat' & <- & Hseat').
    simpl in E. injection E as E.
    apply gen_seat_record_id_inj in E; simpl; auto.
    destruct E as (_ & -> & _). contradiction. }
  constructor; [|constructor].
  - intros [E|Hin].
    + simpl in E. injection E as E.
      apply gen_seat_record_id_inj in E; simpl; auto.
      destruct E as (_ & _ & E). discriminate.
    + apply (Hfresh "ATTENDANT"); simpl; auto.
  - apply (Hfresh "DRIVER"); simpl; auto.
  - now apply IH.
Qed.

Lemma seat_rows_ids_NoDup (sid su : string) :
  NoDup (map seat_record_id (seat_rows units sid su)).
Proof.
  unfold seat_rows, LAYERS, units_for_layer. cbn [flat_map fst snd].
  rewrite !app_nil_r, map_app. cbn [map SEATS List.app].
  assert (Hp : forall seat, In seat SEATS ->
            ~ In (seat_record_id (new_seat sid "PRIMARY" su seat))
                 (map seat_record_id
                      (flat_map (fun u => map (new_seat sid "SHADOW" u) SEATS)
                                (filter (fun u => negb (u =? su)%string) units)))).
  { intros seat Hseat Hin. apply in_map_iff in Hin. destruct Hin as (r & E & Hr).
    apply in_flat_map in Hr. destruct Hr as (u' & Hu' & Hr).
    apply in_map_iff in Hr. destruct Hr as (seat' & <- & Hseat').
    simpl in E. injection E as E.
    apply gen_seat_record_id_inj in E; simpl; auto.
    destruct E as (E & _). discriminate. }
  constructor; [|constructor].
  - intros [E|Hin].
    + simpl in E. injection E as E.
      apply gen_seat_record_id_inj in E; simpl; auto.
      destruct E as (_ & _ & E). discriminate.
    + apply (Hp "ATTENDANT"); simpl; auto.
  - apply (Hp "DRIVER"); simpl; auto.
  - apply shadow_ids_NoDup. apply NoDup_filter. exact units_NoDup.
Qed.

Lemma seat_rows_distinct (sid su : string) :
  ForallOrdPairs (fun a b => same_seat a b = false) (seat_rows units sid su).
Proof.
  pose proof (seat_rows_ids_NoDup sid su) as H.
  pose proof (in_seat_rows sid su) as Hin.
  induction (seat_rows units sid su) as [|r rows IH]; [constructor|].
  simpl in H. inversion H as [|? ? Hn Hd]; subst.
  constructor.
  - apply Forall_forall. intros x Hx. unfold same_seat.
    destruct (Hin r (or_introl eq_refl)) as (l & u & s & -> & _).
    destruct (Hin x (or_intror Hx)) as (l' & u' & s' & -> & _).
    simpl. apply String.eqb_neq. intros E. apply Hn.
    change (Some (gen_seat_record_id sid u s l))
      with (seat_record_id (new_seat sid l u s)).
    change (In (seat_record_id (new_seat sid l u s))
               (map seat_record_id rows)).
    replace (seat_record_id (new_seat sid l u s))
      with (seat_record_id (new_seat sid l' u' s')) by (simpl; now rewrite E).
    now apply in_map.
  - apply IH; [exact Hd|]. intros x Hx. apply Hin. now right.
Qed.

Lemma steps_fresh (wid : string) (ids : list string) t :
  NoDup ids -> incl ids (shift_ids_for wid) ->
  (forall c, In c (fst t) -> ~ In (c_shift_id c) ids) ->
  (forall r sid u seat layer,
      In r (snd t) -> In sid ids ->
      seat_record_id r <> Some (gen_seat_record_id sid u seat layer)) ->
  fold_left (cfg_seats_step units first_out) ids t
  = (fst t ++ map (new_cfg first_out) ids,
     snd t ++ flat_map (fun sid => seat_rows units sid first_out) ids).
Proof.
  revert t. induction ids as [|sid ids IH]; intros t Hnd Hincl Hc Hs.
  - simpl. rewrite !app_nil_r. now destruct t.
  - inversion Hnd as [|? ? Hn Hd]; subst.
    assert (Hsid : In sid (shift_ids_for wid)) by (apply Hincl; now left).
    assert (Ec : Sql.insert_if_missing same_cfg (fst t) (new_cfg first_out sid)
                 = fst t ++ [new_cfg first_out sid]).
    { unfold Sql.insert_if_missing.
      replace (Sql.has_row same_cfg (fst t) (new_cfg first_out sid)) with false;
        [reflexivity|].
      symmetry. apply has_row_false. intros c Hin. unfold same_cfg. simpl.
      apply String.eqb_neq. intros E. apply (Hc c Hin). left. now symmetry. }
    assert (Eu : staffed_of (fst t ++ [new_cfg first_out sid]) sid first_out = first_out).
    { unfold staffed_of. rewrite find_app_none.
      - simpl. rewrite String.eqb_refl. apply or_else_same.
      - intros c Hin.
        apply String.eqb_neq. intros E. apply (Hc c Hin). left. now symmetry. }
    assert (Er : fold_left (Sql.insert_if_missing same_seat)
                           (seat_rows units sid first_out) (snd t)
                 = snd t ++ seat_rows units sid first_out).
    { apply insert_missing_fresh; [|apply seat_rows_distinct].
      intros r Hr. apply has_row_false. intros x Hx.
      destruct (in_seat_rows sid first_out r Hr) as (l & u & s & -> & _).
      unfold same_seat. simpl.
      destruct (seat_record_id x) as [i|] eqn:Ei; [|reflexivity].
      apply String.eqb_neq. intros ->.
      apply (Hs x sid u s l Hx (or_introl eq_refl)). exact Ei. }
    cbn [fold_left]. unfold cfg_seats_step at 2. cbv zeta. rewrite Ec, Eu, Er.
    rewrite IH.
    + cbn [fst snd map flat_map]. now rewrite <- !app_assoc.
    + exact Hd.
    + intros x Hx. apply Hincl. now right.
    + cbn [fst]. intros c Hin Hid. apply in_app_or in Hin. destruct Hin as [Hin|[<-|[]]].
      * apply (Hc c Hin). now right.
      * simpl in Hid. contradiction.
    + cbn [snd]. intros r sid' u s l Hin Hsid' E.
      apply in_app_or in Hin. destruct Hin as [Hin|Hin].
      * apply (Hs r sid' u s l Hin); [now right | exact E].
      * destruct (in_seat_rows sid first_out r Hin) as (l0 & u0 & s0 & -> & _).
        simpl in E. injection E as E. unfold gen_seat_record_id in E.
        apply (gen_seat_record_id_shift wid) in E;
          [|exact Hsid | apply Hincl; now right].
        subst sid'. contradiction.
Qed.

(** On a database without any row of the week, [ensure_week] appends the
    week, its fourteen shifts, a configuration row per shift and the seat
    rows of every shift, in this order. *)
Lemma ensure_week_fresh (conn : DB) (start : Cal.date) :
  fresh_week conn start ->
  let wid := week_id_for start in
  ensure_week units conn start first_out
  = mk_db (sc_weeks conn ++ [new_week start first_out])
          (sc_shifts conn ++ week_shifts wid start)
          (sc_shift_config conn ++ map (new_cfg first_out) (shift_ids_for wid))
          (sc_seat_records conn
           ++ flat_map (fun sid => seat_rows units sid first_out) (shift_ids_for wid)).
Proof.
  intros (Hw & Hs & Hc & Hr) wid. fold wid in Hw, Hs, Hc, Hr.
  rewrite ensure_week_tables. cbv zeta. fold wid.
  assert (Ew : Sql.insert_if_missing same_week (sc_weeks conn) (new_week start first_out)
               = sc_weeks conn ++ [new_week start first_out]).
  { unfold Sql.insert_if_missing.
    replace (Sql.has_row same_week (sc_weeks conn) (new_week start first_out)) with false;
      [reflexivity|].
    symmetry. apply has_row_false. intros w Hin. unfold same_week.
    apply String.eqb_neq. now apply Hw. }
  assert (Es : fold_left (Sql.insert_if_missing same_shift) (week_shifts wid start)
                         (sc_shifts conn)
               = sc_shifts conn ++ week_shifts wid start).
  { apply insert_missing_fresh.
    - intros r Hin. apply has_row_false. intros x Hx. unfold same_shift.
      apply String.eqb_neq. intros E. apply (proj2 (Hs x Hx)).
      rewrite E, <- (week_shift_ids wid start). now apply in_map.
    - apply (NoDup_keys_distinct shift_id). rewrite week_shift_ids.
      apply shift_ids_NoDup. }
  rewrite Ew, Es, filter_app, map_app.
  rewrite (filter_none _ (sc_shifts conn)), (filter_all _ (week_shifts wid start)).
  - cbn [map List.app]. rewrite week_shift_ids.
    rewrite (steps_fresh wid); cbn [fst snd].
    + reflexivity.
    + apply shift_ids_NoDup.
    + apply incl_refl.
    + exact Hc.
    + intros r sid u seat layer Hin Hsid. now apply Hr.
  - intros x Hx. apply String.eqb_eq. now apply week_shifts_week with (start := start).
  - intros x Hx. apply String.eqb_neq. apply (proj1 (Hs x Hx)).
Qed.

End FreshWeek.

(** ** What a generated week consists of *)

Lemma map_flat_map {A B C : Type} (f : B -> C) (g : A -> list B) (l : list A) :
  map f (flat_map g l) = flat_map (fun x => map f (g x)) l.
Proof.
  induction l as [|a l IH]; simpl; [reflexivity|]. now rewrite map_app, IH.
Qed.

Lemma flat_map_map {A B C : Type} (g : B -> list C) (h : A -> B) (l : list A) :
  flat_map g (map h l) = flat_map (fun x => g (h x)) l.
Proof.
  induction l as [|a l IH]; simpl; [reflexivity|]. now rewrite IH.
Qed.

Lemma length_flat_map_const {A B : Type} (g : A -> list B) (k : nat) (l : list A) :
  (forall x, List.length (g x) = k) ->
  List.length (flat_map g l) = (k * List.length l)%nat.
Proof.
  intros H. induction l as [|a l IH]; simpl; [lia|].
  rewrite length_app, H, IH. lia.
Qed.

Lemma length_filter_other (x : string) (l : list string) :
  NoDup l -> In x l ->
  S (List.length (filter (fun u => negb (u =? x)%string) l)) = List.length l.
Proof.
  induction l as [|a l IH]; intros Hnd Hin; [destruct Hin|].
  inversion Hnd as [|? ? Hn Hd]; subst. simpl.
  destruct (String.eqb_spec a x) as [->|N]; simpl.
  - f_equal. rewrite filter_all; [reflexivity|].
    intros u Hu. apply negb_true_iff, String.eqb_neq. intros ->. contradiction.
  - f_equal. apply IH; [exact Hd|]. destruct Hin as [E|Hin]; [contradiction | exact Hin].
Qed.

Lemma seats_primary_first_length (aet first_out sid : string) (units : list string) :
  NoDup units -> In first_out units ->
  List.length (Spec.seats_primary_first aet first_out units sid)
  = (2 * List.length units)%nat.
Proof.
  intros Hnd Hin. unfold Spec.seats_primary_first.
  rewrite length_app, (length_flat_map_const _ 2) by reflexivity.
  rewrite <- (length_filter_other first_out units Hnd Hin). simpl. lia.
Qed.

Lemma seats_by_unit_length (aet first_out sid : string) (units : list string) :
  List.length (Spec.seats_by_unit aet first_out units sid) = (2 * List.length units)%nat.
Proof.
  unfold Spec.seats_by_unit. now rewrite (length_flat_map_const _ 2) by reflexivity.
Qed.

Lemma strip_seat_rows (units : list string) (sid first_out : string) :
  map Spec.strip_id (EnsureWeeks.seat_rows units sid first_out)
  = Spec.seats_primary_first "NONE" first_out units sid.
Proof.
  unfold EnsureWeeks.seat_rows, Spec.seats_primary_first, EnsureWeeks.LAYERS,
    EnsureWeeks.units_for_layer.
  cbn [flat_map fst snd]. rewrite !app_nil_r, map_app. f_equal.
  rewrite map_flat_map. apply flat_map_ext. intros u. reflexivity.
Qed.

(** On a database without any row of the week, [ensure_week] generates the
    week of the specification, with the unassigned entity type written
    NONE. *)
Lemma ensure_week_generated (units : list string) (conn : DB) (start : Cal.date)
    (first_out : string) :
  NoDup units -> In first_out units -> EnsureWeeks.fresh_week conn start ->
  Spec.week_generated start first_out
    (Spec.seats_primary_first "NONE" first_out units) (List.length units)
    conn (EnsureWeeks.ensure_week units conn start first_out).
Proof.
  intros Hnd Hin Hfresh.
  rewrite (ensure_week_fresh units first_out Hnd conn start Hfresh). cbv zeta.
  set (wid := EnsureWeeks.week_id_for start).
  exists (EnsureWeeks.new_week start first_out), (EnsureWeeks.week_shifts wid start),
    (flat_map (fun sid => EnsureWeeks.seat_rows units sid first_out)
              (EnsureWeeks.shift_ids_for wid)).
  cbn [sc_weeks sc_shifts sc_shift_config sc_seat_records].
  repeat apply conj; try reflexivity.
  - intros s Hs. apply (week_shifts_week wid start s Hs).
  - rewrite map_flat_map, <- (week_shift_ids wid start), flat_map_map.
    apply flat_map_ext. intros s. apply strip_seat_rows.
  - intros sid. now apply seats_primary_first_length.
Qed.

Section CreateWeekRows.

Import CreateWeek.

Variable uuid4 : nat -> string.
Variable first_out : string.

Lemma insert_unit_seats_rows (sid : string) (us : list string) (conn : Conn) :
  exists R,
    fold_left (insert_unit_seats uuid4 sid first_out) us conn
    = mk_conn (with_seats (tables conn) (sc_seat_records (tables conn) ++ R))
              (units conn) (uuids_used conn + 2 * List.length us)
    /\ map Spec.strip_id R = Spec.seats_by_unit "UNASSIGNED" first_out us sid.
Proof.
  revert conn. induction us as [|u us IH]; intros conn.
  - exists []. simpl. rewrite app_nil_r, Nat.add_0_r.
    destruct conn as [[w s c r] un n]. split; reflexivity.
  - cbn [fold_left].
    destruct (IH (insert_unit_seats uuid4 sid first_out conn u)) as (R & E & HR).
    rewrite E. unfold insert_unit_seats. cbn [fold_left]. unfold insert_seat.
    cbv beta iota delta [tables units uuids_used sc_weeks sc_shifts sc_shift_config
                         sc_seat_records with_seats].
    eexists. split.
    + rewrite <- !app_assoc. cbn [List.app]. f_equal. cbn [List.length]. lia.
    + cbn [map List.app]. rewrite HR. reflexivity.
Qed.

Lemma insert_shift_rows (week_id : string) (conn : Conn)
    (sh : string * Cal.datetime * Cal.datetime * Z) :
  exists s R,
    tables (insert_shift uuid4 week_id first_out conn sh)
    = mk_db (sc_weeks (tables conn))
            (sc_shifts (tables conn) ++ [s])
            (sc_shift_config (tables conn)
             ++ [mk_cfg (shift_id s) None (Some first_out) 0 1])
            (sc_seat_records (tables conn) ++ R)
    /\ units (insert_shift uuid4 week_id first_out conn sh) = units conn
    /\ Spec.shift_time s
       = (snd sh, fst (fst (fst sh)),
          Cal.strftime (snd (fst (fst sh))), Cal.strftime (snd (fst sh)))
    /\ s_week_id s = week_id
    /\ map Spec.strip_id R
       = Spec.seats_by_unit "UNASSIGNED" first_out (units_list conn) (shift_id s).
Proof.
  destruct sh as [[[sl s_start] s_end] di].
  unfold insert_shift. cbv zeta.
  match goal with
  | |- context [fold_left (insert_unit_seats uuid4 ?sid first_out) ?us ?c] =>
      destruct (insert_unit_seats_rows sid us c) as (R & E & HR)
  end.
  eexists (mk_shift (uuid4 (uuids_used conn)) week_id (Cal.strftime s_start)
                    (Cal.strftime s_end) _ di sl).
  exists R. rewrite E.
  cbv beta iota delta [tables units uuids_used sc_weeks sc_shifts sc_shift_config
                       sc_seat_records with_seats with_cfg with_shifts].
  repeat apply conj; try reflexivity.
  exact HR.
Qed.

Lemma insert_shifts_rows (week_id : string)
    (shs : list (string * Cal.datetime * Cal.datetime * Z)) (conn : Conn) :
  exists S R,
    tables (fold_left (insert_shift uuid4 week_id first_out) shs conn)
    = mk_db (sc_weeks (tables conn))
            (sc_shifts (tables conn) ++ S)
            (sc_shift_config (tables conn)
             ++ map (fun s => mk_cfg (shift_id s) None (Some first_out) 0 1) S)
            (sc_seat_records (tables conn) ++ R)
    /\ map Spec.shift_time S
       = map (fun sh : string * Cal.datetime * Cal.datetime * Z =>
                (snd sh, fst (fst (fst sh)),
                 Cal.strftime (snd (fst (fst sh))), Cal.strftime (snd (fst sh))))
             shs
    /\ (forall s, In s S -> s_week_id s = week_id)
    /\ map Spec.strip_id R
       = flat_map (fun s => Spec.seats_by_unit "UNASSIGNED" first_out
                              (units_list conn) (shift_id s)) S.
Proof.
  revert conn. induction shs as [|sh shs IH]; intros conn.
  - exists [], []. simpl. rewrite !app_nil_r. destruct conn as [[w s c r] un n].
    repeat apply conj; try reflexivity. intros s0 [].
  - cbn [fold_left].
    destruct (insert_shift_rows week_id conn sh) as (s & R & E & Eu & Et & Ew & HR).
    destruct (IH (insert_shift uuid4 week_id first_out conn sh))
      as (S & R' & E' & Et' & Ew' & HR').
    exists (s :: S), (R ++ R').
    rewrite E', E.
    cbn [sc_weeks sc_shifts sc_shift_config sc_seat_records].
    repeat apply conj.
    + rewrite <- !app_assoc. reflexivity.
    + cbn [map]. now rewrite Et, Et'.
    + intros s0 [<-|H0]; [exact Ew | now apply Ew'].
    + rewrite map_app, HR, HR'. cbn [flat_map]. f_equal.
      unfold units_list. now rewrite Eu.
Qed.

(** [create_week] on a database without the week's id generates the week of
    the specification for the units of [units_list], with the unassigned
    entity type left to the schema default UNASSIGNED; the lock date is
    [lock_rule_days] before the start. *)
Lemma create_week_generated (conn : Conn) (start : Cal.date) (lock_rule_days : Z) :
  existsb (fun w => week_id w
                    =? "WEEK_" ++ Cal.isoformat start ++ "_to_"
                       ++ Cal.isoformat (start + 6))%string
          (sc_weeks (tables conn)) = false ->
  exists conn' wid wk,
    create_week uuid4 conn start first_out lock_rule_days = Some (conn', wid)
    /\ Spec.week_generated start first_out
         (Spec.seats_by_unit "UNASSIGNED" first_out (units_list conn))
         (List.length (units_list conn)) (tables conn) (tables conn')
    /\ sc_weeks (tables conn') = sc_weeks (tables conn) ++ [wk]
    /\ lock_dt wk = Cal.strftime (Cal.combine (start - lock_rule_days) Cal.midnight).
Proof.
  intros Hfresh. unfold create_week. cbv zeta. rewrite Hfresh.
  match goal with
  | |- context [fold_left (insert_shift uuid4 ?w first_out) ?shs ?c] =>
      destruct (insert_shifts_rows w shs c) as (S & R & E & Et & Ew & HR);
      set (conn' := fold_left (insert_shift uuid4 w first_out) shs c) in *
  end.
  unfold with_weeks in E.
  cbn [tables units uuids_used sc_weeks sc_shifts sc_shift_config sc_seat_records] in E.
  eexists conn', _, _. split; [reflexivity|].
  split; [|split].
  - eexists _, S, R. rewrite E.
    cbn [sc_weeks sc_shifts sc_shift_config sc_seat_records start_date end_date
         first_out_default_unit_id week_id].
    repeat apply conj; try reflexivity.
    + apply (f_equal (@List.length _)) in Et. rewrite !length_map in Et. exact Et.
    + rewrite Et. reflexivity.
    + exact Ew.
    + exact HR.
    + intros sid. apply seats_by_unit_length.
  - rewrite E. reflexivity.
  - reflexivity.
Qed.

End CreateWeekRows.

Lemma flat_map_ext_In {A B : Type} (f g : A -> list B) (l : list A) :
  (forall x, In x l -> f x = g x) -> flat_map f l = flat_map g l.
Proof.
  induction l as [|a l IH]; simpl; intros H; [reflexivity|].
  rewrite (H a (or_introl eq_refl)), IH; [reflexivity|].
  intros x Hx. apply H. now right.
Qed.

(** With a valid first-out unit both generators make the same seats for a
    shift, in a different order. *)
Lemma seats_by_unit_primary_first (aet first_out sid : string) (units : list string) :
  NoDup units -> In first_out units ->
  Permutation (Spec.seats_by_unit aet first_out units sid)
              (Spec.seats_primary_first aet first_out units sid).
Proof.
  unfold Spec.seats_by_unit, Spec.seats_primary_first.
  induction units as [|u us IH]; intros Hnd Hin; [destruct Hin|].
  inversion Hnd as [|? ? Hn Hd]; subst. cbn [flat_map filter].
  unfold Spec.layer_of at 1.
  destruct (String.eqb_spec u first_out) as [->|N]; cbn [negb].
  - apply Permutation_app_head.
    rewrite filter_all.
    + apply Permutation_refl'. apply flat_map_ext_In. intros u Hu.
      unfold Spec.layer_of. destruct (String.eqb_spec u first_out) as [->|_];
        [contradiction | reflexivity].
    + intros x Hx. apply negb_true_iff, String.eqb_neq. intros ->. contradiction.
  - destruct Hin as [E|Hin]; [contradiction|].
    cbn [flat_map]. rewrite (IH Hd Hin).
    rewrite !app_assoc. apply Permutation_app_tail. apply Permutation_app_comm.
Qed.

(** C1 (as amended). For every valid start date, list of distinct rotation
    units and first-out unit among them, on a database with no row of the
    week, week generation adds exactly one week row, whose end date is the
    start date plus 6 days; exactly 14 shift rows, for each of the 7 days a
    DAY shift 06:00-18:00 and a NIGHT shift 18:00 to 06:00 of the next day;
    one configuration row per shift with the first-out unit staffed, no
    override, salary_only 0 and active 1; and 2 x |units| seat records per
    shift, PRIMARY ATTENDANT and DRIVER seats for the first-out unit and
    SHADOW ones for every other unit, all UNFILLED, without person,
    placeholder or note.  The unassigned entity type is written NONE by
    [ensure_week]; [create_week] leaves it to its schema default,
    UNASSIGNED.  (Python raises OverflowError on a start date that is not
    valid; the units [create_week] uses are those of [units_list].) *)
Theorem week_generation :
  (forall units conn start first_out,
      Cal.valid_start start -> NoDup units -> In first_out units ->
      EnsureWeeks.fresh_week conn start ->
      Spec.week_generated start first_out
        (Spec.seats_primary_first "NONE" first_out units) (List.length units)
        conn (EnsureWeeks.ensure_week units conn start first_out))
  /\ (forall uuid4 conn start first_out lock_rule_days,
      Cal.valid_start start ->
      existsb (fun w => week_id w
                        =? "WEEK_" ++ Cal.isoformat start ++ "_to_"
                           ++ Cal.isoformat (start + 6))%string
              (sc_weeks (CreateWeek.tables conn)) = false ->
      exists conn' wid,
        CreateWeek.create_week uuid4 conn start first_out lock_rule_days
        = Some (conn', wid)
        /\ Spec.week_generated start first_out
             (Spec.seats_by_unit "UNASSIGNED" first_out (CreateWeek.units_list conn))
             (List.length (CreateWeek.units_list conn))
             (CreateWeek.tables conn) (CreateWeek.tables conn'))
  /\ (forall aet first_out sid units,
      NoDup units -> In first_out units ->
      Permutation (Spec.seats_by_unit aet first_out units sid)
                  (Spec.seats_primary_first aet first_out units sid)).
Proof.
  split; [|split].
  - intros units conn start first_out _ Hnd Hin Hfresh.
    now apply ensure_week_generated.
  - intros uuid4 conn start first_out days _ Hfresh.
    destruct (create_week_generated uuid4 first_out conn start days Hfresh)
      as (conn' & wid & wk & E & G & _).
    exists conn', wid. split; assumption.
  - intros. now apply seats_by_unit_primary_first.
Qed.

(** C1 at Thursday 2025-12-04, units AMB120, AMB121, AMB131, first out
    AMB121, on an empty database. *)
Lemma week_generation_witness :
  Spec.week_generated Examples.thu_2025_12_04 "AMB121"
    (Spec.seats_primary_first "NONE" "AMB121" EnsureWeeks.UNITS) 3
    empty_db
    (EnsureWeeks.ensure_week EnsureWeeks.UNITS empty_db Examples.thu_2025_12_04 "AMB121")
  /\ exists conn' wid,
       CreateWeek.create_week Examples.uuid Examples.fresh_conn
                              Examples.thu_2025_12_04 "AMB121" 29
       = Some (conn', wid)
       /\ Spec.week_generated Examples.thu_2025_12_04 "AMB121"
            (Spec.seats_by_unit "UNASSIGNED" "AMB121"
                                (CreateWeek.units_list Examples.fresh_conn))
            (List.length (CreateWeek.units_list Examples.fresh_conn))
            (CreateWeek.tables Examples.fresh_conn) (CreateWeek.tables conn').
Proof.
  assert (Hv : Cal.valid_start Examples.thu_2025_12_04).
  { unfold Cal.valid_start. change Examples.thu_2025_12_04 with 739589.
    unfold Cal.MINORDINAL, Cal.MAXORDINAL. lia. }
  destruct week_generation as (H1 & H2 & _).
  split.
  - apply (H1 EnsureWeeks.UNITS empty_db Examples.thu_2025_12_04 "AMB121" Hv).
    + unfold EnsureWeeks.UNITS.
      repeat (constructor; [simpl; intuition discriminate|]). constructor.
    + simpl. tauto.
    + unfold EnsureWeeks.fresh_week. simpl. repeat split; intros; contradiction.
  - apply (H2 Examples.uuid Examples.fresh_conn Examples.thu_2025_12_04 "AMB121" 29 Hv).
    reflexivity.
Defined.

(** C1 as stated fails on [create_week]: the 84 seat records it creates for
    the week of 2025-12-04 all have the entity type UNASSIGNED, none NONE. *)
Lemma week_generation_counterexample :
  match CreateWeek.create_week Examples.uuid Examples.fresh_conn
                               Examples.thu_2025_12_04 "AMB121" 29 with
  | Some (conn', _) =>
      let seats := sc_seat_records (CreateWeek.tables conn') in
      (List.length seats =? 84)%nat
      && forallb (fun r => Sql.eq_null (assigned_entity_type r) (Some "UNASSIGNED")) seats
      && negb (existsb (fun r => Sql.eq_null (assigned_entity_type r) (Some "NONE")) seats)
  | None => false
  end = true.
Proof. vm_compute. reflexivity. Qed.

(** The timestamp of a date at 00:00. *)
Lemma strftime_midnight (d : Cal.date) :
  Cal.strftime (Cal.combine d Cal.midnight) = (Cal.isoformat d ++ " 00:00:00")%string.
Proof. reflexivity. Qed.

(** C10 (as amended). The lock timestamp of a generated week is the start
    date minus the lead time, at 00:00:00, for the dates on which the date
    arithmetic of the scripts stays within [date.min] and [date.max].  The
    lead time is 28 days in [ensure_week] and in the history importer, whose
    week starts on the Thursday on or before the date it is given; in
    [create_week] it is the parameter [lock_rule_days], whose default, the one
    [main] uses, is 29 days. *)
Theorem lock_dt_lead_time :
  (forall units conn start first_out,
      Cal.valid_start start ->
      existsb (fun w => week_id w =? EnsureWeeks.week_id_for start)%string
              (sc_weeks conn) = false ->
      exists wk,
        sc_weeks (EnsureWeeks.ensure_week units conn start first_out)
        = sc_weeks conn ++ [wk]
        /\ start_date wk = Cal.isoformat start
        /\ lock_dt wk = (Cal.isoformat (start - 28) ++ " 00:00:00")%string)
  /\ (forall conn d,
      Importer.valid_date d ->
      existsb (fun w => week_id w =? ImportHistory.week_id_for d)%string
              (sc_weeks conn) = false ->
      exists wk,
        sc_weeks (ImportHistory.ensure_week conn d) = sc_weeks conn ++ [wk]
        /\ start_date wk = Cal.isoformat (ImportHistory.week_start_thu d)
        /\ lock_dt wk
           = (Cal.isoformat (ImportHistory.week_start_thu d - 28) ++ " 00:00:00")%string)
  /\ (forall uuid4 conn start first_out lock_rule_days conn' wid,
      Cal.valid_start start ->
      Cal.MINORDINAL <= start - lock_rule_days <= Cal.MAXORDINAL ->
      CreateWeek.create_week uuid4 conn start first_out lock_rule_days
      = Some (conn', wid) ->
      exists wk,
        sc_weeks (CreateWeek.tables conn') = sc_weeks (CreateWeek.tables conn) ++ [wk]
        /\ start_date wk = Cal.isoformat start
        /\ lock_dt wk
           = (Cal.isoformat (start - lock_rule_days) ++ " 00:00:00")%string)
  /\ CreateWeek.lock_rule_days_default = 29
  /\ (forall uuid4 conn start first_out conn',
      Cal.valid_start start ->
      CreateWeek.main uuid4 conn start first_out = Some conn' ->
      exists wk,
        sc_weeks (CreateWeek.tables conn') = sc_weeks (CreateWeek.tables conn) ++ [wk]
        /\ start_date wk = Cal.isoformat start
        /\ lock_dt wk = (Cal.isoformat (start - 29) ++ " 00:00:00")%string).
Proof.
  assert (Hcreate : forall uuid4 conn start first_out lock_rule_days conn' wid,
      CreateWeek.create_week uuid4 conn start first_out lock_rule_days
      = Some (conn', wid) ->
      exists wk,
        sc_weeks (CreateWeek.tables conn') = sc_weeks (CreateWeek.tables conn) ++ [wk]
        /\ start_date wk = Cal.isoformat start
        /\ lock_dt wk
           = (Cal.isoformat (start - lock_rule_days) ++ " 00:00:00")%string).
  { intros uuid4 conn start first_out days conn' wid E.
    destruct (existsb (fun w => week_id w
                          =? "WEEK_" ++ Cal.isoformat start ++ "_to_"
                             ++ Cal.isoformat (start + 6))%string
                      (sc_weeks (CreateWeek.tables conn))) eqn:Hex.
    - unfold CreateWeek.create_week in E. cbv zeta in E. rewrite Hex in E. discriminate.
    - destruct (create_week_generated uuid4 first_out conn start days Hex)
        as (c & w & wk & E' & G & Ew & El).
      rewrite E in E'. injection E' as <- <-. exists wk.
      split; [exact Ew|]. split; [|now rewrite El, strftime_midnight].
      destruct G as (wk' & S & R & Ew' & Hs & _).
      rewrite Ew in Ew'. apply app_inj_tail in Ew'. destruct Ew' as (_ & <-).
      exact Hs. }
  repeat apply conj.
  - intros units conn start first_out _ Hex.
    exists (EnsureWeeks.new_week start first_out).
    split; [|split; reflexivity].
    rewrite ensure_week_tables. cbv zeta. cbn [sc_weeks].
    unfold Sql.insert_if_missing, Sql.has_row, EnsureWeeks.same_week.
    change (week_id (EnsureWeeks.new_week start first_out))
      with (EnsureWeeks.week_id_for start).
    now rewrite Hex.
  - intros conn d _ Hex. unfold ImportHistory.ensure_week. cbv zeta. rewrite Hex.
    eexists. split; [reflexivity|]. split; reflexivity.
  - intros uuid4 conn start first_out days conn' wid _ _ E.
    apply (Hcreate _ _ _ _ _ _ _ E).
  - reflexivity.
  - intros uuid4 conn start first_out conn' _ E. unfold CreateWeek.main in E.
    destruct (CreateWeek.ensure_week_not_exists conn (Cal.isoformat start));
      [|discriminate].
    destruct (CreateWeek.create_week uuid4 conn start first_out
                                     CreateWeek.lock_rule_days_default)
      as [[c w]|] eqn:Ec; [|discriminate].
    injection E as <-. apply (Hcreate _ _ _ _ _ _ _ Ec).
Qed.

(** C10 at Thursday 2025-12-04 on empty databases: the week of the
    generator and the week of the importer for Saturday 2025-12-06 lock on
    2025-11-06, the week of [create_week]'s [main] on 2025-11-05. *)
Lemma lock_dt_lead_time_witness :
  (exists wk,
      sc_weeks (EnsureWeeks.ensure_week EnsureWeeks.UNITS empty_db
                  Examples.thu_2025_12_04 "AMB121") = [wk]
      /\ lock_dt wk = "2025-11-06 00:00:00"%string)
  /\ (exists wk,
      sc_weeks (ImportHistory.ensure_week empty_db (Examples.thu_2025_12_04 + 2)) = [wk]
      /\ start_date wk = "2025-12-04"%string
      /\ lock_dt wk = "2025-11-06 00:00:00"%string)
  /\ (exists conn' wk,
      CreateWeek.main Examples.uuid Examples.fresh_conn Examples.thu_2025_12_04 "AMB121"
      = Some conn'
      /\ sc_weeks (CreateWeek.tables conn') = [wk]
      /\ lock_dt wk = "2025-11-05 00:00:00"%string).
Proof.
  assert (Hv : Cal.valid_start Examples.thu_2025_12_04)
    by (vm_compute; split; discriminate).
  assert (Hd : Importer.valid_date (Examples.thu_2025_12_04 + 2))
    by (vm_compute; split; discriminate).
  destruct lock_dt_lead_time as (H1 & H2 & _ & _ & H5).
  split; [|split].
  - destruct (H1 EnsureWeeks.UNITS empty_db Examples.thu_2025_12_04 "AMB121" Hv eq_refl)
      as (wk & E & _ & El).
    exists wk. split; [exact E|]. rewrite El. reflexivity.
  - destruct (H2 empty_db (Examples.thu_2025_12_04 + 2) Hd eq_refl)
      as (wk & E & Es & El).
    exists wk. split; [exact E|]. split; [rewrite Es | rewrite El]; reflexivity.
  - destruct (CreateWeek.main Examples.uuid Examples.fresh_conn
                              Examples.thu_2025_12_04 "AMB121") as [c|] eqn:E.
    + destruct (H5 Examples.uuid Examples.fresh_conn Examples.thu_2025_12_04 "AMB121"
                   c Hv E) as (wk & Ew & _ & El).
      exists c, wk. split; [reflexivity|]. split; [exact Ew|]. rewrite El. reflexivity.
    + vm_compute in E. discriminate.
Defined.

(** C10 as stated fails on [create_week]: with the default lead time the
    week of 2025-12-04 locks on 2025-11-05, 29 days before its start, and not
    on 2025-11-06, 28 days before. *)
Lemma lock_dt_lead_time_counterexample :
  option_map (fun c => map lock_dt (sc_weeks (CreateWeek.tables c)))
             (CreateWeek.main Examples.uuid Examples.fresh_conn
                              Examples.thu_2025_12_04 "AMB121")
  = Some ["2025-11-05 00:00:00"%string]
  /\ Cal.strftime (Cal.combine (Examples.thu_2025_12_04 - 28) Cal.midnight)
     = "2025-11-06 00:00:00"%string
  /\ Cal.strftime (Cal.combine (Examples.thu_2025_12_04 - 29) Cal.midnight)
     = "2025-11-05 00:00:00"%string.
Proof. vm_compute. repeat split. Qed.

(** ** Seat reconciliation: the score and the winner *)

Section Winner.

Import DedupeHard.

Local Open Scope Z_scope.

Lemma score_spec (r : SeatRecord) : score r = Spec.score r.
Proof.
  unfold score, Spec.score, Spec.b2z, TAG.
  destruct (Py.contains _ _), (Py.upper (Py.or_empty (health_status r)) =? "FILLED")%string,
    (Py.in_tuple _ _), (Py.truthy (assigned_person_id r)),
    (Py.truthy (assigned_placeholder_id r)); reflexivity.
Qed.

Lemma score_split (r : SeatRecord) :
  Spec.score r
  = Spec.base_score r + 3 * Spec.b2z (Py.truthy (assigned_person_id r))
    + 2 * Spec.b2z (Py.truthy (assigned_placeholder_id r)).
Proof. unfold Spec.score, Spec.base_score. lia. Qed.

(** A tagged row outscores every untagged one. *)
Lemma score_tag (r : SeatRecord) :
  (tagged r = true -> 1000 <= score r) /\ (tagged r = false -> score r <= 115).
Proof.
  rewrite score_spec. unfold Spec.score, Spec.b2z, tagged, TAG.
  destruct (Py.contains _ _), (Py.upper (Py.or_empty (health_status r)) =? "FILLED")%string,
    (Py.in_tuple _ _), (Py.truthy (assigned_person_id r)),
    (Py.truthy (assigned_placeholder_id r)); split; intros; try discriminate; lia.
Qed.

Lemma insert_desc_perm (r : SeatRecord) (l : list SeatRecord) :
  Permutation (insert_desc r l) (r :: l).
Proof.
  induction l as [|x l IH]; simpl; [apply Permutation_refl|].
  destruct (score x <=? score r); [apply Permutation_refl|].
  rewrite IH. apply perm_swap.
Qed.

Lemma sorted_desc_perm (rows : list SeatRecord) : Permutation (sorted_desc rows) rows.
Proof.
  induction rows as [|r rows IH]; simpl; [constructor|].
  rewrite insert_desc_perm. now constructor.
Qed.

(** The head of the stable descending sort is the first row of the highest
    score. *)
Lemma insert_desc_head (r : SeatRecord) (l : list SeatRecord) :
  hd_error (insert_desc r l)
  = match hd_error l with
    | Some b => if score r <? score b then Some b else Some r
    | None => Some r
    end.
Proof.
  destruct l as [|x l]; simpl; [reflexivity|].
  destruct (Z.leb_spec (score x) (score r)), (Z.ltb_spec (score r) (score x));
    try reflexivity; lia.
Qed.

Lemma sorted_desc_head (rows : list SeatRecord) :
  hd_error (sorted_desc rows) = Spec.first_best rows.
Proof.
  induction rows as [|r rows IH]; simpl; [reflexivity|].
  rewrite insert_desc_head, IH.
  destruct (Spec.first_best rows); [|reflexivity].
  now rewrite <- !score_spec.
Qed.

(** What "first row of the highest score" means. *)
Lemma first_best_spec (rows : list SeatRecord) (w : SeatRecord) :
  Spec.first_best rows = Some w ->
  exists pre post,
    rows = pre ++ w :: post
    /\ (forall x, In x pre -> Spec.score x < Spec.score w)
    /\ (forall x, In x post -> Spec.score x <= Spec.score w).
Proof.
  revert w. induction rows as [|r rows IH]; intros w H; simpl in H; [discriminate|].
  destruct (Spec.first_best rows) as [b|] eqn:Eb.
  - destruct (IH b eq_refl) as (pre & post & -> & Hpre & Hpost).
    destruct (Z.ltb_spec (Spec.score r) (Spec.score b)); injection H as <-.
    + exists (r :: pre), post. repeat split; [|exact Hpost].
      intros x [<-|Hx]; [assumption | now apply Hpre].
    + exists [], (pre ++ b :: post). repeat split; [intros x []|].
      intros x Hx. apply in_app_or in Hx. destruct Hx as [Hx|[<-|Hx]].
      * specialize (Hpre x Hx). lia.
      * lia.
      * specialize (Hpost x Hx). lia.
  - injection H as <-. destruct rows; [|simpl in Eb; destruct (Spec.first_best rows);
      [destruct (_ <? _)|]; discriminate].
    exists [], []. repeat split; intros x [].
Qed.

Lemma first_best_some (rows : list SeatRecord) :
  rows <> [] -> exists w, Spec.first_best rows = Some w.
Proof.
  destruct rows as [|r rows]; [congruence|]. intros _. simpl.
  destruct (Spec.first_best rows) as [b|]; [destruct (_ <? _)|]; eauto.
Qed.

(** The winner and the losers of a group. *)
Lemma sorted_desc_winner (rows : list SeatRecord) :
  rows <> [] ->
  exists w losers,
    sorted_desc rows = w :: losers
    /\ Spec.first_best rows = Some w
    /\ Permutation (w :: losers) rows
    /\ (forall x, In x losers -> score x <= score w).
Proof.
  intros Hne. destruct (first_best_some rows Hne) as (w & Hw).
  pose proof (sorted_desc_head rows) as Hh. rewrite Hw in Hh.
  destruct (sorted_desc rows) as [|w' losers] eqn:Es; [discriminate|].
  injection Hh as ->. exists w, losers.
  assert (Hp : Permutation (w :: losers) rows) by (rewrite <- Es; apply sorted_desc_perm).
  repeat split; try assumption.
  intros x Hx. destruct (first_best_spec rows w Hw) as (pre & post & E & Hpre & Hpost).
  assert (Hin : In x rows) by (apply (Permutation_in _ Hp); now right).
  rewrite !score_spec. rewrite E in Hin. apply in_app_or in Hin.
  destruct Hin as [Hin|[<-|Hin]].
  - specialize (Hpre x Hin). lia.
  - lia.
  - now apply Hpost.
Qed.

(** The tag is never copied: an untagged winner has no tagged loser. *)
Lemma untagged_winner (rows : list SeatRecord) (w : SeatRecord) (losers : list SeatRecord) :
  sorted_desc rows = w :: losers -> tagged w = false -> existsb tagged losers = false.
Proof.
  intros Es Hw.
  assert (Hne : rows <> []) by (intros ->; discriminate).
  destruct (sorted_desc_winner rows Hne) as (w' & l' & Es' & _ & _ & Hle).
  rewrite Es in Es'. injection Es' as <- <-.
  destruct (existsb tagged losers) eqn:E; [|reflexivity].
  apply existsb_exists in E. destruct E as (x & Hx & Ht).
  specialize (Hle x Hx).
  pose proof (proj1 (score_tag x) Ht). pose proof (proj2 (score_tag w) Hw). lia.
Qed.

End Winner.

(** ** Seat reconciliation: the pass over a table that keeps its primary key *)

Lemma filter_filter {A : Type} (p q : A -> bool) (l : list A) :
  filter p (filter q l) = filter (fun x => q x && p x) l.
Proof.
  induction l as [|a l IH]; simpl; [reflexivity|].
  destruct (q a); simpl; [destruct (p a)|]; now rewrite IH.
Qed.

Lemma filter_comm {A : Type} (p q : A -> bool) (l : list A) :
  filter p (filter q l) = filter q (filter p l).
Proof.
  rewrite !filter_filter. apply filter_ext. intros a. apply andb_comm.
Qed.

Lemma NoDup_map_inj {A B : Type} (f : A -> B) (l : list A) (x y : A) :
  NoDup (map f l) -> In x l -> In y l -> f x = f y -> x = y.
Proof.
  induction l as [|a l IH]; simpl; intros Hnd Hx Hy E; [destruct Hx|].
  inversion Hnd as [|? ? Hn Hd]; subst.
  destruct Hx as [->|Hx], Hy as [->|Hy].
  - reflexivity.
  - exfalso. apply Hn. rewrite E. now apply in_map.
  - exfalso. apply Hn. rewrite <- E. now apply in_map.
  - now apply IH.
Qed.

Lemma filter_keeps_distinct {Row Id : Type} (ident : Row -> Id) (keep : Row -> bool) :
  forall rows, NoDup (map ident rows) -> NoDup (map ident (filter keep rows)).
Proof.
  intros rows. induction rows as [|a rows IH]; simpl; intros Hnd; [constructor|].
  inversion Hnd as [|? ? Hn Hd]; subst.
  destruct (keep a); simpl; [|now apply IH].
  constructor; [|now apply IH].
  intros Hin. apply Hn. apply in_map_iff in Hin. destruct Hin as (x & E & Hx).
  apply filter_In in Hx. rewrite <- E. apply in_map. tauto.
Qed.

Lemma filter_single {A : Type} (p : A -> bool) (l : list A) (w : A) :
  NoDup l -> In w l -> (forall x, In x l -> (p x = true <-> x = w)) ->
  filter p l = [w].
Proof.
  induction l as [|a l IH]; intros Hnd Hin H; [destruct Hin|].
  inversion Hnd as [|? ? Hn Hd]; subst. simpl.
  destruct Hin as [->|Hin].
  - rewrite (proj2 (H w (or_introl eq_refl)) eq_refl). f_equal.
    apply filter_none. intros x Hx.
    destruct (p x) eqn:E; [|reflexivity].
    apply (H x (or_intror Hx)) in E. subst. contradiction.
  - destruct (p a) eqn:E.
    + apply (H a (or_introl eq_refl)) in E. subst. contradiction.
    + apply IH; [assumption | assumption |]. intros x Hx. apply H. now right.
Qed.

Section Dedupe.

Import DedupeHard.

Lemma key_eqb_eq (a b : key) : key_eqb a b = true <-> a = b.
Proof.
  destruct a as [[[a1 a2] a3] a4], b as [[[b1 b2] b3] b4]. unfold key_eqb.
  rewrite !andb_true_iff, !String.eqb_eq. split.
  - intros (((-> & ->) & ->) & ->). reflexivity.
  - intros E. injection E as -> -> -> ->. repeat split.
Qed.

Lemma in_rows_of (g : key) (tbl : list SeatRecord) (x : SeatRecord) :
  In x (rows_of g tbl) <-> In x tbl /\ key_of x = g.
Proof. unfold rows_of. rewrite filter_In, key_eqb_eq. tauto. Qed.

Lemma pk_same_id (tbl : list SeatRecord) (x y : SeatRecord) :
  pk_ok tbl -> In x tbl -> In y tbl ->
  Sql.eq_null (seat_record_id x) (seat_record_id y) = true -> x = y.
Proof.
  intros (Hnd & _) Hx Hy E. apply (NoDup_map_inj seat_record_id tbl); try assumption.
  unfold Sql.eq_null in E.
  destruct (seat_record_id x), (seat_record_id y); try discriminate.
  apply String.eqb_eq in E. now subst.
Qed.

Lemma pk_self (tbl : list SeatRecord) (x : SeatRecord) :
  pk_ok tbl -> In x tbl -> Sql.eq_null (seat_record_id x) (seat_record_id x) = true.
Proof.
  intros (_ & Hsome) Hx. specialize (Hsome x Hx). unfold Sql.eq_null.
  destruct (seat_record_id x); [apply String.eqb_refl | congruence].
Qed.

Lemma pk_NoDup (tbl : list SeatRecord) : pk_ok tbl -> NoDup tbl.
Proof. intros (Hnd & _). now apply NoDup_map_inv in Hnd. Qed.

Lemma pk_filter (p : SeatRecord -> bool) (tbl : list SeatRecord) :
  pk_ok tbl -> pk_ok (filter p tbl).
Proof.
  intros (Hnd & Hsome). split; [now apply filter_keeps_distinct|].
  intros r Hr. apply filter_In in Hr. now apply Hsome.
Qed.

Lemma delete_losers (losers tbl : list SeatRecord) :
  fold_left (fun tbl r => delete_id tbl (seat_record_id r)) losers tbl
  = filter (survives losers) tbl.
Proof.
  revert tbl. induction losers as [|l losers IH]; intros tbl; simpl.
  - symmetry. apply filter_all. reflexivity.
  - rewrite IH. unfold delete_id. rewrite filter_filter. reflexivity.
Qed.

(** One group of a table that keeps its primary key: the winner stays, the
    losers go, the other groups are as before. *)
Lemma fix_group_pk (tbl : list SeatRecord) (g : key) :
  pk_ok tbl -> rows_of g tbl <> [] ->
  exists w tbl',
    Spec.first_best (rows_of g tbl) = Some w
    /\ fix_group tbl g = Some tbl'
    /\ rows_of g tbl' = [w]
    /\ (forall k, k <> g -> rows_of k tbl' = rows_of k tbl)
    /\ pk_ok tbl'
    /\ (forall r, In r tbl' -> In r tbl).
Proof.
  intros Hpk Hne.
  destruct (sorted_desc_winner (rows_of g tbl) Hne) as (w & losers & Es & Hw & Hp & Hle).
  assert (Hrows : forall x, In x (w :: losers) <-> In x tbl /\ key_of x = g).
  { intros x. rewrite <- in_rows_of. split; apply Permutation_in;
      [exact Hp | now apply Permutation_sym]. }
  assert (Hnd : NoDup (w :: losers)).
  { apply (Permutation_NoDup (Permutation_sym Hp)). unfold rows_of.
    apply NoDup_filter. now apply pk_NoDup. }
  assert (Efix : fix_group tbl g = Some (filter (survives losers) tbl)).
  { unfold fix_group. cbv zeta. rewrite Es.
    replace (negb (tagged w) && existsb tagged losers) with false.
    - now rewrite delete_losers.
    - symmetry. destruct (tagged w) eqn:Ew; [reflexivity|]. simpl.
      apply (untagged_winner (rows_of g tbl) w losers Es Ew). }
  assert (Hsurv : forall x, In x tbl -> (survives losers x = true <-> ~ In x losers)).
  { intros x Hx. unfold survives. rewrite forallb_forall. split.
    - intros H Hin. specialize (H x Hin). rewrite (pk_self tbl x Hpk Hx) in H.
      discriminate.
    - intros Hnin l Hl. apply negb_true_iff.
      destruct (Sql.eq_null (seat_record_id x) (seat_record_id l)) eqn:E; [|reflexivity].
      exfalso. apply Hnin.
      assert (Hlt : In l tbl) by (apply (Hrows l); now right).
      now rewrite (pk_same_id tbl x l Hpk Hx Hlt E). }
  exists w, (filter (survives losers) tbl).
  split; [exact Hw|]. split; [exact Efix|].
  split; [|split; [|split; [now apply pk_filter|]]].
  - unfold rows_of. rewrite filter_comm. fold (rows_of g tbl).
    apply filter_single.
    + unfold rows_of. apply NoDup_filter. now apply pk_NoDup.
    + apply in_rows_of. apply Hrows. now left.
    + intros x Hx. apply in_rows_of in Hx.
      rewrite (Hsurv x (proj1 Hx)). split.
      * intros Hnin. apply Hrows in Hx. destruct Hx as [<-|Hx]; [reflexivity|contradiction].
      * intros -> Hin. inversion Hnd. contradiction.
  - intros k Hk. unfold rows_of. rewrite filter_comm. apply filter_all.
    intros x Hx. apply filter_In in Hx. destruct Hx as (Hx & Hkey).
    apply key_eqb_eq in Hkey. apply (Hsurv x Hx). intros Hin.
    assert (key_of x = g) by (apply (Hrows x); now right). congruence.
  - intros r Hr. apply filter_In in Hr. tauto.
Qed.

End Dedupe.

Section Pass.

Import DedupeHard.

Lemma key_dec (a b : key) : {a = b} + {a <> b}.
Proof. repeat decide equality; apply string_dec. Qed.

Lemma in_group_keys (tbl : list SeatRecord) (k : key) :
  In k (group_keys tbl) <-> rows_of k tbl <> [].
Proof.
  induction tbl as [|r t IH].
  - simpl. split; [intros [] | congruence].
  - change (group_keys (r :: t))
      with (key_of r :: filter (fun k' => negb (key_eqb k' (key_of r))) (group_keys t)).
    change (rows_of k (r :: t))
      with (if key_eqb (key_of r) k then r :: rows_of k t else rows_of k t).
    destruct (key_eqb (key_of r) k) eqn:E.
    + apply key_eqb_eq in E. split; [intros _; discriminate | intros _; now left].
    + split.
      * intros [H|H].
        -- apply key_eqb_eq in H. congruence.
        -- apply filter_In in H. now apply IH.
      * intros H. right. apply filter_In. split; [now apply IH|].
        apply negb_true_iff.
        destruct (key_eqb k (key_of r)) eqn:E'; [|reflexivity].
        apply key_eqb_eq in E'. symmetry in E'. apply key_eqb_eq in E'. congruence.
Qed.

Lemma fix_groups_pk (gs : list key) (tbl : list SeatRecord) :
  pk_ok tbl -> (forall g, In g gs -> rows_of g tbl <> []) ->
  exists tbl',
    fix_groups tbl gs = Some tbl' /\ pk_ok tbl'
    /\ (forall k, In k gs ->
                  exists w, Spec.first_best (rows_of k tbl) = Some w
                            /\ rows_of k tbl' = [w])
    /\ (forall k, ~ In k gs -> rows_of k tbl' = rows_of k tbl)
    /\ (forall r, In r tbl' -> In r tbl).
Proof.
  revert tbl. induction gs as [|g gs IH]; intros tbl Hpk Hne.
  - exists tbl. simpl. repeat split; try assumption; try tauto.
    + apply Hpk.
    + apply Hpk.
  - destruct (fix_group_pk tbl g Hpk (Hne g (or_introl eq_refl)))
      as (w & t1 & Hw & Efix & Hg & Hother & Hpk1 & Hincl1).
    assert (Hne1 : forall g', In g' gs -> rows_of g' t1 <> []).
    { intros g' Hg'. destruct (key_dec g' g) as [->|N].
      - rewrite Hg. discriminate.
      - rewrite (Hother g' N). apply Hne. now right. }
    destruct (IH t1 Hpk1 Hne1) as (t2 & Efix2 & Hpk2 & Hin2 & Hout2 & Hincl2).
    exists t2. simpl. rewrite Efix.
    split; [exact Efix2|]. split; [exact Hpk2|]. split; [|split].
    + intros k Hk. destruct (in_dec key_dec k gs) as [Hi|Hni].
      * destruct (Hin2 k Hi) as (w' & Hw' & Hr'). exists w'. split; [|exact Hr'].
        destruct (key_dec k g) as [->|N].
        -- rewrite Hg in Hw'. simpl in Hw'. now rewrite Hw, Hw'.
        -- now rewrite <- (Hother k N).
      * destruct Hk as [<-|Hk]; [|contradiction].
        exists w. split; [exact Hw|]. now rewrite (Hout2 g Hni).
    + intros k Hk. rewrite Hout2 by (intros H; apply Hk; now right).
      apply Hother. intros ->. apply Hk. now left.
    + intros r Hr. apply Hincl1, Hincl2, Hr.
Qed.

Lemma main_fix_groups (tbl : list SeatRecord) : main tbl = fix_groups tbl (dups tbl).
Proof. unfold main. now destruct (dups tbl). Qed.

(** One pass over a table that keeps its primary key: every key that has
    rows keeps exactly the first row of the highest score, there is no
    duplicate group left, and a second pass returns the table as it is. *)
Lemma main_pk (tbl : list SeatRecord) :
  pk_ok tbl ->
  exists tbl',
    main tbl = Some tbl'
    /\ (forall k, rows_of k tbl <> [] ->
                  exists w, Spec.first_best (rows_of k tbl) = Some w
                            /\ rows_of k tbl' = [w])
    /\ (forall r, In r tbl' -> In r tbl)
    /\ dups tbl' = []
    /\ main tbl' = Some tbl'.
Proof.
  intros Hpk.
  assert (Hne : forall g, In g (dups tbl) -> rows_of g tbl <> []).
  { intros g Hg. unfold dups in Hg. apply filter_In in Hg.
    now apply in_group_keys. }
  destruct (fix_groups_pk (dups tbl) tbl Hpk Hne) as (t & E & Hpk' & Hin & Hout & Hincl).
  assert (Hone : forall k, rows_of k tbl <> [] ->
             exists w, Spec.first_best (rows_of k tbl) = Some w /\ rows_of k t = [w]).
  { intros k Hk. destruct (in_dec key_dec k (dups tbl)) as [Hi|Hni]; [now apply Hin|].
    rewrite (Hout k Hni).
    assert (Hlen : (List.length (rows_of k tbl) <= 1)%nat).
    { destruct (Nat.ltb_spec 1 (List.length (rows_of k tbl))) as [Hlt|]; [|assumption].
      exfalso. apply Hni. unfold dups. apply filter_In. split.
      - now apply in_group_keys.
      - now apply Nat.ltb_lt. }
    destruct (rows_of k tbl) as [|x [|y l]]; [congruence | | simpl in Hlen; lia].
    exists x. split; reflexivity. }
  assert (Hd : dups t = []).
  { unfold dups. apply filter_none. intros g Hg. apply in_group_keys in Hg.
    assert (Hg0 : rows_of g tbl <> []).
    { destruct (rows_of g t) as [|x l] eqn:Ex; [congruence|].
      assert (Hx : In x (rows_of g t)) by (rewrite Ex; now left).
      apply in_rows_of in Hx. intros E0.
      assert (Hx0 : In x (rows_of g tbl)) by (apply in_rows_of; split; [apply Hincl|]; tauto).
      now rewrite E0 in Hx0. }
    destruct (Hone g Hg0) as (w & _ & ->). reflexivity. }
  exists t. rewrite main_fix_groups. repeat split; try assumption.
  rewrite main_fix_groups, Hd. reflexivity.
Qed.

Lemma prune_keeps_real (tbl : list SeatRecord) (r : SeatRecord) :
  In r tbl -> Spec.real_data r = true -> In r (PruneV3.main tbl).
Proof.
  intros Hin Hreal. unfold PruneV3.main. apply filter_In. split; [exact Hin|].
  apply negb_true_iff. apply andb_false_iff. left.
  unfold PruneV3.blank_default, Spec.real_data, Py.truthy in *.
  destruct (seat_record_id r), (assigned_entity_type r) as [t|];
    try destruct (t =? "NONE")%string;
    destruct (assigned_person_id r), (assigned_placeholder_id r);
    simpl in *; try reflexivity; discriminate.
Qed.

End Pass.

(** ** Seat reconciliation: the claims *)

Lemma base_score_tens (r : SeatRecord) : exists n : Z, Spec.base_score r = (10 * n)%Z.
Proof.
  unfold Spec.base_score, Spec.b2z.
  destruct (Py.contains _ _), (Py.upper (Py.or_empty (health_status r)) =? "FILLED")%string,
    (Py.in_tuple _ _);
    [exists 111%Z | exists 110%Z | exists 101%Z | exists 100%Z
     | exists 11%Z | exists 10%Z | exists 1%Z | exists 0%Z]; reflexivity.
Qed.

(** A record without ids reaches the score of a record with an id only
    through the tag, the health status or the entity type. *)
Lemma blank_reaches_real (R B : SeatRecord) :
  Spec.real_data R = true -> Spec.real_data B = false ->
  (Spec.score R <= Spec.score B)%Z ->
  (Spec.base_score R < Spec.base_score B)%Z.
Proof.
  intros HR HB. rewrite !score_split.
  destruct (base_score_tens R) as (n & ->), (base_score_tens B) as (m & ->).
  unfold Spec.real_data in HR, HB. unfold Spec.b2z.
  destruct (Py.truthy (assigned_person_id R)), (Py.truthy (assigned_placeholder_id R)),
    (Py.truthy (assigned_person_id B)), (Py.truthy (assigned_placeholder_id B));
    simpl in HR, HB; try discriminate; lia.
Qed.

Lemma in_pre_post {A : Type} (x w : A) (pre post : list A) :
  In x (pre ++ w :: post) -> In x pre \/ x = w \/ In x post.
Proof.
  intros H. apply in_app_or in H. destruct H as [H|[H|H]]; [now left | | now right; right].
  right. left. now symmetry.
Qed.


Lemma seats_pk_ok (a b : SeatRecord) (i j : string) :
  seat_record_id a = Some i -> seat_record_id b = Some j -> i <> j ->
  DedupeHard.pk_ok [a; b].
Proof.
  intros Ha Hb Hij. split.
  - simpl. rewrite Ha, Hb. constructor.
    + intros [H|[]]. injection H as H. now apply Hij.
    + constructor; [intros [] | constructor].
  - intros r [<-|[<-|[]]]; congruence.
Defined.



(** C5 (as amended). Of a record with a person or placeholder id and a
    record of the same seat key without either: the blank one has the lower
    score unless the tag, the health status or the entity type give it more
    than they give the other; on a table that keeps its primary key the pass
    keeps the blank one only in that case; and the prune of blank defaults
    deletes no record that has a person or placeholder id. *)
Theorem real_data_outranks_blank :
  (forall R B,
      Spec.real_data R = true -> Spec.real_data B = false ->
      (Spec.base_score B <= Spec.base_score R)%Z ->
      (DedupeHard.score B < DedupeHard.score R)%Z)
  /\ (forall tbl R B,
         DedupeHard.pk_ok tbl -> In R tbl -> In B tbl -> key_of R = key_of B ->
         Spec.real_data R = true -> Spec.real_data B = false ->
         exists tbl',
           DedupeHard.main tbl = Some tbl'
           /\ (In B tbl' -> (Spec.base_score R < Spec.base_score B)%Z)
           /\ ((Spec.base_score B <= Spec.base_score R)%Z -> ~ In B tbl'))
  /\ (forall tbl r,
         In r tbl -> Spec.real_data r = true -> In r (PruneV3.main tbl)).
Proof.
  split; [|split].
  - intros R B HR HB Hle. rewrite !score_spec.
    destruct (Z.lt_ge_cases (Spec.score B) (Spec.score R)) as [H|H]; [exact H|].
    pose proof (blank_reaches_real R B HR HB H). lia.
  - intros tbl R B Hpk HinR HinB Hkey HR HB.
    destruct (main_pk tbl Hpk) as (tbl' & Em & Hone & Hincl & _).
    exists tbl'. split; [exact Em|].
    assert (Hkept : In B tbl' -> (Spec.base_score R < Spec.base_score B)%Z).
    { intros HB'.
      assert (HRg : In R (DedupeHard.rows_of (key_of B) tbl))
        by (apply in_rows_of; split; assumption).
      assert (Hne : DedupeHard.rows_of (key_of B) tbl <> [])
        by (intros E; now rewrite E in HRg).
      destruct (Hone _ Hne) as (w & Hw & Hg).
      assert (HBg : In B (DedupeHard.rows_of (key_of B) tbl'))
        by (apply in_rows_of; split; [exact HB' | reflexivity]).
      rewrite Hg in HBg. destruct HBg as [->|[]].
      destruct (first_best_spec _ _ Hw) as (pre & post & E & Hpre & Hpost).
      rewrite E in HRg. apply blank_reaches_real; [exact HR | exact HB |].
      destruct (in_pre_post _ _ _ _ HRg) as [H|[->|H]].
      - apply Z.lt_le_incl. now apply Hpre.
      - apply Z.le_refl.
      - now apply Hpost. }
    split; [exact Hkept|]. intros Hle HB'. specialize (Hkept HB'). lia.
  - exact prune_keeps_real.
Qed.

(** C5 (as amended), on an assigned record and a blank default of the same
    seat: the pass does not keep the blank one. *)
Lemma real_data_outranks_blank_witness :
  exists tbl',
    DedupeHard.main [Seats.blank_default; Seats.real_untagged] = Some tbl'
    /\ (In Seats.blank_default tbl'
        -> (Spec.base_score Seats.real_untagged < Spec.base_score Seats.blank_default)%Z)
    /\ ((Spec.base_score Seats.blank_default <= Spec.base_score Seats.real_untagged)%Z
        -> ~ In Seats.blank_default tbl').
Proof.
  destruct real_data_outranks_blank as (_ & H & _).
  apply (H [Seats.blank_default; Seats.real_untagged] Seats.real_untagged
           Seats.blank_default).
  - apply (seats_pk_ok _ _ "r3" "r1"); [reflexivity | reflexivity | discriminate].
  - right. left. reflexivity.
  - left. reflexivity.
  - reflexivity.
  - reflexivity.
  - reflexivity.
Defined.

(** C5 as stated fails on the pass: of an assigned record without the
    history tag and a blank record of the same seat that carries the tag,
    both with an id, the pass deletes the assigned one and keeps the blank
    one. *)
Lemma real_data_outranks_blank_counterexample :
  DedupeHard.main [Seats.real_untagged; Seats.blank_tagged] = Some [Seats.blank_tagged]
  /\ key_of Seats.real_untagged = key_of Seats.blank_tagged
  /\ Spec.real_data Seats.real_untagged = true
  /\ Spec.real_data Seats.blank_tagged = false
  /\ DedupeHard.score Seats.real_untagged = 113%Z
  /\ DedupeHard.score Seats.blank_tagged = 1000%Z.
Proof. vm_compute. repeat split. Qed.

(** C6, evaluated on a history row and a blank default of the same seat
    whose [seat_record_id] is NULL: the pass takes the history row as the
    winner and deletes the loser by its id, which matches no row, so both rows
    are left, the pass counts one remaining duplicate group, and the key has
    two surviving records. The prune of blank defaults, which deletes by
    rowid, leaves the history row only. *)
Theorem reconcile_null_id_rows :
  DedupeHard.main [Seats.history; Seats.blank_null_id]
  = Some [Seats.history; Seats.blank_null_id]
  /\ DedupeHard.sorted_desc [Seats.history; Seats.blank_null_id]
     = [Seats.history; Seats.blank_null_id]
  /\ DedupeHard.delete_id [Seats.history; Seats.blank_null_id]
                          (seat_record_id Seats.blank_null_id)
     = [Seats.history; Seats.blank_null_id]
  /\ DedupeHard.remaining [Seats.history; Seats.blank_null_id] = 1%nat
  /\ DedupeHard.rows_of (key_of Seats.history) [Seats.history; Seats.blank_null_id]
     = [Seats.history; Seats.blank_null_id]
  /\ PruneV3.main [Seats.history; Seats.blank_null_id] = [Seats.history].
Proof. vm_compute. repeat split. Qed.

(** On a table that keeps its primary key the pass reaches a fixed point:
    it returns a table in which every seat key that had rows has exactly one,
    no key has more than one, no duplicate group remains, and on which a
    second pass returns the table as it is. *)
Theorem reconcile_fixed_point (tbl : list SeatRecord) :
  DedupeHard.pk_ok tbl ->
  exists tbl',
    DedupeHard.main tbl = Some tbl'
    /\ (forall k, DedupeHard.rows_of k tbl <> [] ->
                  exists w, In w tbl /\ DedupeHard.rows_of k tbl' = [w])
    /\ (forall k, (List.length (DedupeHard.rows_of k tbl') <= 1)%nat)
    /\ DedupeHard.remaining tbl' = 0%nat
    /\ DedupeHard.main tbl' = Some tbl'.
Proof.
  intros Hpk. destruct (main_pk tbl Hpk) as (tbl' & Em & Hone & Hincl & Hd & Em').
  exists tbl'. split; [exact Em|]. split; [|split; [|split; [|exact Em']]].
  - intros k Hk. destruct (Hone k Hk) as (w & _ & Hg). exists w. split; [|exact Hg].
    apply Hincl. apply (in_rows_of k). rewrite Hg. now left.
  - intros k. destruct (DedupeHard.rows_of k tbl') as [|x l] eqn:E; [simpl; lia|].
    assert (Hk : DedupeHard.rows_of k tbl <> []).
    { intros E0. assert (Hx : In x (DedupeHard.rows_of k tbl')) by (rewrite E; now left).
      apply in_rows_of in Hx. destruct Hx as [Hx Hkx].
      assert (Hx0 : In x (DedupeHard.rows_of k tbl))
        by (apply in_rows_of; split; [now apply Hincl | exact Hkx]).
      now rewrite E0 in Hx0. }
    destruct (Hone k Hk) as (w & _ & Hg). rewrite E in Hg. rewrite Hg. simpl. lia.
  - unfold DedupeHard.remaining. now rewrite Hd.
Qed.

(** The fixed point, on the history row of a seat and a blank default of the
    same seat, both with an id. *)
Lemma reconcile_fixed_point_witness :
  exists tbl',
    DedupeHard.main [Seats.blank_default; Seats.history] = Some tbl'
    /\ (forall k, DedupeHard.rows_of k [Seats.blank_default; Seats.history] <> [] ->
                  exists w, In w [Seats.blank_default; Seats.history]
                            /\ DedupeHard.rows_of k tbl' = [w])
    /\ (forall k, (List.length (DedupeHard.rows_of k tbl') <= 1)%nat)
    /\ DedupeHard.remaining tbl' = 0%nat
    /\ DedupeHard.main tbl' = Some tbl'.
Proof.
  apply (reconcile_fixed_point [Seats.blank_default; Seats.history]).
  apply (seats_pk_ok _ _ "r3"
           "WEEK_2025-12-04_to_2025-12-10__D0__DAY__PRIMARY__AMB120__ATTENDANT");
    [reflexivity | reflexivity | discriminate].
Defined.

(** ** [create_week.py]: a second run *)

(** After [main] of [create_week.py] has created a week, a second run for
    the same start date stops at [ensure_week_not_exists], before any
    write, whatever the first-out unit. *)
Theorem create_week_refuses_rerun (uuid4 : nat -> string) (conn conn' : CreateWeek.Conn)
    (start : Cal.date) (first_out first_out' : string) :
  CreateWeek.main uuid4 conn start first_out = Some conn' ->
  CreateWeek.ensure_week_not_exists conn' (Cal.isoformat start) = None
  /\ CreateWeek.main uuid4 conn' start first_out' = None.
Proof.
  intros Hmain.
  assert (Hguard : CreateWeek.ensure_week_not_exists conn' (Cal.isoformat start) = None).
  { unfold CreateWeek.main in Hmain.
    destruct (CreateWeek.ensure_week_not_exists conn (Cal.isoformat start)); [|discriminate].
    destruct (existsb (fun w => week_id w
                                =? "WEEK_" ++ Cal.isoformat start ++ "_to_"
                                   ++ Cal.isoformat (start + 6))%string
                      (sc_weeks (CreateWeek.tables conn))) eqn:Hfresh.
    - unfold CreateWeek.create_week in Hmain. cbv zeta in Hmain.
      rewrite Hfresh in Hmain. discriminate.
    - destruct (create_week_generated uuid4 first_out conn start
                  CreateWeek.lock_rule_days_default Hfresh)
        as (c & wid & wk & E & G & _).
      rewrite E in Hmain. injection Hmain as <-.
      destruct G as (wk' & S & R & Ew & Es & _).
      unfold CreateWeek.ensure_week_not_exists. rewrite Ew, existsb_app.
      cbn [existsb]. rewrite Es, String.eqb_refl, orb_true_r. reflexivity. }
  split; [exact Hguard|]. unfold CreateWeek.main. now rewrite Hguard.
Qed.

(** The second run, after the week of 2025-12-04 was created on an empty
    database. *)
Lemma create_week_refuses_rerun_witness :
  exists conn',
    CreateWeek.main Examples.uuid Examples.fresh_conn Examples.thu_2025_12_04 "AMB121"
    = Some conn'
    /\ CreateWeek.main Examples.uuid conn' Examples.thu_2025_12_04 "AMB120" = None.
Proof.
  destruct (CreateWeek.main Examples.uuid Examples.fresh_conn Examples.thu_2025_12_04
                            "AMB121") as [c|] eqn:E.
  - exists c. split; [reflexivity|].
    apply (create_week_refuses_rerun Examples.uuid Examples.fresh_conn c
             Examples.thu_2025_12_04 "AMB121" "AMB120" E).
  - vm_compute in E. discriminate.
Defined.

(** ** The prune of blank defaults *)

Section Prune.

Import PruneV3.

Lemma ltrim_other (c : ascii) (t : string) :
  c <> " "%char -> Sql.ltrim (String c t) = String c t.
Proof.
  intros Hc. destruct c as [[] [] [] [] [] [] [] []]; try reflexivity.
  now contradiction Hc.
Qed.

Lemma rtrim_other (c : ascii) (t : string) :
  c <> " "%char -> Sql.rtrim (String c t) <> "".
Proof.
  intros Hc. simpl. destruct (Sql.rtrim t); [|discriminate].
  destruct (Ascii.eqb_spec c " "); [contradiction | discriminate].
Qed.

(** A string that [TRIM] empties holds spaces only, and matches no pattern
    that starts with another character. *)
Lemma trim_empty_like (p : ascii) (pat s : string) :
  Sql.like_char p " " = false ->
  Sql.trim s = "" -> Sql.like_contains (String p pat) s = false.
Proof.
  intros Hp. induction s as [|c t IH]; intros Ht; [reflexivity|].
  destruct (Ascii.eqb_spec c " ") as [->|Hc].
  - change (Sql.trim (String " " t)) with (Sql.trim t) in Ht.
    cbn [Sql.like_contains Sql.like_prefix]. rewrite Hp, (IH Ht). reflexivity.
  - unfold Sql.trim in Ht. rewrite (ltrim_other c t Hc) in Ht.
    now apply rtrim_other in Ht.
Qed.

(** The row carries the tag, as [h.note LIKE '%TAG%'] reads it. *)
Local Abbreviation history h :=
  (match note h with Some n => Sql.like_contains TAG n | None => false end).

Lemma history_not_blank (h : SeatRecord) : history h = true -> blank_default h = false.
Proof.
  intros Hh. unfold blank_default. destruct (note h) as [n|]; [|discriminate].
  destruct (Sql.trim n =? "") eqn:E.
  - apply String.eqb_eq in E.
    pose proof (trim_empty_like "H" "ISTORY_DEC2025" n eq_refl E) as X.
    change (String "H" "ISTORY_DEC2025") with TAG in X. rewrite X in Hh. discriminate.
  - now rewrite !andb_false_r.
Qed.

Lemma history_exists_In (tbl : list SeatRecord) (b : SeatRecord) :
  history_exists tbl b = true
  <-> exists h, In h tbl /\ key_of h = key_of b /\ history h = true.
Proof.
  unfold history_exists. rewrite existsb_exists. split.
  - intros (h & Hin & Hb). apply andb_true_iff in Hb. destruct Hb as [Hk Hh].
    apply key_eqb_eq in Hk. now exists h.
  - intros (h & Hin & Hk & Hh). exists h. split; [exact Hin|].
    apply andb_true_iff. split; [now apply key_eqb_eq | exact Hh].
Qed.

Lemma history_kept (tbl : list SeatRecord) (h : SeatRecord) :
  In h tbl -> history h = true -> In h (main tbl).
Proof.
  intros Hin Hh. unfold main. apply filter_In. split; [exact Hin|].
  now rewrite (history_not_blank h Hh).
Qed.

Lemma history_exists_main (tbl : list SeatRecord) (b : SeatRecord) :
  history_exists (main tbl) b = history_exists tbl b.
Proof.
  destruct (history_exists tbl b) eqn:E.
  - apply history_exists_In in E. destruct E as (h & Hin & Hk & Hh).
    apply history_exists_In. exists h. split; [now apply history_kept | tauto].
  - destruct (history_exists (main tbl) b) eqn:E'; [|reflexivity].
    apply history_exists_In in E'. destruct E' as (h & Hin & Hk & Hh).
    unfold main in Hin. apply filter_In in Hin.
    assert (history_exists tbl b = true) by (apply history_exists_In; exists h; tauto).
    congruence.
Qed.

End Prune.

(** The prune of blank defaults only deletes rows that have no id, no
    person and no placeholder and whose seat key keeps a row with the history
    tag; it deletes no row with the tag; afterwards no blank default is left
    beside a history row; and a second run deletes nothing. *)
Theorem prune_blank_defaults (tbl : list SeatRecord) :
  let out := PruneV3.main tbl in
  (forall r, In r out -> In r tbl)
  /\ (forall r, In r tbl -> ~ In r out ->
        seat_record_id r = None /\ assigned_person_id r = None
        /\ assigned_placeholder_id r = None
        /\ exists h, In h out /\ key_of h = key_of r
                     /\ exists n, note h = Some n
                                  /\ Sql.like_contains PruneV3.TAG n = true)
  /\ (forall h n, In h tbl -> note h = Some n ->
                  Sql.like_contains PruneV3.TAG n = true -> In h out)
  /\ (forall b, In b out -> PruneV3.blank_default b = true ->
                PruneV3.history_exists out b = false)
  /\ PruneV3.main out = out.
Proof.
  cbv zeta. split; [|split; [|split; [|split]]].
  - intros r Hr. unfold PruneV3.main in Hr. now apply filter_In in Hr.
  - intros r Hin Hout.
    assert (Hb : PruneV3.blank_default r && PruneV3.history_exists tbl r = true).
    { destruct (PruneV3.blank_default r && PruneV3.history_exists tbl r) eqn:E;
        [reflexivity|].
      exfalso. apply Hout. unfold PruneV3.main. apply filter_In. now rewrite E. }
    apply andb_true_iff in Hb. destruct Hb as [Hb Hh].
    apply history_exists_In in Hh. destruct Hh as (h & Hh & Hk & Ht).
    unfold PruneV3.blank_default in Hb.
    destruct (seat_record_id r); [discriminate|].
    destruct (assigned_entity_type r); [|discriminate].
    destruct (assigned_person_id r); [now rewrite andb_false_r in Hb|].
    destruct (assigned_placeholder_id r); [now rewrite andb_false_r in Hb|].
    repeat split. exists h. split; [now apply history_kept|]. split; [exact Hk|].
    destruct (note h) as [n|]; [|discriminate]. now exists n.
  - intros h n Hin Hn Ht. apply history_kept; [exact Hin|]. now rewrite Hn.
  - intros b Hb Hblank. rewrite history_exists_main.
    unfold PruneV3.main in Hb. apply filter_In in Hb. destruct Hb as [_ Hb].
    rewrite Hblank in Hb. simpl in Hb. now apply negb_true_iff in Hb.
  - unfold PruneV3.main at 1. apply filter_all. intros b Hb.
    rewrite history_exists_main.
    unfold PruneV3.main in Hb. now apply filter_In in Hb.
Qed.

(** ** The pass on any table the primary key admits *)

Section UniqueIds.

Import DedupeHard SeatTable.

Lemma ids_cons (r : SeatRecord) (t : list SeatRecord) :
  ids (r :: t) = match seat_record_id r with Some i => i :: ids t | None => ids t end.
Proof. unfold ids. simpl. now destruct (seat_record_id r). Qed.

Lemma ids_In (tbl : list SeatRecord) (i : string) :
  In i (ids tbl) <-> exists r, In r tbl /\ seat_record_id r = Some i.
Proof.
  unfold ids. rewrite in_flat_map. split; intros (r & Hr & H); exists r; split; trivial.
  - destruct (seat_record_id r) as [j|]; [|contradiction].
    destruct H as [->|[]]. reflexivity.
  - rewrite H. now left.
Qed.

Lemma ids_filter (p : SeatRecord -> bool) (tbl : list SeatRecord) :
  unique_ids tbl -> unique_ids (filter p tbl).
Proof.
  unfold unique_ids. induction tbl as [|r t IH]; [trivial|].
  rewrite ids_cons. intros Hnd. simpl.
  assert (Ht : NoDup (ids t)) by (destruct (seat_record_id r); [now inversion Hnd | exact Hnd]).
  destruct (p r); [|now apply IH].
  rewrite ids_cons. destruct (seat_record_id r) as [i|]; [|now apply IH].
  constructor; [|now apply IH].
  inversion Hnd as [|? ? Hn _]; subst. intros Hin. apply Hn.
  apply ids_In in Hin. destruct Hin as (x & Hx & Ex). apply filter_In in Hx.
  apply ids_In. exists x. tauto.
Qed.

(** Two rows of the table that hold the same id are one row. *)
Lemma unique_same (tbl : list SeatRecord) (x y : SeatRecord) :
  unique_ids tbl -> In x tbl -> In y tbl ->
  Sql.eq_null (seat_record_id x) (seat_record_id y) = true -> x = y.
Proof.
  unfold unique_ids. induction tbl as [|r t IH]; [contradiction|].
  rewrite ids_cons. intros Hnd Hx Hy E.
  assert (Hid : exists i, seat_record_id x = Some i /\ seat_record_id y = Some i).
  { unfold Sql.eq_null in E. destruct (seat_record_id x) as [i|]; [|discriminate].
    destruct (seat_record_id y) as [j|]; [|discriminate].
    apply String.eqb_eq in E. subst. now exists j. }
  destruct Hid as (i & Ex & Ey).
  assert (Ht : NoDup (ids t)) by (destruct (seat_record_id r); [now inversion Hnd | exact Hnd]).
  assert (Hhead : forall z, In z t -> seat_record_id z = Some i ->
                            seat_record_id r = Some i -> False).
  { intros z Hz Ez Er. rewrite Er in Hnd. inversion Hnd as [|? ? Hn _]; subst.
    apply Hn. apply ids_In. now exists z. }
  destruct Hx as [<-|Hx], Hy as [<-|Hy].
  - reflexivity.
  - exfalso. now apply (Hhead y).
  - exfalso. now apply (Hhead x).
  - now apply IH.
Qed.

Lemma ids_perm (l l' : list SeatRecord) : Permutation l l' -> Permutation (ids l) (ids l').
Proof. intros H. unfold ids. now apply Permutation_flat_map. Qed.

(** What [fix_group] does, on any table: the tag is never copied, and the
    rows left are those no [DELETE] of a loser's id matches. *)
Lemma fix_group_any (tbl : list SeatRecord) (g : key) :
  rows_of g tbl <> [] ->
  exists w losers,
    sorted_desc (rows_of g tbl) = w :: losers
    /\ fix_group tbl g = Some (filter (survives losers) tbl).
Proof.
  intros Hne.
  destruct (sorted_desc_winner (rows_of g tbl) Hne) as (w & losers & Es & _).
  exists w, losers. split; [exact Es|].
  unfold fix_group. cbv zeta. rewrite Es.
  replace (negb (tagged w) && existsb tagged losers) with false.
  - now rewrite delete_losers.
  - symmetry. destruct (tagged w) eqn:Ew; [reflexivity|]. simpl.
    apply (untagged_winner (rows_of g tbl) w losers Es Ew).
Qed.

(** One group, on a table with unique ids. *)
Lemma fix_group_unique (tbl : list SeatRecord) (g : key) :
  unique_ids tbl -> rows_of g tbl <> [] ->
  exists sv,
    fix_group tbl g = Some (filter sv tbl)
    /\ (forall r, In r tbl -> key_of r = g -> (sv r = true <-> kept tbl r))
    /\ (forall r, In r tbl -> key_of r <> g -> sv r = true).
Proof.
  intros Hu Hne.
  destruct (fix_group_any tbl g Hne) as (w & losers & Es & Efix).
  assert (Hp : Permutation (w :: losers) (rows_of g tbl))
    by (rewrite <- Es; apply sorted_desc_perm).
  assert (Hrows : forall x, In x (w :: losers) <-> In x tbl /\ key_of x = g).
  { intros x. rewrite <- in_rows_of. split; apply Permutation_in;
      [exact Hp | now apply Permutation_sym]. }
  assert (Hsurv : forall x, In x tbl ->
            (survives losers x = true <-> seat_record_id x = None \/ ~ In x losers)).
  { intros x Hx. unfold survives. rewrite forallb_forall. split.
    - intros H. destruct (seat_record_id x) as [i|] eqn:Ex; [|now left].
      right. intros Hin. specialize (H x Hin). rewrite Ex in H. simpl in H.
      now rewrite String.eqb_refl in H.
    - intros [Hn|Hnin] l Hl; apply negb_true_iff.
      + now rewrite Hn.
      + destruct (Sql.eq_null (seat_record_id x) (seat_record_id l)) eqn:E; [|reflexivity].
        exfalso. apply Hnin.
        assert (Hlt : In l tbl) by (apply (Hrows l); now right).
        now rewrite (unique_same tbl x l Hu Hx Hlt E). }
  assert (Hw : seat_record_id w = None \/ ~ In w losers).
  { destruct (seat_record_id w) as [i|] eqn:Ew; [|now left]. right. intros Hin.
    assert (Hnd : NoDup (ids (w :: losers))).
    { apply (Permutation_NoDup (Permutation_sym (ids_perm _ _ Hp))).
      apply (ids_filter _ tbl Hu). }
    rewrite ids_cons, Ew in Hnd. inversion Hnd as [|? ? Hn _]; subst.
    apply Hn. apply ids_In. now exists w. }
  exists (survives losers). split; [exact Efix|]. split.
  - intros r Hr Hk. rewrite (Hsurv r Hr). unfold kept. rewrite Hk, Es. simpl.
    assert (Hin : In r (w :: losers)) by (apply Hrows; tauto).
    split.
    + intros [Hn|Hnin]; [now left|]. right. destruct Hin as [->|Hin]; [reflexivity|].
      contradiction.
    + intros [Hn|E]; [now left|]. injection E as <-. exact Hw.
  - intros r Hr Hk. apply (Hsurv r Hr). right. intros Hin. apply Hk.
    apply (Hrows r). now right.
Qed.

Lemma rows_of_filter (p : SeatRecord -> bool) (k : key) (tbl : list SeatRecord) :
  rows_of k (filter p tbl) = filter p (rows_of k tbl).
Proof. unfold rows_of. apply filter_comm. Qed.

Lemma rows_of_kept (sv : SeatRecord -> bool) (k : key) (tbl : list SeatRecord) :
  (forall r, In r tbl -> key_of r = k -> sv r = true) ->
  rows_of k (filter sv tbl) = rows_of k tbl.
Proof.
  intros H. rewrite rows_of_filter. apply filter_all. intros x Hx.
  apply in_rows_of in Hx. now apply H.
Qed.

Lemma group_keys_NoDup (tbl : list SeatRecord) : NoDup (group_keys tbl).
Proof.
  induction tbl as [|r t IH]; simpl; constructor.
  - intros Hin. apply filter_In in Hin. destruct Hin as [_ Hin].
    apply negb_true_iff in Hin.
    now rewrite (proj2 (key_eqb_eq _ _) eq_refl) in Hin.
  - now apply NoDup_filter.
Qed.

(** The loop over the groups [gs]. *)
Lemma fix_groups_unique (gs : list key) (tbl : list SeatRecord) :
  unique_ids tbl -> NoDup gs -> (forall g, In g gs -> rows_of g tbl <> []) ->
  exists keep,
    fix_groups tbl gs = Some (filter keep tbl)
    /\ forall r, In r tbl -> (keep r = true <-> ~ In (key_of r) gs \/ kept tbl r).
Proof.
  revert tbl. induction gs as [|g gs IH]; intros tbl Hu Hnd Hne.
  - exists (fun _ => true). split.
    + simpl. f_equal. symmetry. now apply filter_all.
    + intros r _. split; [intros _; left; tauto | reflexivity].
  - inversion Hnd as [|? ? Hg Hnd']; subst.
    destruct (fix_group_unique tbl g Hu (Hne g (or_introl eq_refl)))
      as (sv & Efix & Hin & Hout).
    assert (Hsame : forall k, k <> g -> rows_of k (filter sv tbl) = rows_of k tbl).
    { intros k Hk. apply rows_of_kept. intros r Hr Er. apply (Hout r Hr). congruence. }
    assert (Hne1 : forall g', In g' gs -> rows_of g' (filter sv tbl) <> []).
    { intros g' Hg'. rewrite Hsame; [apply Hne; now right|]. intros ->. contradiction. }
    destruct (IH (filter sv tbl) (ids_filter sv tbl Hu) Hnd' Hne1) as (keep2 & E2 & H2).
    exists (fun x => sv x && keep2 x). split.
    + simpl. rewrite Efix, E2. now rewrite filter_filter.
    + intros r Hr. rewrite andb_true_iff.
      destruct (key_dec (key_of r) g) as [Ek|Nk].
      * rewrite (Hin r Hr Ek). split.
        -- intros [Hk _]. now right.
        -- intros [Hn|Hk]; [exfalso; apply Hn; left; now symmetry|].
           split; [exact Hk|].
           apply H2; [apply filter_In; split; [exact Hr | now apply Hin]|].
           left. now rewrite Ek.
      * assert (Hs : sv r = true) by now apply Hout.
        assert (Hr1 : In r (filter sv tbl)) by (apply filter_In; tauto).
        rewrite (H2 r Hr1). unfold kept. rewrite (Hsame (key_of r) Nk).
        split.
        -- intros [_ [Hn|Hk]]; [left | now right].
           intros [E|Hi]; [now apply Nk | contradiction].
        -- intros [Hn|Hk]; (split; [exact Hs|]); [left | now right].
           intros Hi. apply Hn. now right.
Qed.

Lemma first_best_intro (pre post : list SeatRecord) (w : SeatRecord) :
  (forall x, In x pre -> (Spec.score x < Spec.score w)%Z) ->
  (forall x, In x post -> (Spec.score x <= Spec.score w)%Z) ->
  Spec.first_best (pre ++ w :: post) = Some w.
Proof.
  intros Hpre Hpost.
  assert (Hw : Spec.first_best (w :: post) = Some w).
  { simpl. destruct (Spec.first_best post) as [b|] eqn:Eb; [|reflexivity].
    destruct (first_best_spec post b Eb) as (p1 & p2 & -> & _ & _).
    assert ((Spec.score b <= Spec.score w)%Z)
      by (apply Hpost; apply in_or_app; right; now left).
    destruct (Z.ltb_spec (Spec.score w) (Spec.score b)); [lia | reflexivity]. }
  induction pre as [|x pre IH]; [exact Hw|].
  simpl. rewrite IH by (intros y Hy; apply Hpre; now right).
  assert ((Spec.score x < Spec.score w)%Z) by (apply Hpre; now left).
  destruct (Z.ltb_spec (Spec.score x) (Spec.score w)); [reflexivity | lia].
Qed.

(** The winner of a group stays the winner when other rows go. *)
Lemma first_best_filter (keep : SeatRecord -> bool) (rows : list SeatRecord)
    (w : SeatRecord) :
  Spec.first_best rows = Some w -> keep w = true ->
  Spec.first_best (filter keep rows) = Some w.
Proof.
  intros Hw Hk. destruct (first_best_spec rows w Hw) as (pre & post & -> & Hpre & Hpost).
  rewrite filter_app. simpl. rewrite Hk. apply first_best_intro.
  - intros x Hx. apply filter_In in Hx. now apply Hpre.
  - intros x Hx. apply filter_In in Hx. now apply Hpost.
Qed.

Lemma single_kept (tbl : list SeatRecord) (r : SeatRecord) :
  In r tbl -> ~ In (key_of r) (dups tbl) -> kept tbl r.
Proof.
  intros Hr Hn. right.
  assert (Hin : In r (rows_of (key_of r) tbl)) by (apply in_rows_of; tauto).
  assert (Hlen : (List.length (rows_of (key_of r) tbl) <= 1)%nat).
  { destruct (Nat.ltb_spec 1 (List.length (rows_of (key_of r) tbl))) as [Hlt|]; [|assumption].
    exfalso. apply Hn. unfold dups. apply filter_In. split.
    - apply in_group_keys. intros E. now rewrite E in Hin.
    - now apply Nat.ltb_lt. }
  destruct (rows_of (key_of r) tbl) as [|x [|y l]]; [contradiction | | simpl in Hlen; lia].
  destruct Hin as [->|[]]. reflexivity.
Qed.

Lemma main_unique (tbl : list SeatRecord) :
  unique_ids tbl ->
  exists keep,
    main tbl = Some (filter keep tbl)
    /\ forall r, In r tbl -> (keep r = true <-> kept tbl r).
Proof.
  intros Hu.
  assert (Hne : forall g, In g (dups tbl) -> rows_of g tbl <> []).
  { intros g Hg. unfold dups in Hg. apply filter_In in Hg. now apply in_group_keys. }
  assert (Hnd : NoDup (dups tbl)) by (apply NoDup_filter, group_keys_NoDup).
  destruct (fix_groups_unique (dups tbl) tbl Hu Hnd Hne) as (keep & E & H).
  exists keep. rewrite main_fix_groups. split; [exact E|].
  intros r Hr. rewrite (H r Hr). split; [|now right].
  intros [Hn|Hk]; [now apply single_kept | exact Hk].
Qed.

End UniqueIds.

(** On every table the primary key admits (no two rows with the same id,
    any number without one) the pass ends without an error, changes no row
    and keeps their order; a row is left exactly when it has no id or is the
    winner of its seat key; and a second pass changes nothing. *)
Theorem dedupe_pass_any_table (tbl : list SeatRecord) :
  SeatTable.unique_ids tbl ->
  exists tbl',
    DedupeHard.main tbl = Some tbl'
    /\ (exists keep, tbl' = filter keep tbl)
    /\ (forall r, In r tbl -> (In r tbl' <-> SeatTable.kept tbl r))
    /\ DedupeHard.main tbl' = Some tbl'.
Proof.
  intros Hu. destruct (main_unique tbl Hu) as (keep & E & H).
  exists (filter keep tbl). split; [exact E|]. split; [now exists keep|]. split.
  - intros r Hr. rewrite filter_In, <- (H r Hr). tauto.
  - destruct (main_unique (filter keep tbl) (ids_filter keep tbl Hu)) as (keep' & E' & H').
    rewrite E'. f_equal. apply filter_all. intros r Hr. apply (H' r Hr).
    apply filter_In in Hr. destruct Hr as [Hr Hk].
    apply (H r Hr) in Hk. destruct Hk as [Hn|Hk]; [now left|]. right.
    rewrite sorted_desc_head in *. rewrite rows_of_filter.
    apply first_best_filter; [exact Hk|]. apply (H r Hr). right.
    now rewrite sorted_desc_head.
Qed.

Lemma unique_ids_two (a b : SeatRecord) (i : string) :
  seat_record_id a = Some i -> seat_record_id b = None ->
  SeatTable.unique_ids [a; b].
Proof.
  intros Ha Hb. unfold SeatTable.unique_ids. rewrite !ids_cons, Ha, Hb. simpl.
  constructor; [intros [] | constructor].
Defined.

(** The pass on the history row of a seat and a blank default of the same
    seat that has no id: both rows are left, also by a second pass. *)
Lemma dedupe_pass_any_table_witness :
  exists tbl',
    DedupeHard.main [Seats.history; Seats.blank_null_id] = Some tbl'
    /\ (exists keep, tbl' = filter keep [Seats.history; Seats.blank_null_id])
    /\ (forall r, In r [Seats.history; Seats.blank_null_id] ->
                  (In r tbl' <-> SeatTable.kept [Seats.history; Seats.blank_null_id] r))
    /\ DedupeHard.main tbl' = Some tbl'.
Proof.
  apply (dedupe_pass_any_table [Seats.history; Seats.blank_null_id]).
  apply (unique_ids_two _ _
           "WEEK_2025-12-04_to_2025-12-10__D0__DAY__PRIMARY__AMB120__ATTENDANT");
    reflexivity.
Defined.

(** The prune on the same two rows: the blank default goes, and a second
    run deletes nothing. *)
Lemma prune_blank_defaults_witness :
  PruneV3.main [Seats.history; Seats.blank_null_id] = [Seats.history]
  /\ PruneV3.main (PruneV3.main [Seats.history; Seats.blank_null_id])
     = PruneV3.main [Seats.history; Seats.blank_null_id].
Proof.
  split; [reflexivity|].
  destruct (prune_blank_defaults [Seats.history; Seats.blank_null_id])
    as (_ & _ & _ & _ & H).
  exact H.
Defined.

(** A row that carries the history tag outscores every row that does not,
    and on every table the primary key admits a seat key that has a row with
    the tag keeps one: the row the pass leaves as the winner of the key
    carries the tag. *)
Theorem history_row_wins :
  (forall a b, DedupeHard.tagged a = true -> DedupeHard.tagged b = false ->
               (DedupeHard.score b < DedupeHard.score a)%Z)
  /\ (forall tbl h,
         SeatTable.unique_ids tbl -> In h tbl -> DedupeHard.tagged h = true ->
         exists tbl' w,
           DedupeHard.main tbl = Some tbl'
           /\ In w tbl' /\ key_of w = key_of h /\ DedupeHard.tagged w = true).
Proof.
  split.
  - intros a b Ha Hb.
    pose proof (proj1 (score_tag a) Ha). pose proof (proj2 (score_tag b) Hb). lia.
  - intros tbl h Hu Hh Ht.
    destruct (main_unique tbl Hu) as (keep & E & H).
    assert (Hin : In h (DedupeHard.rows_of (key_of h) tbl)) by (apply in_rows_of; tauto).
    assert (Hne : DedupeHard.rows_of (key_of h) tbl <> [])
      by (intros E0; now rewrite E0 in Hin).
    destruct (sorted_desc_winner _ Hne) as (w & losers & Es & _ & Hp & Hle).
    assert (Hw : In w tbl /\ key_of w = key_of h).
    { apply in_rows_of. apply (Permutation_in _ Hp). now left. }
    destruct Hw as [Hw Hk].
    exists (filter keep tbl), w. split; [exact E|]. split; [|split; [exact Hk|]].
    + apply filter_In. split; [exact Hw|]. apply (H w Hw). right. now rewrite Hk, Es.
    + apply (Permutation_in _ (Permutation_sym Hp)) in Hin.
      destruct Hin as [->|Hin]; [exact Ht|].
      destruct (DedupeHard.tagged w) eqn:Ew; [reflexivity|].
      specialize (Hle h Hin).
      pose proof (proj1 (score_tag h) Ht). pose proof (proj2 (score_tag w) Ew). lia.
Qed.

(** The history row of a seat beside a blank default without an id. *)
Lemma history_row_wins_witness :
  exists tbl' w,
    DedupeHard.main [Seats.blank_null_id; Seats.history] = Some tbl'
    /\ In w tbl' /\ key_of w = key_of Seats.history /\ DedupeHard.tagged w = true.
Proof.
  destruct history_row_wins as (_ & H).
  apply (H [Seats.blank_null_id; Seats.history] Seats.history).
  - unfold SeatTable.unique_ids. rewrite !ids_cons. simpl.
    constructor; [intros [] | constructor].
  - right. left. reflexivity.
  - reflexivity.
Defined.

Section PruneThenDedupe.

Import DedupeHard SeatTable.

Lemma unique_all_ids (tbl : list SeatRecord) :
  unique_ids tbl -> (forall r, In r tbl -> seat_record_id r <> None) -> pk_ok tbl.
Proof.
  intros Hu Hall. split; [|exact Hall].
  unfold unique_ids in Hu. induction tbl as [|r t IH]; [constructor|].
  rewrite ids_cons in Hu. simpl.
  destruct (seat_record_id r) as [i|] eqn:Er.
  - inversion Hu as [|? ? Hn Hd]; subst. constructor.
    + intros Hin. apply Hn. apply in_map_iff in Hin. destruct Hin as (x & Ex & Hx).
      apply ids_In. now exists x.
    + apply IH; [exact Hd|]. intros x Hx. apply Hall. now right.
  - exfalso. apply (Hall r); [now left | exact Er].
Qed.

End PruneThenDedupe.

(** The prune before the pass: on a table the primary key admits in which
    the rows without an id are blank defaults of seat keys that have a history
    row, the pass after the prune ends with exactly one row, with an id, for
    every seat key that had rows, and no duplicate group remains. *)
Theorem prune_then_dedupe (tbl : list SeatRecord) :
  SeatTable.unique_ids tbl ->
  (forall r, In r tbl -> seat_record_id r = None ->
             PruneV3.blank_default r = true /\ PruneV3.history_exists tbl r = true) ->
  exists tbl',
    DedupeHard.main (PruneV3.main tbl) = Some tbl'
    /\ (forall k, DedupeHard.rows_of k tbl <> [] ->
                  exists w, DedupeHard.rows_of k tbl' = [w] /\ In w tbl
                            /\ seat_record_id w <> None)
    /\ DedupeHard.remaining tbl' = 0%nat.
Proof.
  intros Hu Hblank.
  assert (Hids : forall r, In r (PruneV3.main tbl) -> seat_record_id r <> None).
  { intros r Hr Hn. unfold PruneV3.main in Hr. apply filter_In in Hr.
    destruct Hr as [Hr Hp]. destruct (Hblank r Hr Hn) as [E1 E2].
    rewrite E1, E2 in Hp. discriminate. }
  assert (Hpk : DedupeHard.pk_ok (PruneV3.main tbl)).
  { apply unique_all_ids; [|exact Hids]. now apply ids_filter. }
  destruct (main_pk _ Hpk) as (tbl' & Em & Hone & Hincl & Hd & _).
  exists tbl'. split; [exact Em|]. split.
  - intros k Hk.
    assert (Hk' : DedupeHard.rows_of k (PruneV3.main tbl) <> []).
    { destruct (DedupeHard.rows_of k tbl) as [|r l] eqn:Er; [congruence|].
      assert (Hr : In r tbl /\ key_of r = k) by (apply in_rows_of; rewrite Er; now left).
      destruct Hr as [Hr Ek].
      destruct (PruneV3.blank_default r && PruneV3.history_exists tbl r) eqn:Ep.
      - apply andb_true_iff in Ep. destruct Ep as [_ Eh].
        apply history_exists_In in Eh. destruct Eh as (h & Hh & Hkh & Ht).
        intros E0.
        assert (Hin : In h (DedupeHard.rows_of k (PruneV3.main tbl))).
        { apply in_rows_of. split; [now apply history_kept | congruence]. }
        now rewrite E0 in Hin.
      - intros E0.
        assert (Hin : In r (DedupeHard.rows_of k (PruneV3.main tbl))).
        { apply in_rows_of. split; [|exact Ek]. unfold PruneV3.main.
          apply filter_In. now rewrite Ep. }
        now rewrite E0 in Hin. }
    destruct (Hone k Hk') as (w & _ & Hw). exists w. split; [exact Hw|].
    assert (Hin : In w (PruneV3.main tbl)).
    { apply Hincl. apply (in_rows_of k). rewrite Hw. now left. }
    split; [|now apply Hids]. unfold PruneV3.main in Hin. now apply filter_In in Hin.
  - unfold DedupeHard.remaining. now rewrite Hd.
Qed.

(** The prune and then the pass on the history row and the blank default
    without an id: the history row alone is left. *)
Lemma prune_then_dedupe_witness :
  exists tbl',
    DedupeHard.main (PruneV3.main [Seats.history; Seats.blank_null_id]) = Some tbl'
    /\ (forall k, DedupeHard.rows_of k [Seats.history; Seats.blank_null_id] <> [] ->
                  exists w, DedupeHard.rows_of k tbl' = [w]
                            /\ In w [Seats.history; Seats.blank_null_id]
                            /\ seat_record_id w <> None)
    /\ DedupeHard.remaining tbl' = 0%nat.
Proof.
  apply (prune_then_dedupe [Seats.history; Seats.blank_null_id]).
  - apply (unique_ids_two _ _
             "WEEK_2025-12-04_to_2025-12-10__D0__DAY__PRIMARY__AMB120__ATTENDANT");
      reflexivity.
  - intros r [<-|[<-|[]]] E; [discriminate E | split; reflexivity].
Defined.

(** ** The radar's report *)

(** A status other than GREEN always comes with a reason and GREEN with
    none, in both versions of the radar; the status is RED exactly when a
    pool is empty; and no report gives more than two reasons. *)
Theorem radar_report_explains :
  (forall people ops_rows allow wk s,
      let v := RadarV2.evaluate people ops_rows allow wk s in
      (RadarV2.v_status v = GREEN <-> RadarV2.v_reasons v = [])
      /\ (RadarV2.v_status v = RED
          <-> RadarV2.v_att_pool v = [] \/ RadarV2.v_drv_pool v = [])
      /\ (List.length (RadarV2.v_reasons v) <= 2)%nat)
  /\ (forall cols people ops_rows allow override staffed,
      let r := RadarV1.evaluate cols people ops_rows allow override staffed in
      (fst r = GREEN <-> snd r = [])
      /\ (fst r = RED
          <-> RadarV1.attendant_pool cols people = []
              \/ RadarV1.driver_pool cols people ops_rows allow
                   (Py.or_opt override staffed) = [])
      /\ (List.length (snd r) <= 2)%nat).
Proof.
  split.
  - intros people ops_rows allow wk s v.
    destruct (evaluate_pools people ops_rows allow wk s) as (_ & Ea & _ & Ed).
    pose proof (evaluate_cases people ops_rows allow wk s) as C. cbv zeta in C.
    fold v in Ea, Ed, C. rewrite Ea, Ed.
    destruct (RadarV2.eligible_attendant_pool people) as [|a [|a' l]];
      destruct (RadarV2.eligible_driver_pool people ops_rows allow _) as [|d [|d' l']];
      try (destruct (filter _ _) as [|x lx]); destruct C as [C1 C2]; rewrite C1, C2;
      (split; [|split]); simpl; try lia;
      split; intros H; try discriminate H; try reflexivity; auto;
      destruct H as [H|H]; discriminate H.
  - intros cols people ops_rows allow override staffed r.
    pose proof (evaluate_v1_cases cols people ops_rows allow override staffed) as C.
    cbv zeta in C. fold r in C.
    destruct (RadarV1.attendant_pool cols people) as [|a [|a' l]];
      destruct (RadarV1.driver_pool cols people ops_rows allow _) as [|d [|d' l']];
      try (destruct (filter _ _) as [|x lx]); rewrite C;
      (split; [|split]); simpl; try lia;
      split; intros H; try discriminate H; try reflexivity; auto;
      destruct H as [H|H]; discriminate H.
Qed.

Lemma filter_length_mono {A : Type} (p q : A -> bool) (l : list A) :
  (forall x, p x = true -> q x = true) ->
  (List.length (filter p l) <= List.length (filter q l))%nat.
Proof.
  intros H. induction l as [|x l IH]; simpl; [lia|].
  destruct (p x) eqn:Ep.
  - rewrite (H x Ep). simpl. lia.
  - destruct (q x); simpl; lia.
Qed.

(** Counting drivers without a medical certification never makes a shift
    look worse: with the flag the driver pool only grows, and the status is
    at most as severe as without it, in both versions of the radar. *)
Theorem nonmedical_drivers_never_hurt :
  (forall people ops_rows wk s,
      (List.length (RadarV2.v_drv_pool (RadarV2.evaluate people ops_rows false wk s))
       <= List.length (RadarV2.v_drv_pool (RadarV2.evaluate people ops_rows true wk s)))%nat
      /\ (severity (RadarV2.v_status (RadarV2.evaluate people ops_rows true wk s))
          <= severity (RadarV2.v_status (RadarV2.evaluate people ops_rows false wk s)))%nat)
  /\ (forall cols people ops_rows override staffed,
      (severity (fst (RadarV1.evaluate cols people ops_rows true override staffed))
       <= severity (fst (RadarV1.evaluate cols people ops_rows false override staffed)))%nat).
Proof.
  split.
  - intros people ops_rows wk s.
    destruct (evaluate_pools people ops_rows true wk s) as (_ & _ & _ & Edt).
    destruct (evaluate_pools people ops_rows false wk s) as (_ & _ & _ & Edf).
    pose proof (evaluate_cases people ops_rows true wk s) as Ct.
    pose proof (evaluate_cases people ops_rows false wk s) as Cf.
    cbv zeta in Ct, Cf, Edt, Edf. rewrite Edt, Edf.
    assert (Hlen : (List.length (RadarV2.eligible_driver_pool people ops_rows false
                                   (RadarV2.effective_unit wk s))
                    <= List.length (RadarV2.eligible_driver_pool people ops_rows true
                                      (RadarV2.effective_unit wk s)))%nat).
    { unfold RadarV2.eligible_driver_pool. apply filter_length_mono. intros x Hx.
      apply andb_true_iff in Hx. destruct Hx as [Hx _]. now rewrite Hx. }
    split; [exact Hlen|].
    destruct (RadarV2.eligible_attendant_pool people) as [|a [|a' l]];
      destruct (RadarV2.eligible_driver_pool people ops_rows true _) as [|d [|d' l']];
      destruct (RadarV2.eligible_driver_pool people ops_rows false _) as [|e [|e' l'']];
      try (destruct (filter _ _) as [|x lx]);
      simpl in Hlen; try lia;
      destruct Ct as [Ct _], Cf as [Cf _]; rewrite Ct, Cf; simpl; lia.
  - intros cols people ops_rows override staffed.
    pose proof (evaluate_v1_cases cols people ops_rows true override staffed) as Ct.
    pose proof (evaluate_v1_cases cols people ops_rows false override staffed) as Cf.
    cbv zeta in Ct, Cf.
    assert (Hlen : (List.length (RadarV1.driver_pool cols people ops_rows false
                                   (Py.or_opt override staffed))
                    <= List.length (RadarV1.driver_pool cols people ops_rows true
                                      (Py.or_opt override staffed)))%nat).
    { unfold RadarV1.driver_pool. apply filter_length_mono. intros x Hx.
      now apply andb_true_iff in Hx. }
    destruct (RadarV1.attendant_pool cols people) as [|a [|a' l]];
      destruct (RadarV1.driver_pool cols people ops_rows true _) as [|d [|d' l']];
      destruct (RadarV1.driver_pool cols people ops_rows false _) as [|e [|e' l'']];
      try (destruct (filter _ _) as [|x lx]);
      simpl in Hlen; try lia;
      rewrite Ct, Cf; simpl; lia.
Qed.

(** ** Upserts *)

Section UpsertFacts.

Context {A : Type}.
Variable key : A -> string.

Local Abbreviation ioi := (Upsert.insert_or_ignore key).
Local Abbreviation ow := (Upsert.overwrite key).
Local Abbreviation lw := (Upsert.last_writer key).

Lemma overwrite_key (r s : A) : key (ow r s) = key s.
Proof.
  unfold Upsert.overwrite. destruct (String.eqb_spec (key s) (key r)); congruence.
Qed.

Lemma last_writer_key (rs : list A) (s : A) : key (lw rs s) = key s.
Proof.
  revert s. induction rs as [|r rs IH]; intros s; [reflexivity|].
  unfold Upsert.last_writer in *. simpl. rewrite IH. apply overwrite_key.
Qed.

Lemma has_key_map (f : A -> A) (t : list A) (k : string) :
  (forall s, key (f s) = key s) ->
  existsb (fun x => key x =? k) (map f t) = existsb (fun x => key x =? k) t.
Proof.
  intros Hf. induction t as [|x t IH]; [reflexivity|]. simpl. now rewrite Hf, IH.
Qed.

Lemma ioi_has (t : list A) (r : A) : existsb (fun x => key x =? key r) (ioi t r) = true.
Proof.
  unfold Upsert.insert_or_ignore.
  destruct (existsb (fun x => key x =? key r) t) eqn:E; [exact E|].
  rewrite existsb_app. simpl. now rewrite String.eqb_refl, orb_true_r.
Qed.

Lemma ioi_keeps (t : list A) (r : A) (k : string) :
  existsb (fun x => key x =? k) t = true ->
  existsb (fun x => key x =? k) (ioi t r) = true.
Proof.
  intros H. unfold Upsert.insert_or_ignore.
  destruct (existsb (fun x => key x =? key r) t); [exact H|].
  rewrite existsb_app, H. reflexivity.
Qed.

Lemma fold_ioi_keeps (rs : list A) (t : list A) (k : string) :
  existsb (fun x => key x =? k) t = true ->
  existsb (fun x => key x =? k) (fold_left ioi rs t) = true.
Proof.
  revert t. induction rs as [|r rs IH]; intros t H; [exact H|].
  simpl. apply IH. now apply ioi_keeps.
Qed.

(** A write to a key that is there commutes with the inserts that follow. *)
Lemma fold_ioi_overwrite (rs : list A) (r : A) (t : list A) :
  existsb (fun x => key x =? key r) t = true ->
  fold_left ioi rs (map (ow r) t) = map (ow r) (fold_left ioi rs t).
Proof.
  revert t. induction rs as [|r' rs IH]; intros t Hr; [reflexivity|].
  simpl.
  assert (E : ioi (map (ow r) t) r' = map (ow r) (ioi t r')).
  { unfold Upsert.insert_or_ignore. rewrite (has_key_map (ow r) t (key r') (overwrite_key r)).
    destruct (existsb (fun x => key x =? key r') t) eqn:E'; [reflexivity|].
    rewrite map_app. simpl. f_equal. f_equal. unfold Upsert.overwrite.
    destruct (String.eqb_spec (key r') (key r)) as [Ek|]; [|reflexivity].
    rewrite Ek in E'. congruence. }
  rewrite E. apply IH. now apply ioi_keeps.
Qed.

(** A sequence of upserts is the sequence of its inserts followed by its
    writes. *)
Lemma fold_upsert (rs : list A) (t : list A) :
  fold_left (Upsert.upsert key) rs t = map (lw rs) (fold_left ioi rs t).
Proof.
  revert t. induction rs as [|r rs IH]; intros t.
  - simpl. symmetry. apply map_id.
  - simpl. rewrite IH. unfold Upsert.upsert at 1.
    rewrite (fold_ioi_overwrite rs r (ioi t r) (ioi_has t r)).
    rewrite map_map. reflexivity.
Qed.

Lemma fold_ioi_present (rs : list A) (t : list A) :
  (forall r, In r rs -> existsb (fun x => key x =? key r) t = true) ->
  fold_left ioi rs t = t.
Proof.
  revert t. induction rs as [|r rs IH]; intros t H; [reflexivity|].
  simpl. unfold Upsert.insert_or_ignore at 2. rewrite (H r (or_introl eq_refl)).
  apply IH. intros r' Hr'. apply H. now right.
Qed.

Lemma fold_ioi_has (rs : list A) (t : list A) (r : A) :
  In r rs -> existsb (fun x => key x =? key r) (fold_left ioi rs t) = true.
Proof.
  revert t. induction rs as [|r' rs IH]; intros t Hr; [contradiction|].
  simpl. destruct Hr as [->|Hr]; [|now apply IH].
  apply fold_ioi_keeps. apply ioi_has.
Qed.

Lemma last_writer_app (rs : list A) (r s : A) : lw (rs ++ [r]) s = ow r (lw rs s).
Proof. unfold Upsert.last_writer. now rewrite fold_left_app. Qed.

Lemma last_writer_twice (rs : list A) (s : A) : lw rs (lw rs s) = lw rs s.
Proof.
  revert s. induction rs as [|r rs IH] using rev_ind; intros s; [reflexivity|].
  rewrite !last_writer_app.
  destruct (String.eqb_spec (key (lw rs s)) (key r)) as [E|N].
  - assert (E1 : ow r (lw rs s) = r)
      by (unfold Upsert.overwrite; now rewrite E, String.eqb_refl).
    rewrite E1. unfold Upsert.overwrite. now rewrite last_writer_key, String.eqb_refl.
  - assert (E1 : ow r (lw rs s) = lw rs s).
    { unfold Upsert.overwrite.
      destruct (String.eqb_spec (key (lw rs s)) (key r)); [contradiction | reflexivity]. }
    rewrite E1, IH. exact E1.
Qed.

(** Upserting the same rows again changes nothing. *)
Lemma fold_upsert_twice (rs : list A) (t : list A) :
  fold_left (Upsert.upsert key) rs (fold_left (Upsert.upsert key) rs t)
  = fold_left (Upsert.upsert key) rs t.
Proof.
  rewrite !fold_upsert.
  rewrite (fold_ioi_present rs (map (lw rs) (fold_left ioi rs t))).
  - rewrite map_map. apply map_ext. intros s. apply last_writer_twice.
  - intros r Hr. rewrite (has_key_map _ _ _ (last_writer_key rs)).
    now apply fold_ioi_has.
Qed.

Lemma upsert_has (t : list A) (r : A) :
  existsb (fun x => key x =? key r) (Upsert.upsert key t r) = true.
Proof.
  unfold Upsert.upsert. rewrite (has_key_map _ _ _ (overwrite_key r)). apply ioi_has.
Qed.

End UpsertFacts.

(** ** The history import *)

Section ImportFacts.

Import Importer ImportTables.

Lemma shift_row_slot (d : Cal.date) (sl : string) : slot (shift_row d sl) = sl.
Proof. unfold shift_row, shift_id_for. destruct (sl =? "DAY"); reflexivity. Qed.

Lemma shift_row_id (d : Cal.date) (sl : string) :
  shift_id (shift_row d sl) = fst (shift_id_for d sl).
Proof. unfold shift_row, shift_id_for. destruct (sl =? "DAY"); reflexivity. Qed.

Lemma ensure_shift_upsert (conn : DB) (d : Cal.date) (sl : string) :
  ensure_shift conn d sl
  = with_shifts conn (Upsert.upsert shift_id (sc_shifts conn) (shift_row d sl)).
Proof.
  unfold ensure_shift, Upsert.upsert, Upsert.insert_or_ignore. cbv zeta. f_equal.
  apply map_ext. intros s. unfold Upsert.overwrite.
  destruct (String.eqb_spec (shift_id s) (shift_id (shift_row d sl))) as [E|]; [|reflexivity].
  pose proof (shift_row_slot d sl) as Hs. revert E Hs.
  generalize (shift_row d sl). intros [i w a b l n sl'] E Hs. simpl in *. now subst.
Qed.

Lemma ensure_week_insert (conn : DB) (d : Cal.date) :
  ImportHistory.ensure_week conn d
  = with_weeks conn
      (Sql.insert_if_missing EnsureWeeks.same_week (sc_weeks conn) (week_row d)).
Proof.
  unfold ImportHistory.ensure_week, Sql.insert_if_missing, Sql.has_row,
    EnsureWeeks.same_week, week_row. cbv zeta. simpl.
  destruct (existsb _ (sc_weeks conn)); [|reflexivity].
  symmetry. apply with_weeks_same.
Qed.

Lemma insert_or_replace_app (a b : list SeatRecord) (r : SeatRecord) :
  insert_or_replace (a ++ b) r
  = filter (untouched [r]) a ++ insert_or_replace b r.
Proof.
  unfold insert_or_replace. rewrite filter_app, <- app_assoc. f_equal.
  apply filter_ext. intros x. unfold untouched. simpl. now rewrite orb_false_r.
Qed.

Lemma fold_replace_app (rs : list SeatRecord) (a b : list SeatRecord) :
  fold_left insert_or_replace rs (a ++ b)
  = filter (untouched rs) a ++ fold_left insert_or_replace rs b.
Proof.
  revert a b. induction rs as [|r rs IH]; intros a b.
  - simpl. f_equal. symmetry. now apply filter_all.
  - simpl. rewrite insert_or_replace_app, IH. f_equal.
    rewrite filter_filter. apply filter_ext. intros x. unfold untouched. simpl.
    now rewrite orb_false_r, negb_orb.
Qed.

Lemma fold_replace (rs : list SeatRecord) (t : list SeatRecord) :
  fold_left insert_or_replace rs t
  = filter (untouched rs) t ++ fold_left insert_or_replace rs [].
Proof.
  rewrite <- (app_nil_r t) at 1. apply fold_replace_app.
Qed.

Lemma fold_replace_rows (rs : list SeatRecord) (t : list SeatRecord) (x : SeatRecord) :
  In x (fold_left insert_or_replace rs t) -> In x t \/ In x rs.
Proof.
  revert t. induction rs as [|r rs IH]; intros t Hx; [now left|].
  simpl in Hx. apply IH in Hx. destruct Hx as [Hx|Hx]; [|right; now right].
  unfold insert_or_replace in Hx. apply in_app_or in Hx.
  destruct Hx as [Hx|[<-|[]]]; [left | right; now left].
  now apply filter_In in Hx.
Qed.

(** Replacing by the same rows again changes nothing, when they carry an
    id. *)
Lemma fold_replace_twice (rs : list SeatRecord) (t : list SeatRecord) :
  (forall r, In r rs -> seat_record_id r <> None) ->
  fold_left insert_or_replace rs (fold_left insert_or_replace rs t)
  = fold_left insert_or_replace rs t.
Proof.
  intros Hid.
  assert (E1 : fold_left insert_or_replace rs t
               = filter (untouched rs) t ++ fold_left insert_or_replace rs [])
    by apply fold_replace.
  assert (E2 : fold_left insert_or_replace rs (fold_left insert_or_replace rs [])
               = fold_left insert_or_replace rs []).
  { rewrite (fold_replace rs (fold_left insert_or_replace rs [])).
    rewrite (filter_none (untouched rs) (fold_left insert_or_replace rs [])); [reflexivity|].
    intros x Hx. apply fold_replace_rows in Hx. destruct Hx as [[]|Hx].
    unfold untouched. apply negb_false_iff. apply existsb_exists. exists x.
    split; [exact Hx|]. specialize (Hid x Hx). unfold Sql.eq_null.
    destruct (seat_record_id x); [apply String.eqb_refl | contradiction]. }
  rewrite E1, fold_replace_app, E2. f_equal.
  apply filter_all. intros x Hx. now apply filter_In in Hx.
Qed.

Lemma row_seats_ids (rows : list CsvRow) (x : SeatRecord) :
  In x (flat_map row_seats rows) -> seat_record_id x <> None.
Proof.
  intros Hx. apply in_flat_map in Hx. destruct Hx as (r & _ & Hx).
  unfold row_seats in Hx. apply in_app_or in Hx.
  destruct Hx as [Hx|Hx];
    match type of Hx with In _ (if ?c then _ else _) => destruct c end;
    simpl in Hx; try contradiction; destruct Hx as [<-|[]]; discriminate.
Qed.

(** One row of the file, table by table. *)
Lemma import_row_tables (conn : DB) (r : CsvRow) :
  import_row conn r
  = if slot_ok r
    then Some (mk_db (weeks_after [r] (sc_weeks conn)) (shifts_after [r] (sc_shifts conn))
                     (sc_shift_config conn) (seats_after [r] (sc_seat_records conn)))
    else None.
Proof.
  unfold import_row, slot_ok. cbv zeta.
  destruct (Py.in_tuple (slot_of r) ["DAY"; "NIGHT"]); [|reflexivity]. cbn [negb].
  rewrite ensure_week_insert, ensure_shift_upsert.
  unfold upsert_seat, weeks_after, shifts_after, seats_after, row_seats.
  cbn [map fold_left flat_map]. rewrite app_nil_r.
  destruct conn as [W S C R]. unfold with_weeks, with_shifts, with_seats.
  cbn [sc_weeks sc_shifts sc_shift_config sc_seat_records].
  pose proof (upsert_has shift_id S (shift_row (c_date r) (slot_of r))) as Hs.
  rewrite shift_row_id in Hs.
  destruct (negb (Py.strip (Py.or_empty (c_attendant r)) =? ""));
    destruct (negb (Py.strip (Py.or_empty (c_driver r)) =? ""));
    repeat (cbn [sc_shifts sc_seat_records sc_weeks sc_shift_config app fold_left];
            try rewrite Hs);
    reflexivity.
Qed.

Lemma import_rows_tables (rows : list CsvRow) (conn : DB) :
  import_rows conn rows
  = if forallb slot_ok rows
    then Some (mk_db (weeks_after rows (sc_weeks conn)) (shifts_after rows (sc_shifts conn))
                     (sc_shift_config conn) (seats_after rows (sc_seat_records conn)))
    else None.
Proof.
  revert conn. induction rows as [|r rows IH]; intros conn.
  - now destruct conn.
  - cbn [import_rows forallb]. rewrite import_row_tables.
    destruct (slot_ok r); [|reflexivity]. cbn [andb]. rewrite IH.
    destruct (forallb slot_ok rows); [|reflexivity].
    unfold weeks_after, shifts_after, seats_after.
    cbn [sc_weeks sc_shifts sc_shift_config sc_seat_records map flat_map fold_left].
    rewrite app_nil_r, fold_left_app. reflexivity.
Qed.

Lemma weeks_after_twice (rows : list CsvRow) (t : list Week) :
  weeks_after rows (weeks_after rows t) = weeks_after rows t.
Proof.
  unfold weeks_after. apply insert_missing_present. intros w Hw.
  apply insert_missing_has; [|exact Hw].
  intros x _. unfold EnsureWeeks.same_week. apply String.eqb_refl.
Qed.

End ImportFacts.

(** On a file whose dates are valid, the import stops with an error exactly
    when a row of the file has a slot other than DAY or NIGHT (after
    stripping and upper-casing): the exit of [upsert_seat] for a shift that is
    missing is never taken, since the shift is ensured first. *)
Theorem import_fails_on_bad_slot_only (conn : DB) (rows : list Importer.CsvRow) :
  (forall r, In r rows -> Importer.valid_date (Importer.c_date r)) ->
  (Importer.import_rows conn rows = None
   <-> exists r, In r rows /\ Importer.slot_of r <> "DAY"
                 /\ Importer.slot_of r <> "NIGHT").
Proof.
  intros _. rewrite import_rows_tables.
  destruct (forallb ImportTables.slot_ok rows) eqn:E.
  - split; [discriminate|]. intros (r & Hr & Hd & Hn).
    rewrite forallb_forall in E. specialize (E r Hr).
    unfold ImportTables.slot_ok in E. apply in_tuple_In in E.
    destruct E as [E|[E|[]]]; congruence.
  - split; [intros _|reflexivity].
    assert (H : exists r, In r rows /\ ImportTables.slot_ok r = false).
    { induction rows as [|r rows IH]; [discriminate|]. simpl in E.
      destruct (ImportTables.slot_ok r) eqn:Er.
      - destruct (IH E) as (x & Hx & Ex). exists x. split; [now right | exact Ex].
      - exists r. split; [now left | exact Er]. }
    destruct H as (r & Hr & Er). exists r. split; [exact Hr|].
    unfold ImportTables.slot_ok in Er.
    split; intros Es; rewrite Es in Er; discriminate.
Qed.

(** A file with a line that has no slot is refused. *)
Lemma import_fails_on_bad_slot_only_witness :
  exists r, In r [CsvExamples.fire_day; CsvExamples.no_slot]
            /\ Importer.slot_of r <> "DAY" /\ Importer.slot_of r <> "NIGHT".
Proof.
  assert (Hv : forall r, In r [CsvExamples.fire_day; CsvExamples.no_slot] ->
                         Importer.valid_date (Importer.c_date r)).
  { intros r [<-|[<-|[]]]; vm_compute; split; discriminate. }
  apply (proj1 (import_fails_on_bad_slot_only empty_db
                  [CsvExamples.fire_day; CsvExamples.no_slot] Hv)).
  reflexivity.
Defined.

(** Importing the same file again changes nothing: the import of a file
    with valid dates that succeeded, run on its own result, returns that
    database. *)
Theorem import_rerun_changes_nothing (conn conn' : DB) (rows : list Importer.CsvRow) :
  (forall r, In r rows -> Importer.valid_date (Importer.c_date r)) ->
  Importer.import_rows conn rows = Some conn' ->
  Importer.import_rows conn' rows = Some conn'.
Proof.
  intros _. rewrite !import_rows_tables. destruct (forallb ImportTables.slot_ok rows); [|discriminate].
  intros E. injection E as <-.
  cbn [sc_weeks sc_shifts sc_shift_config sc_seat_records].
  rewrite weeks_after_twice.
  unfold ImportTables.shifts_after, ImportTables.seats_after.
  rewrite fold_upsert_twice, fold_replace_twice by apply row_seats_ids.
  reflexivity.
Qed.

(** Two rows imported into an empty database, and imported again. *)
Lemma import_rerun_changes_nothing_witness :
  exists conn',
    Importer.import_rows empty_db [CsvExamples.fire_day; CsvExamples.sat_night] = Some conn'
    /\ Importer.import_rows conn' [CsvExamples.fire_day; CsvExamples.sat_night] = Some conn'.
Proof.
  assert (Hv : forall r, In r [CsvExamples.fire_day; CsvExamples.sat_night] ->
                         Importer.valid_date (Importer.c_date r)).
  { intros r [<-|[<-|[]]]; vm_compute; split; discriminate. }
  destruct (Importer.import_rows empty_db [CsvExamples.fire_day; CsvExamples.sat_night])
    as [c|] eqn:E.
  - exists c. split; [reflexivity|].
    apply (import_rerun_changes_nothing empty_db c _ Hv E).
  - vm_compute in E. discriminate.
Defined.

(** ** The week of a date *)

Lemma week_start_thu_bounds (d : Cal.date) :
  let s := ImportHistory.week_start_thu d in
  Cal.weekday s = 3 /\ s <= d <= s + 6.
Proof.
  unfold ImportHistory.week_start_thu, Cal.weekday. cbv zeta.
  Z.to_euclidean_division_equations. lia.
Qed.

Lemma week_start_thu_of_thursday (s k : Z) :
  Cal.weekday s = 3 -> 0 <= k <= 6 -> ImportHistory.week_start_thu (s + k) = s.
Proof.
  unfold ImportHistory.week_start_thu, Cal.weekday. cbv zeta. intros Hs Hk.
  Z.to_euclidean_division_equations. lia.
Qed.

(** The week of a date starts on the Thursday on or before it, for a date
    at least six days from [date.min] and [date.max]: the start is a
    Thursday, a date, at most six days back; the day index of the shift id
    is the distance to it; and every date from that Thursday to the next
    Wednesday has the same start and the same week id. *)
Theorem week_start_thursday (d : Cal.date) (slot : string) :
  Cal.MINORDINAL + 6 <= d -> d + 6 <= Cal.MAXORDINAL ->
  let s := ImportHistory.week_start_thu d in
  Cal.weekday s = 3
  /\ Cal.MINORDINAL <= s /\ s <= d <= s + 6
  /\ snd (Importer.shift_id_for d slot) = d - s
  /\ 0 <= snd (Importer.shift_id_for d slot) <= 6
  /\ (forall e, s <= e <= s + 6 ->
                ImportHistory.week_start_thu e = s
                /\ ImportHistory.week_id_for e = ImportHistory.week_id_for d).
Proof.
  intros Hd _ s. destruct (week_start_thu_bounds d) as (Hw & Hs). fold s in Hw, Hs.
  unfold Cal.MINORDINAL in *.
  assert (He : forall e, s <= e <= s + 6 -> ImportHistory.week_start_thu e = s).
  { intros e Hse. replace e with (s + (e - s)) by lia.
    apply week_start_thu_of_thursday; [exact Hw | lia]. }
  repeat split; try lia; try reflexivity.
  - unfold Importer.shift_id_for. cbn [snd]. fold s. lia.
  - unfold Importer.shift_id_for. cbn [snd]. fold s. lia.
  - now apply He.
  - unfold ImportHistory.week_id_for. rewrite (He e H). reflexivity.
Qed.

(** Monday 2025-12-08 belongs to the week of Thursday 2025-12-04. *)
Lemma week_start_thursday_witness :
  ImportHistory.week_start_thu (Examples.thu_2025_12_04 + 4) = Examples.thu_2025_12_04
  /\ snd (Importer.shift_id_for (Examples.thu_2025_12_04 + 4) "DAY") = 4.
Proof.
  assert (Hd : Cal.MINORDINAL + 6 <= Examples.thu_2025_12_04 + 4) by (vm_compute; discriminate).
  assert (Hm : Examples.thu_2025_12_04 + 4 + 6 <= Cal.MAXORDINAL)
    by (vm_compute; discriminate).
  destruct (week_start_thursday (Examples.thu_2025_12_04 + 4) "DAY" Hd Hm)
    as (_ & _ & _ & Hi & _).
  split; [reflexivity|]. rewrite Hi. reflexivity.
Defined.

(** The importer writes into the week the generators create: for a date of
    the week that starts on the Thursday [s], a valid start, it uses the generator's week id
    and week row (with AMB120 first out), the generator's shift ids, times,
    day index and slot, with a label that lacks the hours, and for a seat the
    generator's id of the PRIMARY seat, so that the imported seat replaces
    that row. *)
Theorem import_attaches_to_generated_week (s k : Z) :
  Cal.valid_start s -> Cal.weekday s = 3 -> 0 <= k <= 6 ->
  let wid := EnsureWeeks.week_id_for s in
  let day := EnsureWeeks.day_shift wid s k in
  let night := EnsureWeeks.night_shift wid s k in
  ImportHistory.week_id_for (s + k) = wid
  /\ ImportTables.week_row (s + k) = EnsureWeeks.new_week s ImportHistory.DEFAULT_UNIT
  /\ Importer.shift_row (s + k) "DAY"
     = mk_shift (shift_id day) (s_week_id day) (shift_start day) (shift_end day)
                (Cal.strftime_a_md (s + k) ++ " DAY")%string (day_index day) (slot day)
  /\ label day = (Cal.strftime_a_md (s + k) ++ " DAY (06-18)")%string
  /\ Importer.shift_row (s + k) "NIGHT"
     = mk_shift (shift_id night) (s_week_id night) (shift_start night) (shift_end night)
                (Cal.strftime_a_md (s + k) ++ " NIGHT")%string (day_index night) (slot night)
  /\ label night = (Cal.strftime_a_md (s + k) ++ " NIGHT (18-06)")%string
  /\ (forall sid u seat name note,
         seat_record_id (Importer.seat_row sid u seat name note)
         = Some (EnsureWeeks.gen_seat_record_id sid u seat "PRIMARY")).
Proof.
  intros _ Hs Hk wid day night.
  assert (Ew : ImportHistory.week_start_thu (s + k) = s)
    by now apply week_start_thu_of_thursday.
  assert (Eid : ImportHistory.week_id_for (s + k) = wid).
  { unfold ImportHistory.week_id_for. now rewrite Ew. }
  split; [exact Eid|]. split; [|split; [|split; [|split; [|split]]]].
  - unfold ImportTables.week_row, EnsureWeeks.new_week, EnsureWeeks.lock_dt_of.
    cbv zeta. now rewrite Eid, Ew.
  - unfold Importer.shift_row, Importer.shift_id_for, Importer.dt_str. cbn [String.eqb].
    rewrite Eid, Ew. replace (s + k - s) with k by lia. reflexivity.
  - reflexivity.
  - unfold Importer.shift_row, Importer.shift_id_for, Importer.dt_str.
    rewrite Eid, Ew. replace (s + k - s) with k by lia. reflexivity.
  - reflexivity.
  - intros sid u seat name note. unfold Importer.seat_row, EnsureWeeks.gen_seat_record_id.
    reflexivity.
Qed.

(** Saturday of the week of Thursday 2025-12-04. *)
Lemma import_attaches_to_generated_week_witness :
  ImportHistory.week_id_for (Examples.thu_2025_12_04 + 2)
  = EnsureWeeks.week_id_for Examples.thu_2025_12_04
  /\ shift_id (Importer.shift_row (Examples.thu_2025_12_04 + 2) "NIGHT")
     = "WEEK_2025-12-04_to_2025-12-10__D2__NIGHT".
Proof.
  assert (Hs : Cal.weekday Examples.thu_2025_12_04 = 3) by reflexivity.
  assert (Hk : 0 <= 2 <= 6) by lia.
  assert (Hv : Cal.valid_start Examples.thu_2025_12_04)
    by (vm_compute; split; discriminate).
  destruct (import_attaches_to_generated_week Examples.thu_2025_12_04 2 Hv Hs Hk)
    as (E & _ & _ & _ & En & _).
  split; [exact E|]. rewrite En. reflexivity.
Defined.

(** ** Stripped strings and the placeholder id *)

Section Strip.

Lemma lstrip_length (s : string) : (String.length (Py.lstrip s) <= String.length s)%nat.
Proof.
  induction s as [|c t IH]; simpl; [lia|]. destruct (Py.is_space c); simpl; lia.
Qed.

Lemma lstrip_fixed_head (c : ascii) (t : string) :
  Py.lstrip (String c t) = String c t -> Py.is_space c = false.
Proof.
  simpl. destruct (Py.is_space c); [|reflexivity]. intros E.
  pose proof (lstrip_length t) as H. rewrite E in H. simpl in H. lia.
Qed.

Lemma lstrip_lstrip (s : string) : Py.lstrip (Py.lstrip s) = Py.lstrip s.
Proof.
  induction s as [|c t IH]; [reflexivity|]. simpl.
  destruct (Py.is_space c) eqn:E; [exact IH|]. simpl. now rewrite E.
Qed.

Lemma rstrip_rstrip (s : string) : Py.rstrip (Py.rstrip s) = Py.rstrip s.
Proof.
  induction s as [|c t IH]; [reflexivity|]. simpl.
  destruct (Py.rstrip t) as [|a b] eqn:E.
  - destruct (Py.is_space c) eqn:Ec; [reflexivity|]. simpl. now rewrite Ec.
  - change (Py.rstrip (String c (String a b)))
      with (match Py.rstrip (String a b) with
            | EmptyString => if Py.is_space c then EmptyString else String c EmptyString
            | t' => String c t'
            end).
    now rewrite IH.
Qed.

Lemma lstrip_rstrip (x : string) :
  Py.lstrip x = x -> Py.lstrip (Py.rstrip x) = Py.rstrip x.
Proof.
  destruct x as [|c t]; [reflexivity|]. intros E. apply lstrip_fixed_head in E.
  simpl. destruct (Py.rstrip t); [rewrite E|]; simpl; now rewrite E.
Qed.

Lemma strip_strip (s : string) : Py.strip (Py.strip s) = Py.strip s.
Proof.
  unfold Py.strip. rewrite (lstrip_rstrip (Py.lstrip s) (lstrip_lstrip s)).
  apply rstrip_rstrip.
Qed.

Lemma rstrip_cons_fixed (c : ascii) (y : string) :
  Py.rstrip y = y -> y <> "" \/ Py.is_space c = false ->
  Py.rstrip (String c y) = String c y.
Proof.
  intros E H. simpl. rewrite E. destruct y as [|a b]; [|reflexivity].
  destruct H as [H|H]; [contradiction | now rewrite H].
Qed.

Lemma rstrip_replace_spaces (x : string) :
  Py.rstrip x = x ->
  Py.rstrip (Importer.replace_spaces x) = Importer.replace_spaces x.
Proof.
  induction x as [|c t IH]; [reflexivity|]. intros E.
  assert (Ht : Py.rstrip t = t /\ (t <> "" \/ Py.is_space c = false)).
  { simpl in E. destruct (Py.rstrip t) as [|a b] eqn:Et.
    - destruct (Py.is_space c); [discriminate|]. injection E as <-. auto.
    - injection E as <-. split; [reflexivity | left; discriminate]. }
  destruct Ht as [Ht Hc]. cbn [Importer.replace_spaces].
  apply rstrip_cons_fixed; [now apply IH|].
  destruct Hc as [Hc|Hc].
  - left. destruct t; [contradiction | discriminate].
  - right. destruct (Ascii.eqb_spec c " ") as [->|_]; [reflexivity | exact Hc].
Qed.

Lemma prefix_app (p s : string) : String.prefix p (p ++ s)%string = true.
Proof.
  induction p as [|c p IH]; simpl; [now destruct s|].
  destruct (ascii_dec c c); [exact IH | contradiction].
Qed.

Lemma contains_prefix (sub s : string) :
  String.prefix sub s = true -> Py.contains sub s = true.
Proof. intros H. destruct s; cbn [Py.contains]; now rewrite H. Qed.

End Strip.

Lemma placeholder_id_truthy (name : string) :
  Py.truthy (Some (Importer.placeholder_id name)) = true.
Proof.
  assert (Hp : String.prefix "PH_" (Importer.placeholder_id name) = true).
  { unfold Importer.placeholder_id.
    destruct (String.prefix "PH_" (Py.strip name)) eqn:E; [exact E|].
    apply (prefix_app "PH_"). }
  destruct (Importer.placeholder_id name); [discriminate Hp | reflexivity].
Qed.

(** The placeholder id of the importer always starts with [PH_], and is a
    normal form: the id of a name that is an id already is that id. *)
Theorem placeholder_id_normal_form (name : string) :
  String.prefix "PH_" (Importer.placeholder_id name) = true
  /\ Importer.placeholder_id (Importer.placeholder_id name) = Importer.placeholder_id name
  /\ Py.truthy (Some (Importer.placeholder_id name)) = true.
Proof.
  assert (Hfix : forall x, Py.strip x = x -> String.prefix "PH_" x = true ->
                           Importer.placeholder_id x = x).
  { intros x Ex Hp. unfold Importer.placeholder_id. now rewrite Ex, Hp. }
  assert (Hp : String.prefix "PH_" (Importer.placeholder_id name) = true).
  { unfold Importer.placeholder_id.
    destruct (String.prefix "PH_" (Py.strip name)) eqn:E; [exact E|].
    apply (prefix_app "PH_"). }
  split; [exact Hp|]. split.
  - apply Hfix; [|exact Hp]. unfold Importer.placeholder_id.
    destruct (String.prefix "PH_" (Py.strip name)); [apply strip_strip|].
    assert (Hr : Py.rstrip (Importer.replace_spaces (Py.strip name))
                 = Importer.replace_spaces (Py.strip name)).
    { apply rstrip_replace_spaces. unfold Py.strip. apply rstrip_rstrip. }
    unfold Py.strip. change (Py.lstrip ("PH_" ++ ?x)%string) with ("PH_" ++ x)%string.
    cbn [append].
    repeat (apply rstrip_cons_fixed; [|right; reflexivity]). exact Hr.
  - destruct (Importer.placeholder_id name); [discriminate Hp | reflexivity].
Qed.

(** A seat the importer writes scores 1112 (the tag, FILLED, PLACEHOLDER
    and a placeholder id) whatever the name and the note, and so outscores
    every row without the tag. *)
Theorem imported_seat_outscores (sid u seat name : string) (note : option string) :
  let r := Importer.seat_row sid u seat name note in
  DedupeHard.score r = 1112
  /\ DedupeHard.tagged r = true
  /\ (forall x, DedupeHard.tagged x = false -> DedupeHard.score x < DedupeHard.score r).
Proof.
  intros r.
  assert (Ht : DedupeHard.tagged r = true).
  { unfold DedupeHard.tagged, r, Importer.seat_row. cbn [Schema.note Py.or_empty].
    apply contains_prefix. unfold Importer.seat_note.
    destruct (Py.truthy note && _); [apply (prefix_app DedupeHard.TAG) | reflexivity]. }
  assert (Hs : DedupeHard.score r = 1112).
  { pose proof (placeholder_id_truthy name) as Hp.
    unfold DedupeHard.score. cbv zeta. fold (DedupeHard.tagged r). rewrite Ht.
    unfold r, Importer.seat_row.
    cbn [health_status assigned_entity_type assigned_person_id assigned_placeholder_id
         Py.or_empty].
    rewrite Hp. reflexivity. }
  split; [exact Hs|]. split; [exact Ht|].
  intros x Hx. rewrite Hs. pose proof (proj2 (score_tag x) Hx). lia.
Qed.

(** ** Deterministic ids *)

Section DeterministicIds.

Import SeatTable.

Lemma ids_app (a b : list SeatRecord) : ids (a ++ b) = ids a ++ ids b.
Proof. unfold ids. apply flat_map_app. Qed.

Lemma append_row_unique (t : list SeatRecord) (r : SeatRecord) :
  unique_ids t ->
  (forall x, In x t -> Sql.eq_null (seat_record_id x) (seat_record_id r) = false) ->
  unique_ids (t ++ [r]).
Proof.
  unfold unique_ids. intros Hu Hr. rewrite ids_app, ids_cons.
  destruct (seat_record_id r) as [i|] eqn:Er; [|simpl; now rewrite app_nil_r].
  apply NoDup_app; [exact Hu | constructor; [intros [] | constructor] |].
  intros a Ha [<-|[]]. apply ids_In in Ha. destruct Ha as (x & Hx & Ex).
  specialize (Hr x Hx). rewrite Ex in Hr. simpl in Hr. now rewrite String.eqb_refl in Hr.
Qed.

Lemma append_row_keyed (t : list SeatRecord) (r : SeatRecord) :
  id_keyed t -> seat_record_id r = generated_id r -> id_keyed (t ++ [r]).
Proof.
  intros Hk Hr x Hx. apply in_app_or in Hx.
  destruct Hx as [Hx|[<-|[]]]; [now apply Hk | exact Hr].
Qed.

Lemma insert_missing_ok (rows t : list SeatRecord) :
  (forall r, In r rows -> seat_record_id r = generated_id r) ->
  unique_ids t /\ id_keyed t ->
  unique_ids (fold_left (Sql.insert_if_missing EnsureWeeks.same_seat) rows t)
  /\ id_keyed (fold_left (Sql.insert_if_missing EnsureWeeks.same_seat) rows t).
Proof.
  revert t. induction rows as [|r rows IH]; intros t Hr [Hu Hk]; [now split|].
  simpl. apply IH; [intros x Hx; apply Hr; now right|].
  unfold Sql.insert_if_missing.
  destruct (Sql.has_row EnsureWeeks.same_seat t r) eqn:E; [now split|].
  split.
  - apply append_row_unique; [exact Hu|]. intros x Hx.
    exact (proj1 (has_row_false EnsureWeeks.same_seat t r) E x Hx).
  - apply append_row_keyed; [exact Hk|]. apply Hr. now left.
Qed.

Lemma seat_rows_generated (units : list string) (sid su : string) (r : SeatRecord) :
  In r (EnsureWeeks.seat_rows units sid su) -> seat_record_id r = generated_id r.
Proof.
  unfold EnsureWeeks.seat_rows. intros Hr.
  apply in_flat_map in Hr. destruct Hr as (l & _ & Hr).
  apply in_flat_map in Hr. destruct Hr as (u & _ & Hr).
  apply in_map_iff in Hr. destruct Hr as (seat & <- & _). reflexivity.
Qed.

Lemma steps_ok (units : list string) (first_out : string) (sids : list string)
    (t : list ShiftConfig * list SeatRecord) :
  unique_ids (snd t) /\ id_keyed (snd t) ->
  unique_ids (snd (fold_left (EnsureWeeks.cfg_seats_step units first_out) sids t))
  /\ id_keyed (snd (fold_left (EnsureWeeks.cfg_seats_step units first_out) sids t)).
Proof.
  revert t. induction sids as [|sid sids IH]; intros t H; [exact H|].
  simpl. apply IH. unfold EnsureWeeks.cfg_seats_step. cbn [snd].
  apply insert_missing_ok; [|exact H]. intros r. apply seat_rows_generated.
Qed.

Lemma replace_ok (rows t : list SeatRecord) :
  (forall r, In r rows -> seat_record_id r = generated_id r) ->
  unique_ids t /\ id_keyed t ->
  unique_ids (fold_left Importer.insert_or_replace rows t)
  /\ id_keyed (fold_left Importer.insert_or_replace rows t).
Proof.
  revert t. induction rows as [|r rows IH]; intros t Hr [Hu Hk]; [now split|].
  simpl. apply IH; [intros x Hx; apply Hr; now right|].
  unfold Importer.insert_or_replace. split.
  - apply append_row_unique; [now apply ids_filter|]. intros x Hx.
    apply filter_In in Hx. destruct Hx as [_ Hx]. now apply negb_true_iff in Hx.
  - apply append_row_keyed; [|apply Hr; now left].
    intros x Hx. apply filter_In in Hx. now apply Hk.
Qed.

Lemma row_seats_generated (rows : list Importer.CsvRow) (x : SeatRecord) :
  In x (flat_map ImportTables.row_seats rows) -> seat_record_id x = generated_id x.
Proof.
  intros Hx. apply in_flat_map in Hx. destruct Hx as (r & _ & Hx).
  unfold ImportTables.row_seats in Hx. apply in_app_or in Hx.
  destruct Hx as [Hx|Hx];
    match type of Hx with In _ (if ?c then _ else _) => destruct c end;
    simpl in Hx; try contradiction; destruct Hx as [<-|[]]; reflexivity.
Qed.

Lemma keyed_no_duplicates (t : list SeatRecord) :
  unique_ids t -> id_keyed t -> DedupeHard.dups t = [].
Proof.
  intros Hu Hk. unfold DedupeHard.dups. apply filter_none. intros g _.
  apply Nat.ltb_ge.
  pose proof (ids_filter (fun r => key_eqb (key_of r) g) t Hu) as Hg.
  fold (DedupeHard.rows_of g t) in Hg.
  destruct (DedupeHard.rows_of g t) as [|x [|y l]] eqn:E; simpl; try lia.
  exfalso.
  assert (Hx : In x t /\ key_of x = g) by (apply in_rows_of; rewrite E; now left).
  assert (Hy : In y t /\ key_of y = g) by (apply in_rows_of; rewrite E; right; now left).
  destruct Hx as [Hx Kx], Hy as [Hy Ky].
  unfold unique_ids in Hg. rewrite !ids_cons, (Hk x Hx), (Hk y Hy) in Hg.
  assert (Eg : generated_id x = generated_id y).
  { unfold generated_id. unfold key_of in Kx, Ky. rewrite <- Ky in Kx.
    injection Kx as E1 E2 E3 E4. now rewrite E1, E2, E3, E4. }
  rewrite Eg in Hg. unfold generated_id in Hg.
  inversion Hg as [|? ? Hn _]; subst. apply Hn. now left.
Qed.

End DeterministicIds.

(** Deterministic ids keep the seat keys unique.  On a seat table in which
    no id occurs twice and every row is stored under the id made of its seat
    key, the week generator and the history import leave such a table again,
    whatever valid dates they are run on and in whatever order; such a table has no
    duplicate seat key, and the de-dupe pass returns it as it is. *)
Theorem deterministic_ids_prevent_duplicates (units : list string) (conn : DB)
    (start : Cal.date) (first_out : string) (rows : list Importer.CsvRow) :
  Cal.valid_start start ->
  (forall r, In r rows -> Importer.valid_date (Importer.c_date r)) ->
  SeatTable.unique_ids (sc_seat_records conn) ->
  SeatTable.id_keyed (sc_seat_records conn) ->
  (let conn' := EnsureWeeks.ensure_week units conn start first_out in
   SeatTable.unique_ids (sc_seat_records conn')
   /\ SeatTable.id_keyed (sc_seat_records conn'))
  /\ (forall conn', Importer.import_rows conn rows = Some conn' ->
        SeatTable.unique_ids (sc_seat_records conn')
        /\ SeatTable.id_keyed (sc_seat_records conn'))
  /\ DedupeHard.dups (sc_seat_records conn) = []
  /\ DedupeHard.main (sc_seat_records conn) = Some (sc_seat_records conn).
Proof.
  intros _ _ Hu Hk. split; [|split; [|split]].
  - cbv zeta. pose proof (ensure_week_tables units first_out conn start) as E.
    cbv zeta in E. rewrite E. cbn [sc_seat_records].
    apply (steps_ok units first_out _ (sc_shift_config conn, sc_seat_records conn)).
    split; assumption.
  - intros conn' E. rewrite import_rows_tables in E.
    destruct (forallb ImportTables.slot_ok rows); [|discriminate]. injection E as <-.
    cbn [sc_seat_records]. unfold ImportTables.seats_after.
    apply replace_ok; [apply row_seats_generated | now split].
  - now apply keyed_no_duplicates.
  - unfold DedupeHard.main. now rewrite keyed_no_duplicates.
Qed.

(** From an empty database: the seat records of a generated week have
    distinct ids, each one the generated id of its row. *)
Lemma deterministic_ids_prevent_duplicates_witness :
  let conn := EnsureWeeks.ensure_week EnsureWeeks.UNITS empty_db
                Examples.thu_2025_12_04 "AMB120" in
  SeatTable.unique_ids (sc_seat_records conn)
  /\ SeatTable.id_keyed (sc_seat_records conn).
Proof.
  assert (Hu : SeatTable.unique_ids (sc_seat_records empty_db)) by constructor.
  assert (Hk : SeatTable.id_keyed (sc_seat_records empty_db)) by (intros r []).
  assert (Hv : Cal.valid_start Examples.thu_2025_12_04)
    by (vm_compute; split; discriminate).
  assert (Hr : forall r, In r (@nil Importer.CsvRow) ->
                         Importer.valid_date (Importer.c_date r)) by (intros r []).
  destruct (deterministic_ids_prevent_duplicates EnsureWeeks.UNITS empty_db
              Examples.thu_2025_12_04 "AMB120" [] Hv Hr Hu Hk) as (H & _).
  exact H.
Defined.

(** ** Rotations one after the other *)

Lemma apply_tow_tables (conn : DB) (start : Cal.date) (tow : string) :
  EnsureWeeks.apply_tow conn start tow
  = mk_db
      (map (fun w => if week_id w =? EnsureWeeks.week_id_for start
                     then set_first_out tow w else w) (sc_weeks conn))
      (sc_shifts conn)
      (map (fun c => if Py.in_tuple (c_shift_id c)
                          (shift_ids_of_week conn (EnsureWeeks.week_id_for start))
                     then set_staffed tow c else c) (sc_shift_config conn))
      (sc_seat_records conn).
Proof.
  unfold EnsureWeeks.apply_tow. cbv zeta. rewrite update_cfg_loop. reflexivity.
Qed.

(** The last rotation of a week (with a valid start) wins: a rotation to
    [b] after one to [a]
    leaves what the rotation to [b] alone leaves, so that a rotation repeated
    changes nothing; and the rotation of a week that has no row and no
    shift in the database changes nothing, without an error. *)
Theorem rotation_last_writer_wins (conn : DB) (start : Cal.date) (a b : string) :
  Cal.valid_start start ->
  EnsureWeeks.apply_tow (EnsureWeeks.apply_tow conn start a) start b
  = EnsureWeeks.apply_tow conn start b
  /\ EnsureWeeks.apply_tow (EnsureWeeks.apply_tow conn start a) start a
     = EnsureWeeks.apply_tow conn start a
  /\ ((forall w, In w (sc_weeks conn) -> week_id w <> EnsureWeeks.week_id_for start) ->
      (forall s, In s (sc_shifts conn) -> s_week_id s <> EnsureWeeks.week_id_for start) ->
      EnsureWeeks.apply_tow conn start a = conn).
Proof.
  intros _.
  assert (H : forall x y,
             EnsureWeeks.apply_tow (EnsureWeeks.apply_tow conn start x) start y
             = EnsureWeeks.apply_tow conn start y).
  { intros x y. rewrite (apply_tow_tables (EnsureWeeks.apply_tow conn start x)).
    rewrite !apply_tow_tables. unfold shift_ids_of_week.
    cbn [sc_weeks sc_shifts sc_shift_config sc_seat_records].
    rewrite !map_map. f_equal; apply map_ext; intros r.
    - destruct (week_id r =? EnsureWeeks.week_id_for start) eqn:E;
        cbn [week_id set_first_out]; rewrite E; reflexivity.
    - destruct (Py.in_tuple (c_shift_id r) _) eqn:E;
        cbn [c_shift_id set_staffed]; rewrite E; reflexivity. }
  split; [apply H|]. split; [apply H|].
  intros Hw Hs. rewrite apply_tow_tables.
  assert (Ei : shift_ids_of_week conn (EnsureWeeks.week_id_for start) = []).
  { unfold shift_ids_of_week. rewrite filter_none; [reflexivity|].
    intros s Hin. apply String.eqb_neq. now apply Hs. }
  rewrite Ei. destruct conn as [W S C R]. cbn [sc_weeks sc_shifts sc_shift_config
                                                 sc_seat_records] in *.
  f_equal.
  - rewrite <- (map_id W) at 2. apply map_ext_in. intros w Hin.
    destruct (String.eqb_spec (week_id w) (EnsureWeeks.week_id_for start)) as [E|];
      [|reflexivity].
    exfalso. now apply (Hw w).
  - rewrite <- (map_id C) at 2. apply map_ext. reflexivity.
Qed.

(** A rotation of a week that an empty database does not have. *)
Lemma rotation_last_writer_wins_witness :
  EnsureWeeks.apply_tow empty_db Examples.thu_2025_12_04 "AMB131" = empty_db.
Proof.
  assert (Hv : Cal.valid_start Examples.thu_2025_12_04)
    by (vm_compute; split; discriminate).
  destruct (rotation_last_writer_wins empty_db Examples.thu_2025_12_04 "AMB131" "AMB121" Hv)
    as (_ & _ & H).
  apply H; intros ? [].
Defined.

(** ** The week of [apply_tow_rotation_dec2025.py] *)

Section TowRotationFacts.

Variable units : list string.
Variable first_out : string.

Lemma insert_shifts_fresh (rows : list Shift) (c : DB) :
  NoDup (map shift_id rows) ->
  (forall s, In s (sc_shifts c) -> ~ In (shift_id s) (map shift_id rows)) ->
  fold_left TowRotation.insert_shift rows (Some c)
  = Some (with_shifts c (sc_shifts c ++ rows)).
Proof.
  revert c. induction rows as [|r rows IH]; intros c Hnd Hfresh.
  - simpl. rewrite app_nil_r. now rewrite with_shifts_same.
  - inversion Hnd as [|? ? Hn Hnd']; subst. cbn [fold_left TowRotation.insert_shift].
    replace (existsb (fun x => shift_id x =? shift_id r) (sc_shifts c)) with false.
    + rewrite IH.
      * unfold with_shifts. cbn [sc_weeks sc_shifts sc_shift_config sc_seat_records].
        now rewrite <- app_assoc.
      * exact Hnd'.
      * cbn [with_shifts sc_shifts]. intros s Hs Hin. apply in_app_or in Hs.
        destruct Hs as [Hs|[<-|[]]]; [|contradiction].
        apply (Hfresh s Hs). now right.
    + symmetry. apply (proj2 (has_row_false EnsureWeeks.same_shift (sc_shifts c) r)).
      intros x Hx. apply String.eqb_neq. intros E. apply (Hfresh x Hx). left.
      now symmetry.
Qed.

Lemma shadow_loop (sid : string) (us : list string) (c : DB) :
  fold_left
    (fun conn u =>
       if u =? first_out then conn
       else fold_left (fun conn seat => TowRotation.insert_seat sid conn u seat "SHADOW")
                      ["ATTENDANT"; "DRIVER"]%string conn)
    us c
  = with_seats c
      (sc_seat_records c
       ++ flat_map (fun u => map (Spec.blank_seat "NONE" sid u "SHADOW") Spec.ROLES)
                   (filter (fun u => negb (u =? first_out)) us)).
Proof.
  revert c. induction us as [|u us IH]; intros c.
  - simpl. rewrite app_nil_r. now rewrite with_seats_same.
  - cbn [fold_left filter]. destruct (u =? first_out).
    + cbn [negb]. apply IH.
    + cbn [negb flat_map]. rewrite IH. unfold TowRotation.insert_seat, with_seats.
      cbn [sc_weeks sc_shifts sc_shift_config sc_seat_records map Spec.ROLES].
      now rewrite <- !app_assoc.
Qed.

Lemma insert_cfg_seats_fresh (sid : string) (c : DB) :
  existsb (fun x => c_shift_id x =? sid) (sc_shift_config c) = false ->
  TowRotation.insert_cfg_seats units first_out (Some c) sid
  = Some (mk_db (sc_weeks c) (sc_shifts c)
                (sc_shift_config c ++ [EnsureWeeks.new_cfg first_out sid])
                (sc_seat_records c
                 ++ Spec.seats_primary_first "NONE" first_out units sid)).
Proof.
  intros E. unfold TowRotation.insert_cfg_seats. rewrite E. cbv zeta.
  rewrite shadow_loop.
  unfold Spec.seats_primary_first, EnsureWeeks.new_cfg, Spec.blank_seat.
  cbn [with_seats with_cfg TowRotation.insert_seat sc_weeks sc_shifts sc_shift_config
       sc_seat_records fold_left map flat_map Spec.ROLES].
  now rewrite <- !app_assoc.
Qed.

Lemma insert_cfgs_fresh (sids : list string) (c : DB) :
  NoDup sids ->
  (forall x, In x (sc_shift_config c) -> ~ In (c_shift_id x) sids) ->
  fold_left (TowRotation.insert_cfg_seats units first_out) sids (Some c)
  = Some (mk_db (sc_weeks c) (sc_shifts c)
                (sc_shift_config c ++ map (EnsureWeeks.new_cfg first_out) sids)
                (sc_seat_records c
                 ++ flat_map (Spec.seats_primary_first "NONE" first_out units) sids)).
Proof.
  revert c. induction sids as [|sid sids IH]; intros c Hnd Hfresh.
  - simpl. rewrite !app_nil_r. now destruct c.
  - inversion Hnd as [|? ? Hn Hnd']; subst.
    change (fold_left (TowRotation.insert_cfg_seats units first_out) (sid :: sids) (Some c))
      with (fold_left (TowRotation.insert_cfg_seats units first_out) sids
              (TowRotation.insert_cfg_seats units first_out (Some c) sid)).
    rewrite insert_cfg_seats_fresh.
    + rewrite IH.
      * cbn [sc_weeks sc_shifts sc_shift_config sc_seat_records map flat_map].
        now rewrite <- !app_assoc.
      * exact Hnd'.
      * cbn [sc_shift_config]. intros x Hx Hin.
        apply in_app_or in Hx. destruct Hx as [Hx|[<-|[]]].
        -- apply (Hfresh x Hx). now right.
        -- now apply Hn.
    + apply existsb_filter_nil. apply filter_none. intros x Hx.
      apply String.eqb_neq. intros E. apply (Hfresh x Hx). now left.
Qed.

End TowRotationFacts.

(** The week of the rotation script and the week of the ensure-variant
    generator, for a valid start.  When the week row is there the rotation script adds nothing,
    whatever else of the week is missing; on a database without rows of the
    week it creates the week, the shifts and the configurations of the
    generator and the generator's seat records without their ids. *)
Theorem tow_rotation_week (units : list string) (conn : DB) (start : Cal.date)
    (first_out : string) :
  Cal.valid_start start ->
  (existsb (fun w => week_id w =? EnsureWeeks.week_id_for start)%string (sc_weeks conn)
   = true ->
   TowRotation.ensure_week units conn start first_out = Some conn)
  /\ (NoDup units -> EnsureWeeks.fresh_week conn start ->
      let g := EnsureWeeks.ensure_week units conn start first_out in
      exists conn' N,
        TowRotation.ensure_week units conn start first_out = Some conn'
        /\ sc_weeks conn' = sc_weeks g
        /\ sc_shifts conn' = sc_shifts g
        /\ sc_shift_config conn' = sc_shift_config g
        /\ sc_seat_records g = sc_seat_records conn ++ N
        /\ sc_seat_records conn' = sc_seat_records conn ++ map Spec.strip_id N).
Proof.
  intros _. split.
  - intros E. unfold TowRotation.ensure_week. cbv zeta.
    change (ApplyTowRotation.week_id_for start) with (EnsureWeeks.week_id_for start).
    now rewrite E.
  - intros Hu Hfresh g.
    pose proof (ensure_week_fresh units first_out Hu conn start Hfresh) as Eg.
    cbv zeta in Eg. fold g in Eg.
    destruct Hfresh as (Hw & Hs & Hc & _).
    set (wid := EnsureWeeks.week_id_for start) in *.
    assert (Ew : existsb (fun w => week_id w =? wid)%string (sc_weeks conn) = false).
    { apply existsb_filter_nil. apply filter_none. intros w Hin.
      apply String.eqb_neq. now apply Hw. }
    unfold TowRotation.ensure_week. cbv zeta.
    change (ApplyTowRotation.week_id_for start) with wid. rewrite Ew.
    rewrite insert_shifts_fresh.
    + unfold shift_ids_of_week.
      cbn [with_shifts with_weeks sc_weeks sc_shifts sc_shift_config sc_seat_records].
      rewrite filter_app, map_app.
      rewrite (filter_none _ (sc_shifts conn)),
        (filter_all _ (EnsureWeeks.week_shifts wid start)).
      * cbn [map List.app]. rewrite week_shift_ids.
        rewrite insert_cfgs_fresh; [|apply shift_ids_NoDup | exact Hc].
        cbn [sc_weeks sc_shifts sc_shift_config sc_seat_records].
        eexists _, _. split; [reflexivity|]. rewrite Eg.
        cbn [sc_weeks sc_shifts sc_shift_config sc_seat_records].
        repeat split. f_equal. rewrite map_flat_map.
        apply flat_map_ext. intros sid. symmetry. apply strip_seat_rows.
      * intros x Hx. apply String.eqb_eq. now apply week_shifts_week with (start := start).
      * intros x Hx. apply String.eqb_neq. apply (proj1 (Hs x Hx)).
    + rewrite week_shift_ids. apply shift_ids_NoDup.
    + cbn [with_weeks sc_shifts]. intros s Hin. rewrite week_shift_ids.
      apply (proj2 (Hs s Hin)).
Qed.

(** The week of 2025-12-04 on an empty database. *)
Lemma tow_rotation_week_witness :
  exists conn' N,
    TowRotation.ensure_week EnsureWeeks.UNITS empty_db Examples.thu_2025_12_04 "AMB121"
    = Some conn'
    /\ sc_seat_records
         (EnsureWeeks.ensure_week EnsureWeeks.UNITS empty_db Examples.thu_2025_12_04 "AMB121")
       = N
    /\ sc_seat_records conn' = map Spec.strip_id N.
Proof.
  assert (Hu : NoDup EnsureWeeks.UNITS).
  { repeat constructor; simpl; intuition discriminate. }
  assert (Hf : EnsureWeeks.fresh_week empty_db Examples.thu_2025_12_04).
  { unfold EnsureWeeks.fresh_week. cbv zeta. cbn [empty_db sc_weeks sc_shifts
      sc_shift_config sc_seat_records In].
    repeat split; intros; contradiction. }
  assert (Hv : Cal.valid_start Examples.thu_2025_12_04)
    by (vm_compute; split; discriminate).
  destruct (tow_rotation_week EnsureWeeks.UNITS empty_db Examples.thu_2025_12_04 "AMB121" Hv)
    as (_ & H).
  destruct (H Hu Hf) as (c & N & E & _ & _ & _ & EN & Ec).
  exists c, N. split; [exact E|]. split; [exact EN | exact Ec].
Defined.

(** ** A week that is there in part *)

(** The ensure-variant generator on any database and valid start, also on
    a database that holds a part of the week: each of the four tables is the table it was with new
    rows after it, so that no row is changed or removed; afterwards the week
    row and the fourteen shifts are there, and every shift of the week has
    its configuration row and a seat record for every generated seat id of
    its layout. *)
Theorem ensure_week_repairs (units : list string) (conn : DB) (start : Cal.date)
    (first_out : string) :
  Cal.valid_start start ->
  let wid := EnsureWeeks.week_id_for start in
  let g := EnsureWeeks.ensure_week units conn start first_out in
  (exists lw ls lc lr,
      sc_weeks g = sc_weeks conn ++ lw
      /\ sc_shifts g = sc_shifts conn ++ ls
      /\ sc_shift_config g = sc_shift_config conn ++ lc
      /\ sc_seat_records g = sc_seat_records conn ++ lr)
  /\ existsb (fun w => week_id w =? wid)%string (sc_weeks g) = true
  /\ (forall sid, In sid (EnsureWeeks.shift_ids_for wid) ->
        existsb (fun s => shift_id s =? sid)%string (sc_shifts g) = true)
  /\ (forall sid, In sid (shift_ids_of_week g wid) ->
        Edits.shift_done units first_out (sc_shift_config g, sc_seat_records g) sid).
Proof.
  intros _.
  cbv zeta. rewrite (ensure_week_tables units first_out conn start). cbv zeta.
  cbn [sc_weeks sc_shifts sc_shift_config sc_seat_records].
  unfold shift_ids_of_week. cbn [sc_shifts].
  pose proof (week_shift_ids (EnsureWeeks.week_id_for start) start) as Eids.
  pose proof (insert_missing_extends EnsureWeeks.same_shift
                (EnsureWeeks.week_shifts (EnsureWeeks.week_id_for start) start)
                (sc_shifts conn)) as Hs.
  pose proof (fun s => insert_missing_has EnsureWeeks.same_shift
                (EnsureWeeks.week_shifts (EnsureWeeks.week_id_for start) start)
                (sc_shifts conn) s (fun r _ => String.eqb_refl (shift_id r))) as Hh.
  assert (Ew : week_id (EnsureWeeks.new_week start first_out)
               = EnsureWeeks.week_id_for start) by reflexivity.
  revert Eids Hs Hh Ew.
  generalize (EnsureWeeks.week_shifts (EnsureWeeks.week_id_for start) start).
  generalize (EnsureWeeks.new_week start first_out).
  generalize (EnsureWeeks.week_id_for start).
  intros wid nw rows Eids (ls & Es) Hh Ew. rewrite Es in *.
  destruct (steps_extend units first_out
              (map shift_id (filter (fun s => s_week_id s =? wid)%string
                                    (sc_shifts conn ++ ls)))
              (sc_shift_config conn, sc_seat_records conn)) as (lc & lr & Et).
  split; [|split; [|split]].
  - rewrite Et. cbn [fst snd]. unfold Sql.insert_if_missing.
    destruct (Sql.has_row EnsureWeeks.same_week (sc_weeks conn) nw).
    + exists [], ls, lc, lr. rewrite app_nil_r. repeat split; reflexivity.
    + exists [nw], ls, lc, lr. repeat split; reflexivity.
  - unfold Sql.insert_if_missing.
    destruct (Sql.has_row EnsureWeeks.same_week (sc_weeks conn) nw) eqn:E.
    + unfold Sql.has_row, EnsureWeeks.same_week in E. rewrite Ew in E. exact E.
    + rewrite existsb_app. apply orb_true_iff. right. cbn [existsb].
      rewrite Ew, String.eqb_refl. reflexivity.
  - intros sid Hin. rewrite <- Eids in Hin.
    apply in_map_iff in Hin. destruct Hin as (s & <- & Hin).
    exact (Hh s Hin).
  - intros sid Hin. rewrite <- surjective_pairing.
    apply (steps_done units first_out). left. exact Hin.
Qed.

(** ** The units of [create_week.py] *)

Section UnitsOrder.

Import CreateWeek.

Local Abbreviation le := (fun a b : string => String.leb a b = true).

Lemma leb_not_gt (a b : string) : String.leb a b = true <-> String.compare a b <> Gt.
Proof.
  unfold String.leb. destruct (String.compare a b); split; intros; congruence.
Qed.

Lemma compare_not_gt_trans (a b c : string) :
  String.compare a b <> Gt -> String.compare b c <> Gt -> String.compare a c <> Gt.
Proof.
  revert b c. induction a as [|x a IH]; intros [|y b] [|z c]; simpl; try congruence.
  change (Ascii.compare x y) with (N.compare (N_of_ascii x) (N_of_ascii y)).
  change (Ascii.compare y z) with (N.compare (N_of_ascii y) (N_of_ascii z)).
  change (Ascii.compare x z) with (N.compare (N_of_ascii x) (N_of_ascii z)).
  destruct (N.compare_spec (N_of_ascii x) (N_of_ascii y)) as [E1|L1|G1];
    destruct (N.compare_spec (N_of_ascii y) (N_of_ascii z)) as [E2|L2|G2];
    try congruence; intros H1 H2.
  - rewrite E1, E2, N.compare_refl. now apply (IH b c).
  - rewrite E1. now rewrite (proj2 (N.compare_lt_iff _ _) L2).
  - rewrite <- E2. now rewrite (proj2 (N.compare_lt_iff _ _) L1).
  - now rewrite (proj2 (N.compare_lt_iff _ _) (N.lt_trans _ _ _ L1 L2)).
Qed.

Lemma leb_trans (a b c : string) : le a b -> le b c -> le a c.
Proof. rewrite !leb_not_gt. apply compare_not_gt_trans. Qed.

Lemma insert_sorted_perm (u : string) (l : list string) :
  Permutation (u :: l) (insert_sorted u l).
Proof.
  induction l as [|x l IH]; simpl; [apply Permutation_refl|].
  destruct (String.leb u x); [apply Permutation_refl|].
  apply perm_trans with (x :: u :: l); [apply perm_swap | now apply perm_skip].
Qed.

Lemma order_by_perm (l : list string) : Permutation l (order_by l).
Proof.
  induction l as [|u l IH]; simpl; [apply perm_nil|].
  apply perm_trans with (u :: order_by l); [now apply perm_skip|].
  apply insert_sorted_perm.
Qed.

Lemma insert_sorted_sorted (u : string) (l : list string) :
  StronglySorted le l -> StronglySorted le (insert_sorted u l).
Proof.
  induction l as [|x l IH]; intros Hs; simpl.
  - constructor; constructor.
  - inversion Hs as [|? ? Hl Hx]; subst.
    destruct (String.leb u x) eqn:E.
    + constructor; [exact Hs|]. constructor; [exact E|].
      rewrite Forall_forall in *. intros y Hy. apply (leb_trans u x y E). now apply Hx.
    + constructor; [now apply IH|].
      assert (Hxu : le x u).
      { destruct (String.leb_total x u) as [H|H]; [exact H | congruence]. }
      rewrite Forall_forall in *. intros y Hy.
      apply (Permutation_in _ (Permutation_sym (insert_sorted_perm u l))) in Hy.
      destruct Hy as [<-|Hy]; [exact Hxu | now apply Hx].
Qed.

Lemma order_by_sorted (l : list string) : StronglySorted le (order_by l).
Proof.
  induction l as [|u l IH]; simpl; [constructor | now apply insert_sorted_sorted].
Qed.

(** Two listings in order of the same ids are the same list. *)
Lemma sorted_listing_unique (l l' : list string) :
  StronglySorted le l -> StronglySorted le l' -> Permutation l l' -> l = l'.
Proof.
  revert l'. induction l as [|x l IH]; intros l' Hs Hs' Hp.
  - apply Permutation_nil in Hp. now subst.
  - destruct l' as [|y l'].
    { apply Permutation_sym, Permutation_nil in Hp. discriminate. }
    inversion Hs as [|? ? Hl Hx]; inversion Hs' as [|? ? Hl' Hy]; subst.
    rewrite Forall_forall in Hx, Hy.
    assert (E : x = y).
    { assert (Hxy : In x (y :: l')) by (apply (Permutation_in _ Hp); now left).
      assert (Hyx : In y (x :: l))
        by (apply (Permutation_in _ (Permutation_sym Hp)); now left).
      destruct Hxy as [->|Hxy]; [reflexivity|].
      destruct Hyx as [->|Hyx]; [reflexivity|].
      apply String.leb_antisym; [now apply Hx | now apply Hy]. }
    subst y. f_equal. apply IH; try assumption.
    now apply Permutation_cons_inv with (a := x).
Qed.

End UnitsOrder.

(** [units_list] of [create_week.py]: with no [units] table or no active
    unit it is the fallback list; otherwise it lists the ids of the active
    units, each as often as the table has it, every id before the ids that
    follow it in the order of the strings; it is never empty, and the order
    of the rows of the table does not change it. *)
Theorem units_list_ordered (conn : CreateWeek.Conn) :
  let active_ids rows :=
    map CreateWeek.u_unit_id (filter (fun u => (CreateWeek.u_active u =? 1)%Z) rows) in
  (CreateWeek.units conn = None ->
   CreateWeek.units_list conn = ["AMB120"; "AMB121"; "AMB131"]%string)
  /\ (forall rows, CreateWeek.units conn = Some rows ->
        (active_ids rows = [] ->
         CreateWeek.units_list conn = ["AMB120"; "AMB121"; "AMB131"]%string)
        /\ (active_ids rows <> [] ->
            Permutation (active_ids rows) (CreateWeek.units_list conn)))
  /\ StronglySorted (fun a b => String.leb a b = true) (CreateWeek.units_list conn)
  /\ CreateWeek.units_list conn <> []
  /\ (forall rows rows' t n,
        CreateWeek.units conn = Some rows -> Permutation rows rows' ->
        CreateWeek.units_list (CreateWeek.mk_conn t (Some rows') n)
        = CreateWeek.units_list conn).
Proof.
  cbv zeta.
  assert (Hfb : StronglySorted (fun a b => String.leb a b = true)
                  ["AMB120"; "AMB121"; "AMB131"]%string).
  { repeat (constructor; [|repeat constructor]). constructor. }
  assert (Hl : forall rows,
             CreateWeek.units_list (CreateWeek.mk_conn empty_db (Some rows) 0)
             = match CreateWeek.order_by
                       (map CreateWeek.u_unit_id
                            (filter (fun u => (CreateWeek.u_active u =? 1)%Z) rows)) with
               | [] => ["AMB120"; "AMB121"; "AMB131"]%string
               | l => l
               end) by reflexivity.
  assert (Hc : forall t rows n,
             CreateWeek.units_list (CreateWeek.mk_conn t (Some rows) n)
             = CreateWeek.units_list (CreateWeek.mk_conn empty_db (Some rows) 0))
    by reflexivity.
  destruct conn as [t [rows|] n].
  2:{ split; [reflexivity|]. split; [discriminate|]. split; [exact Hfb|].
      split; discriminate. }
  rewrite Hc, Hl.
  set (ids := map CreateWeek.u_unit_id
                  (filter (fun u => (CreateWeek.u_active u =? 1)%Z) rows)).
  pose proof (order_by_perm ids) as Hp. pose proof (order_by_sorted ids) as Hs.
  split; [discriminate|]. split; [|split; [|split]].
  - intros rows0 E. cbn [CreateWeek.units] in E. injection E as <-. fold ids. split.
    + intros E. rewrite E. reflexivity.
    + intros Hne. destruct (CreateWeek.order_by ids) eqn:E; [|exact Hp].
      apply Permutation_sym, Permutation_nil in Hp. contradiction.
  - destruct (CreateWeek.order_by ids); [exact Hfb | exact Hs].
  - destruct (CreateWeek.order_by ids); discriminate.
  - intros rows0 rows' t' n' E Hperm. cbn [CreateWeek.units] in E. injection E as <-.
    rewrite Hc, Hl.
    set (ids' := map CreateWeek.u_unit_id
                     (filter (fun u => (CreateWeek.u_active u =? 1)%Z) rows')).
    assert (Hpp : Permutation ids ids').
    { unfold ids, ids'. apply Permutation_map. clear -Hperm.
      induction Hperm; simpl.
      - constructor.
      - destruct (CreateWeek.u_active x =? 1)%Z; [now constructor | assumption].
      - destruct (CreateWeek.u_active x =? 1)%Z, (CreateWeek.u_active y =? 1)%Z;
          try apply Permutation_refl; constructor.
      - eapply perm_trans; eassumption. }
    assert (Eo : CreateWeek.order_by ids' = CreateWeek.order_by ids).
    { apply sorted_listing_unique; try apply order_by_sorted.
      apply perm_trans with ids'; [apply Permutation_sym, order_by_perm|].
      apply perm_trans with ids; [now apply Permutation_sym | apply order_by_perm]. }
    now rewrite Eo.
Qed.

(** The fallback units of a connection without a [units] table. *)
Lemma units_list_ordered_witness :
  StronglySorted (fun a b => String.leb a b = true)
                 (CreateWeek.units_list (CreateWeek.mk_conn empty_db None 0))
  /\ CreateWeek.units_list (CreateWeek.mk_conn empty_db None 0) <> [].
Proof.
  destruct (units_list_ordered (CreateWeek.mk_conn empty_db None 0))
    as (_ & _ & Hs & Hn & _).
  split; [exact Hs | exact Hn].
Defined.

(** The week of 2025-12-04 on a database that has the week row and one of
    its shifts: the tables are extended. *)
Lemma ensure_week_repairs_witness :
  let g := EnsureWeeks.ensure_week EnsureWeeks.UNITS Examples.one_shift_db
             Examples.thu_2025_12_04 "AMB121" in
  exists lw ls lc lr,
    sc_weeks g = sc_weeks Examples.one_shift_db ++ lw
    /\ sc_shifts g = sc_shifts Examples.one_shift_db ++ ls
    /\ sc_shift_config g = sc_shift_config Examples.one_shift_db ++ lc
    /\ sc_seat_records g = sc_seat_records Examples.one_shift_db ++ lr.
Proof.
  assert (Hv : Cal.valid_start Examples.thu_2025_12_04)
    by (vm_compute; split; discriminate).
  destruct (ensure_week_repairs EnsureWeeks.UNITS Examples.one_shift_db
              Examples.thu_2025_12_04 "AMB121" Hv) as (H & _).
  exact H.
Defined.

(** ** The rotation script on weeks that exist *)

Section RotationRun.

Variable units : list string.
Variable rotation : list string.
Variable start1 : Cal.date.

Local Abbreviation rotate :=
  (fun (c : DB) (i : Z) =>
     EnsureWeeks.apply_tow c (start1 + 7 * i) (EnsureWeeks.rotation_unit rotation i)).

Lemma apply_tow_keeps (conn : DB) (start : Cal.date) (tow : string) :
  sc_shifts (EnsureWeeks.apply_tow conn start tow) = sc_shifts conn
  /\ sc_seat_records (EnsureWeeks.apply_tow conn start tow) = sc_seat_records conn
  /\ map week_id (sc_weeks (EnsureWeeks.apply_tow conn start tow))
     = map week_id (sc_weeks conn)
  /\ map c_shift_id (sc_shift_config (EnsureWeeks.apply_tow conn start tow))
     = map c_shift_id (sc_shift_config conn).
Proof.
  rewrite apply_tow_tables. cbn [sc_weeks sc_shifts sc_shift_config sc_seat_records].
  rewrite !map_map. repeat split; apply map_ext; intros x.
  - now destruct (week_id x =? EnsureWeeks.week_id_for start)%string.
  - now destruct (Py.in_tuple (c_shift_id x) _).
Qed.

Lemma has_week_ids (wid : string) (l l' : list Week) :
  map week_id l = map week_id l' ->
  existsb (fun w => week_id w =? wid)%string l
  = existsb (fun w => week_id w =? wid)%string l'.
Proof.
  revert l'. induction l as [|w l IH]; intros [|w' l'] E; try discriminate; [reflexivity|].
  simpl in E. injection E as E1 E2. simpl. rewrite E1. f_equal. now apply IH.
Qed.

Lemma rotation_loop_existing (l : list Z) (conn : DB) :
  (forall i, In i l ->
     existsb (fun w => week_id w =? EnsureWeeks.week_id_for (start1 + 7 * i))%string
             (sc_weeks conn) = true) ->
  fold_left
    (fun conn i =>
       match conn with
       | None => None
       | Some conn =>
           match TowRotation.ensure_week units conn (start1 + 7 * i)
                   (EnsureWeeks.rotation_unit rotation i) with
           | None => None
           | Some conn =>
               Some (ApplyTowRotation.apply_week_first_out conn (start1 + 7 * i)
                       (EnsureWeeks.rotation_unit rotation i))
           end
       end) l (Some conn)
  = Some (fold_left rotate l conn).
Proof.
  revert conn. induction l as [|i l IH]; intros conn H; [reflexivity|].
  cbn [fold_left].
  assert (E : TowRotation.ensure_week units conn (start1 + 7 * i)
                (EnsureWeeks.rotation_unit rotation i) = Some conn).
  { unfold TowRotation.ensure_week. cbv zeta.
    change (ApplyTowRotation.week_id_for (start1 + 7 * i))
      with (EnsureWeeks.week_id_for (start1 + 7 * i)).
    now rewrite (H i (or_introl eq_refl)). }
  rewrite E.
  change (ApplyTowRotation.apply_week_first_out conn (start1 + 7 * i)
            (EnsureWeeks.rotation_unit rotation i))
    with (EnsureWeeks.apply_tow conn (start1 + 7 * i)
            (EnsureWeeks.rotation_unit rotation i)).
  apply IH. intros j Hj.
  destruct (apply_tow_keeps conn (start1 + 7 * i) (EnsureWeeks.rotation_unit rotation i))
    as (_ & _ & Ew & _).
  rewrite (has_week_ids _ _ _ Ew). apply H. now right.
Qed.

Lemma rotate_loop_keeps (l : list Z) (conn : DB) :
  sc_shifts (fold_left rotate l conn) = sc_shifts conn
  /\ sc_seat_records (fold_left rotate l conn) = sc_seat_records conn
  /\ map week_id (sc_weeks (fold_left rotate l conn)) = map week_id (sc_weeks conn)
  /\ map c_shift_id (sc_shift_config (fold_left rotate l conn))
     = map c_shift_id (sc_shift_config conn).
Proof.
  revert conn. induction l as [|i l IH]; intros conn; [repeat split|].
  cbn [fold_left].
  destruct (IH (EnsureWeeks.apply_tow conn (start1 + 7 * i)
                  (EnsureWeeks.rotation_unit rotation i))) as (H1 & H2 & H3 & H4).
  destruct (apply_tow_keeps conn (start1 + 7 * i) (EnsureWeeks.rotation_unit rotation i))
    as (K1 & K2 & K3 & K4).
  rewrite H1, H2, H3, H4. repeat split; assumption.
Qed.

End RotationRun.

(** The rotation script run on weeks that all exist, with valid starts and
    a rotation that is not empty, ends without an error and only rotates:
    its result is that of the rotations alone, one week after the other; the
    shifts and the seat records are the same tables, and the weeks and the
    configurations are the same rows up to the first-out and the staffed
    unit, so that nothing is created. *)
Theorem rotation_of_existing_weeks (units : list string) (conn : DB)
    (start1 : Cal.date) (weeks : nat) (rotation : list string) :
  rotation <> [] ->
  (forall i, In i (Py.range weeks) -> Cal.valid_start (start1 + 7 * i)) ->
  (forall i, In i (Py.range weeks) ->
     existsb (fun w => week_id w =? EnsureWeeks.week_id_for (start1 + 7 * i))%string
             (sc_weeks conn) = true) ->
  exists conn',
    TowRotation.main units conn start1 weeks rotation = Some conn'
    /\ conn' = fold_left
                 (fun c i => EnsureWeeks.apply_tow c (start1 + 7 * i)
                               (EnsureWeeks.rotation_unit rotation i))
                 (Py.range weeks) conn
    /\ sc_shifts conn' = sc_shifts conn
    /\ sc_seat_records conn' = sc_seat_records conn
    /\ map week_id (sc_weeks conn') = map week_id (sc_weeks conn)
    /\ map c_shift_id (sc_shift_config conn') = map c_shift_id (sc_shift_config conn)
    /\ List.length (sc_weeks conn') = List.length (sc_weeks conn)
    /\ List.length (sc_shift_config conn') = List.length (sc_shift_config conn).
Proof.
  intros Hr _ Hw. eexists. split.
  - unfold TowRotation.main. destruct rotation as [|u us]; [contradiction|].
    apply (rotation_loop_existing units (u :: us) start1 (Py.range weeks) conn Hw).
  - split; [reflexivity|].
    destruct (rotate_loop_keeps rotation start1 (Py.range weeks) conn)
      as (H1 & H2 & H3 & H4).
    repeat split; try assumption.
    + rewrite <- (length_map week_id), H3. apply length_map.
    + rewrite <- (length_map c_shift_id), H4. apply length_map.
Qed.

(** One week of the rotation script on a database that has the week. *)
Lemma rotation_of_existing_weeks_witness :
  exists conn',
    TowRotation.main EnsureWeeks.UNITS Examples.one_shift_db Examples.thu_2025_12_04 1
                     ["AMB131"%string] = Some conn'
    /\ sc_shifts conn' = sc_shifts Examples.one_shift_db
    /\ sc_seat_records conn' = sc_seat_records Examples.one_shift_db.
Proof.
  assert (Hr : ["AMB131"%string] <> []) by discriminate.
  assert (Hv : forall i, In i (Py.range 1) ->
                         Cal.valid_start (Examples.thu_2025_12_04 + 7 * i)).
  { intros i [<-|[]]. vm_compute. split; discriminate. }
  assert (Hw : forall i, In i (Py.range 1) ->
             existsb (fun w => week_id w
                               =? EnsureWeeks.week_id_for (Examples.thu_2025_12_04 + 7 * i))%string
                     (sc_weeks Examples.one_shift_db) = true).
  { intros i [<-|[]]. vm_compute. reflexivity. }
  destruct (rotation_of_existing_weeks EnsureWeeks.UNITS Examples.one_shift_db
              Examples.thu_2025_12_04 1 ["AMB131"%string] Hr Hv Hw)
    as (c & E & _ & Hs & Hr' & _).
  exists c. split; [exact E|]. split; [exact Hs | exact Hr'].
Defined.
